(** * nvbenchr: the R binding of nvbench (R/src/nvbenchr.cpp)

    A shallow embedding of the binding layer.  The binding is glue between
    three parties: the R runtime (values of type SEXP), Rcpp (conversions and
    the error signal [Rcpp::stop]) and the nvbench library (benchmarks,
    states, launches, streams).  Rcpp and nvbench are external: their
    behaviour enters as two interface records, and every definition below is
    parametric in them.  What the binding does is observed through the
    outcome of an entry point, the registry it owns, and the ordered list of
    interactions ([Event]) it performs. *)

From Stdlib Require Import ZArith NArith List String Bool Lia Floats.
Import ListNotations.
Open Scope string_scope.
Open Scope Z_scope.

Set Implicit Arguments.

(** ** R values *)

(** Native addresses as stored in an external pointer; [nullptr] is 0. *)
Definition ptr := N.
Definition nullptr : ptr := 0%N.

Inductive SEXPTYPE :=
| NILSXP | LGLSXP | INTSXP | REALSXP | STRSXP | VECSXP
| CLOSXP | SPECIALSXP | BUILTINSXP | ENVSXP | EXTPTRSXP.

Definition SEXPTYPE_eqb (a b : SEXPTYPE) : bool :=
  match a, b with
  | NILSXP, NILSXP | LGLSXP, LGLSXP | INTSXP, INTSXP | REALSXP, REALSXP
  | STRSXP, STRSXP | VECSXP, VECSXP | CLOSXP, CLOSXP
  | SPECIALSXP, SPECIALSXP | BUILTINSXP, BUILTINSXP | ENVSXP, ENVSXP
  | EXTPTRSXP, EXTPTRSXP => true
  | _, _ => false
  end.

(** The R values the binding receives and builds.  An external pointer
    carries the stored address, whether a delete-finalizer is registered on
    it, and its class attribute (itself an R value, R_NilValue when unset); a
    generic vector carries its elements and their names. *)
#[local] Set Warnings "-register-all".
Inductive SEXP : Type :=
| R_NilValue
| Lgl (v : list bool)
| Int (v : list Z)
| Real (v : list float)
| Str (v : list string)
| Vec (v : list SEXP) (names : list string)
| Clo (id : nat)
| Special (id : nat)
| Builtin (id : nat)
| Env (id : nat)
| ExtPtr (addr : ptr) (finalizer : bool) (cls : SEXP).

Definition TYPEOF (s : SEXP) : SEXPTYPE :=
  match s with
  | R_NilValue => NILSXP
  | Lgl _ => LGLSXP
  | Int _ => INTSXP
  | Real _ => REALSXP
  | Str _ => STRSXP
  | Vec _ _ => VECSXP
  | Clo _ => CLOSXP
  | Special _ => SPECIALSXP
  | Builtin _ => BUILTINSXP
  | Env _ => ENVSXP
  | ExtPtr _ _ _ => EXTPTRSXP
  end.

(** Rf_isFunction: closures, builtins and specials. *)
Definition Rf_isFunction (s : SEXP) : bool :=
  match s with
  | Clo _ | Special _ | Builtin _ => true
  | _ => false
  end.

(** Rf_getAttrib(obj, R_ClassSymbol), on the values that can carry the
    attribute here. *)
Definition Rf_getAttrib_class (obj : SEXP) : SEXP :=
  match obj with
  | ExtPtr _ _ cls => cls
  | _ => R_NilValue
  end.

(** R_ExternalPtrAddr. *)
Definition R_ExternalPtrAddr (obj : SEXP) : ptr :=
  match obj with
  | ExtPtr a _ _ => a
  | _ => nullptr
  end.

(** ** C++ exceptions and outcomes *)

Inductive cpp_exception :=
| StdException (what : string)   (* anything derived from std::exception *)
| UnknownException.              (* anything else, caught only by catch (...) *)

(** What an external call gives back: a value, or a thrown exception. *)
Inductive ext_result (A : Type) :=
| ERet (a : A)
| EThrow (e : cpp_exception).
Arguments ERet {A} a.
Arguments EThrow {A} e.

(** Rcpp::as either converts or throws Rcpp::not_compatible, which derives
    from std::exception; [what] is its message. *)
Inductive rcpp_result (A : Type) :=
| AsOk (a : A)
| AsFail (what : string).
Arguments AsOk {A} a.
Arguments AsFail {A} what.

(** How a piece of the binding ends: it returns, it raises the R-level
    error [Rcpp::stop], a C++ exception of a library propagates out of it,
    or it runs into behaviour the C++ standard leaves undefined. *)
Inductive Outcome (A : Type) :=
| Ret (a : A)
| RStop (msg : string)
| Throw (e : cpp_exception)
| Undefined (why : string).
Arguments Ret {A} a.
Arguments RStop {A} msg.
Arguments Throw {A} e.
Arguments Undefined {A} why.

(** ** The nvbench interface, as the binding uses it *)

Definition r_int64 := Z.
Definition r_float64 := float.
Definition r_float32 := float.
Definition bench_ptr := ptr.
Definition state_ptr := ptr.
Definition launch_ptr := ptr.
Definition stream_ptr := ptr.

Definition int64_min : Z := - 2 ^ 63.
Definition int64_max : Z := 2 ^ 63 - 1.

(** nvbench::exec_tag values combine with [|]. *)
Record exec_tag := { tag_sync : bool; tag_no_batch : bool }.
Definition exec_tag_none : exec_tag := {| tag_sync := false; tag_no_batch := false |}.
Definition exec_tag_sync : exec_tag := {| tag_sync := true; tag_no_batch := false |}.
Definition exec_tag_no_batch : exec_tag := {| tag_sync := false; tag_no_batch := true |}.
Definition exec_tag_or (a b : exec_tag) : exec_tag :=
  {| tag_sync := tag_sync a || tag_sync b;
     tag_no_batch := tag_no_batch a || tag_no_batch b |}.

(** nvbench::named_values, a copy of which get_axis_values returns: names
    with a variant value each. *)
Inductive axis_value :=
| AxisInt64 (v : r_int64)
| AxisFloat64 (v : r_float64)
| AxisString (v : string).

Definition named_values := list (string * axis_value).

Definition get_names (nv : named_values) : list string := map fst nv.

Definition get_value (nv : named_values) (name : string) : option axis_value :=
  match find (fun p => String.eqb (fst p) name) nv with
  | Some p => Some (snd p)
  | None => None
  end.

Definition has_value (nv : named_values) (name : string) : bool :=
  match get_value nv name with Some _ => true | None => false end.

(** The calls the binding makes into nvbench, indexed by what they return.
    References returned by the library ([benchmark_base &], [summary &],
    [const cuda_stream &]) are addresses. *)
Inductive NvCall : Type -> Type :=
(* benchmark_manager and the NVBENCH_MAIN_* steps of a run *)
| Mgr_add (fn : SEXP) : NvCall bench_ptr
| Mgr_initialize : NvCall unit
| Parser_parse (argv : list string) : NvCall unit
| Main_print_preamble : NvCall unit
| Main_run_benchmarks : NvCall unit
| Main_print_epilogue : NvCall unit
| Main_print_results : NvCall unit
(* benchmark_base *)
| Bench_get_name (b : bench_ptr) : NvCall string
| Bench_set_name (b : bench_ptr) (name : string) : NvCall bench_ptr
| Bench_add_int64_axis (b : bench_ptr) (name : string) (values : list r_int64)
    (power_of_two : bool) : NvCall unit
| Bench_add_float64_axis (b : bench_ptr) (name : string)
    (values : list r_float64) : NvCall unit
| Bench_add_string_axis (b : bench_ptr) (name : string)
    (values : list string) : NvCall unit
| Bench_set_is_cpu_only (b : bench_ptr) (v : bool) : NvCall unit
| Bench_set_run_once (b : bench_ptr) (v : bool) : NvCall unit
| Bench_set_skip_time (b : bench_ptr) (v : r_float64) : NvCall unit
| Bench_set_timeout (b : bench_ptr) (v : r_float64) : NvCall unit
| Bench_set_throttle_threshold (b : bench_ptr) (v : r_float32) : NvCall unit
| Bench_set_throttle_recovery_delay (b : bench_ptr) (v : r_float32) : NvCall unit
| Bench_set_stopping_criterion (b : bench_ptr) (criterion : string) : NvCall unit
| Bench_set_criterion_param_int64 (b : bench_ptr) (name : string)
    (v : r_int64) : NvCall unit
| Bench_set_criterion_param_float64 (b : bench_ptr) (name : string)
    (v : r_float64) : NvCall unit
| Bench_set_criterion_param_string (b : bench_ptr) (name : string)
    (v : string) : NvCall unit
| Bench_set_min_samples (b : bench_ptr) (v : r_int64) : NvCall unit
| Bench_printer_has_value (b : bench_ptr) : NvCall bool
(* state *)
| State_get_device (s : state_ptr) : NvCall (option Z)
| State_get_cuda_stream (s : state_ptr) : NvCall stream_ptr
| State_get_int64 (s : state_ptr) (name : string) : NvCall r_int64
| State_get_int64_or_default (s : state_ptr) (name : string)
    (def : r_int64) : NvCall r_int64
| State_get_float64 (s : state_ptr) (name : string) : NvCall r_float64
| State_get_float64_or_default (s : state_ptr) (name : string)
    (def : r_float64) : NvCall r_float64
| State_get_string (s : state_ptr) (name : string) : NvCall string
| State_get_string_or_default (s : state_ptr) (name : string)
    (def : string) : NvCall string
| State_add_element_count (s : state_ptr) (count : r_int64)
    (column_name : string) : NvCall unit
| State_set_element_count (s : state_ptr) (count : r_int64) : NvCall unit
| State_get_element_count (s : state_ptr) : NvCall r_int64
| State_skip (s : state_ptr) (reason : string) : NvCall unit
| State_is_skipped (s : state_ptr) : NvCall bool
| State_get_skip_reason (s : state_ptr) : NvCall string
| State_add_global_memory_reads (s : state_ptr) (nbytes : Z)
    (column_name : string) : NvCall unit
| State_add_global_memory_writes (s : state_ptr) (nbytes : Z)
    (column_name : string) : NvCall unit
| State_get_benchmark (s : state_ptr) : NvCall bench_ptr
| State_get_throttle_threshold (s : state_ptr) : NvCall r_float32
| State_set_throttle_threshold (s : state_ptr) (v : r_float32) : NvCall unit
| State_get_min_samples (s : state_ptr) : NvCall r_int64
| State_set_min_samples (s : state_ptr) (v : r_int64) : NvCall unit
| State_get_disable_blocking_kernel (s : state_ptr) : NvCall bool
| State_set_disable_blocking_kernel (s : state_ptr) (v : bool) : NvCall unit
| State_get_run_once (s : state_ptr) : NvCall bool
| State_set_run_once (s : state_ptr) (v : bool) : NvCall unit
| State_get_timeout (s : state_ptr) : NvCall r_float64
| State_set_timeout (s : state_ptr) (v : r_float64) : NvCall unit
| State_get_blocking_kernel_timeout (s : state_ptr) : NvCall r_float64
| State_set_blocking_kernel_timeout (s : state_ptr) (v : r_float64) : NvCall unit
| State_collect_cupti_metrics (s : state_ptr) : NvCall unit
| State_is_cupti_required (s : state_ptr) : NvCall bool
| State_exec (s : state_ptr) (tag : exec_tag) (launcher : SEXP) : NvCall unit
| State_get_short_description (s : state_ptr) : NvCall string
| State_add_summary (s : state_ptr) (tag : string) : NvCall ptr
| State_get_axis_values (s : state_ptr) : NvCall named_values
| State_get_axis_values_as_string (s : state_ptr) : NvCall string
| State_get_stopping_criterion (s : state_ptr) : NvCall string
(* summary *)
| Summary_set_string (summ : ptr) (key value : string) : NvCall unit
| Summary_set_int64 (summ : ptr) (key : string) (value : r_int64) : NvCall unit
| Summary_set_float64 (summ : ptr) (key : string) (value : r_float64) : NvCall unit
(* launch, cuda_stream, driver *)
| Launch_get_stream (l : launch_ptr) : NvCall stream_ptr
| Stream_get_stream (s : stream_ptr) : NvCall ptr
| Driver_cuInit : NvCall unit.

(** The library itself: a state of its own, a handler for the calls, and the
    one query the binding makes that cannot throw,
    [benchmark_manager::get().get_benchmarks().empty()]. *)
Record Nvbench (nv : Type) := {
  nv_exec : forall T, NvCall T -> nv -> ext_result T * nv;
  nv_benchmarks_empty : nv -> bool
}.

(** ** The Rcpp and R interface *)

Record Rcpp := {
  (* Rcpp::as<T> at the types the binding converts to *)
  Rcpp_as_string : SEXP -> rcpp_result string;
  Rcpp_as_strings : SEXP -> rcpp_result (list string);
  Rcpp_as_numeric : SEXP -> rcpp_result (list float);
  Rcpp_as_bool : SEXP -> rcpp_result bool;
  Rcpp_as_int64 : SEXP -> rcpp_result r_int64;
  Rcpp_as_float64 : SEXP -> rcpp_result r_float64;
  Rcpp_as_float32 : SEXP -> rcpp_result r_float32;
  (* Rcpp::wrap of the integer types that R stores as doubles *)
  Rcpp_wrap_int64 : r_int64 -> SEXP;
  Rcpp_wrap_size_t : N -> SEXP;
  (* env.find(name) in the package namespace, and calling an R function *)
  Rcpp_env_find : string -> rcpp_result SEXP;
  Rcpp_call : SEXP -> SEXP -> rcpp_result SEXP
}.

(** Rcpp::wrap at the types R stores as they are. *)
Definition wrap_string (s : string) : SEXP := Str [s].
Definition wrap_bool (b : bool) : SEXP := Lgl [b].
Definition wrap_int (i : Z) : SEXP := Int [i].
Definition wrap_double (d : float) : SEXP := Real [d].

(** ** Observable interactions *)

Inductive Event : Type :=
| EvConvert (arg : string) (value : SEXP)       (* Rcpp::as on argument [arg] *)
| EvUnwrap (expected_class : string) (obj : SEXP) (* unwrap_ptr entered *)
| EvCast (expected_class : string) (addr : ptr)   (* static_cast<T *> of the stored address *)
| EvXPtr (addr : ptr) (set_delete_finalizer : bool) (* Rcpp::XPtr<T> constructed *)
| EvDelete (addr : ptr)                          (* delete of a native object *)
| EvPreserve (obj : SEXP)                        (* R_PreserveObject *)
| EvRelease (obj : SEXP)                         (* R_ReleaseObject *)
| EvRCall (fn : SEXP) (arg : SEXP)               (* an R function called *)
| EvNative (T : Type) (c : NvCall T).             (* a call into nvbench *)

Definition is_native (e : Event) : bool :=
  match e with EvNative _ => true | _ => false end.
Definition is_unwrap (e : Event) : bool :=
  match e with EvUnwrap _ _ => true | _ => false end.
Definition is_convert (e : Event) : bool :=
  match e with EvConvert _ _ => true | _ => false end.
Definition is_cast (e : Event) : bool :=
  match e with EvCast _ _ => true | _ => false end.
Definition is_delete (e : Event) : bool :=
  match e with EvDelete _ => true | _ => false end.
Definition is_mgr_add (e : Event) : bool :=
  match e with EvNative (Mgr_add _) => true | _ => false end.
Definition is_owning_xptr (e : Event) : bool :=
  match e with EvXPtr _ true => true | _ => false end.

(** ** The binding *)

(** class GlobalBenchmarkRegistry: its only data member. *)
Record GlobalBenchmarkRegistry := { m_finalized : bool }.

Section Binding.

Context {nv : Type}.
Variable R : Rcpp.
Variable NV : Nvbench nv.

(** The order in which a compiler evaluates the arguments of one call
    expression is unspecified in C++; the entry points that convert two
    arguments inside one call are modelled for both orders. *)
Inductive arg_order := LeftToRight | RightToLeft.
Variable order : arg_order.

(** The state the binding runs in: [global_registry] (None for a null
    unique_ptr) and the state of the nvbench library. *)
Record World := {
  global_registry : option GlobalBenchmarkRegistry;
  nv_state : nv
}.

(** The result of running a piece of the binding from a world. *)
Record Run (A : Type) := {
  outcome : Outcome A;
  world : World;
  events : list Event
}.

Definition M (A : Type) := World -> Run A.

Definition ret {A} (a : A) : M A :=
  fun w => {| outcome := Ret a; world := w; events := [] |}.

Definition bind {A B} (m : M A) (f : A -> M B) : M B :=
  fun w =>
    let (o, w1, ev1) := m w in
    match o with
    | Ret a =>
        let (o', w2, ev2) := f a w1 in
        {| outcome := o'; world := w2; events := ev1 ++ ev2 |}
    | RStop msg => {| outcome := RStop msg; world := w1; events := ev1 |}
    | Throw e => {| outcome := Throw e; world := w1; events := ev1 |}
    | Undefined why => {| outcome := Undefined why; world := w1; events := ev1 |}
    end.

Notation "x <- m ;; k" := (bind m (fun x => k))
  (at level 61, m at next level, right associativity).
Notation "m ;;; k" := (bind m (fun _ => k))
  (at level 61, right associativity).

(** Rcpp::stop(msg). *)
Definition stop {A} (msg : string) : M A :=
  fun w => {| outcome := RStop msg; world := w; events := [] |}.

Definition undefined {A} (why : string) : M A :=
  fun w => {| outcome := Undefined why; world := w; events := [] |}.

Definition throw {A} (e : cpp_exception) : M A :=
  fun w => {| outcome := Throw e; world := w; events := [] |}.

Definition emit (e : Event) : M unit :=
  fun w => {| outcome := Ret tt; world := w; events := [e] |}.

(** A call into nvbench: logged, run by the library on its own state, and a
    thrown exception propagates. *)
Definition native {T} (c : NvCall T) : M T :=
  fun w =>
    let '(r, st) := nv_exec NV c (nv_state w) in
    {| outcome := match r with ERet a => Ret a | EThrow e => Throw e end;
       world := {| global_registry := global_registry w; nv_state := st |};
       events := [EvNative c] |}.

(** [try { body } catch (const std::exception &e) { handler(e.what()) }].
    Rcpp::stop throws Rcpp::exception, which derives from std::exception, so
    the clause catches it as well. *)
Definition try_catch_std {A} (body : M A) (handler : string -> M A) : M A :=
  fun w =>
    let (o, w1, ev1) := body w in
    let handle what :=
      let (o', w2, ev2) := handler what w1 in
      {| outcome := o'; world := w2; events := ev1 ++ ev2 |} in
    match o with
    | Throw (StdException what) => handle what
    | RStop msg => handle msg
    | _ => {| outcome := o; world := w1; events := ev1 |}
    end.

(** [try { body } catch (const std::exception &e) { ... } catch (...) { ... }]. *)
Definition try_catch_all {A} (body : M A) (handler : string -> M A)
  (handler_any : M A) : M A :=
  fun w =>
    let (o, w1, ev1) := body w in
    let continue_with (h : M A) :=
      let (o', w2, ev2) := h w1 in
      {| outcome := o'; world := w2; events := ev1 ++ ev2 |} in
    match o with
    | Throw (StdException what) => continue_with (handler what)
    | RStop msg => continue_with (handler msg)
    | Throw UnknownException => continue_with handler_any
    | _ => {| outcome := o; world := w1; events := ev1 |}
    end.

(** A destructor that runs when its scope is left, normally or by an
    exception. *)
Definition at_scope_exit {A} (body : M A) (dtor : M unit) : M A :=
  fun w =>
    let (o, w1, ev1) := body w in
    match o with
    | Undefined _ => {| outcome := o; world := w1; events := ev1 |}
    | _ =>
        let (_, w2, ev2) := dtor w1 in
        {| outcome := o; world := w2; events := ev1 ++ ev2 |}
    end.

(** An Rcpp conversion of the argument called [arg]. *)
Definition convert {A} (conv : SEXP -> rcpp_result A) (arg : string) (s : SEXP)
  : M A :=
  emit (EvConvert arg s) ;;;
  match conv s with
  | AsOk a => ret a
  | AsFail what => throw (StdException what)
  end.

(** Two argument expressions of one call, in the compiler's order. *)
Definition args2 {A B} (a : M A) (b : M B) : M (A * B) :=
  match order with
  | LeftToRight => x <- a ;; y <- b ;; ret (x, y)
  | RightToLeft => y <- b ;; x <- a ;; ret (x, y)
  end.

Definition get_registry : M (option GlobalBenchmarkRegistry) :=
  fun w => {| outcome := Ret (global_registry w); world := w; events := [] |}.

Definition set_registry (r : option GlobalBenchmarkRegistry) : M unit :=
  fun w => {| outcome := Ret tt;
              world := {| global_registry := r; nv_state := nv_state w |};
              events := [] |}.

Definition benchmarks_empty : M bool :=
  fun w => {| outcome := Ret (nv_benchmarks_empty NV (nv_state w));
              world := w; events := [] |}.

(** Calling an R function through Rcpp::Function. *)
Definition call_function (fn arg : SEXP) : M SEXP :=
  emit (EvRCall fn arg) ;;;
  match Rcpp_call R fn arg with
  | AsOk v => ret v
  | AsFail what => throw (StdException what)
  end.

(** call_wrapper(name, arg): look the R function up in the package
    namespace and call it. *)
Definition call_wrapper (name : string) (arg : SEXP) : M SEXP :=
  match Rcpp_env_find R name with
  | AsFail what => throw (StdException what)
  | AsOk fn => call_function fn arg
  end.

(** wrap_ptr<T>(ptr, cls_name): [Rcpp::XPtr<T> xp(ptr, false)], then the
    class attribute. *)
Definition XPtr_new (p : ptr) (set_delete_finalizer : bool) : M SEXP :=
  emit (EvXPtr p set_delete_finalizer) ;;;
  ret (ExtPtr p set_delete_finalizer R_NilValue).

Definition set_class_attr (xp : SEXP) (cls_name : string) : SEXP :=
  match xp with
  | ExtPtr a f _ => ExtPtr a f (Str [cls_name])
  | other => other
  end.

Definition wrap_ptr (p : ptr) (cls_name : string) : M SEXP :=
  xp <- XPtr_new p false ;;
  ret (set_class_attr xp cls_name).

(** unwrap_ptr<T>(obj, expected_class).  Every caller passes a string
    literal, so the [expected_class &&] guard of the comparison is true.
    Reading element 0 of an empty class vector is out of bounds. *)
Definition unwrap_ptr (obj : SEXP) (expected_class : string) : M ptr :=
  emit (EvUnwrap expected_class obj) ;;;
  if negb (SEXPTYPE_eqb (TYPEOF obj) EXTPTRSXP) then
    stop ("Expected external pointer for " ++ expected_class)
  else
    let cls := Rf_getAttrib_class obj in
    match cls with
    | Str elts =>
        match elts with
        | [] => undefined "STRING_ELT(cls, 0) on an empty class vector"
        | cls_cstr :: _ =>
            if negb (String.eqb cls_cstr expected_class) then
              stop ("Unexpected pointer class '" ++ cls_cstr ++ "' (wanted '"
                    ++ expected_class ++ "')")
            else
              let p := R_ExternalPtrAddr obj in
              emit (EvCast expected_class p) ;;;
              if N.eqb p nullptr then
                stop ("Null pointer for " ++ expected_class)
              else ret p
        end
    | _ => stop ("Invalid external pointer class for " ++ expected_class)
    end.

Definition as_string (s : SEXP) (name : string) : M string :=
  try_catch_std (convert (Rcpp_as_string R) name s)
    (fun what => stop ("Expected string for " ++ name ++ ": " ++ what)).

Definition as_string_vec (s : SEXP) (name : string) : M (list string) :=
  try_catch_std (convert (Rcpp_as_strings R) name s)
    (fun what => stop ("Expected character vector for " ++ name ++ ": " ++ what)).

(** The value of a finite double, truncated toward zero (the fractional
    part discarded); None for infinities and NaN. *)
Definition truncate (v : float) : option Z :=
  match Prim2SF v with
  | S754_zero _ => Some 0
  | S754_finite sign m e =>
      let n := if sign then Z.neg m else Z.pos m in
      Some (if 0 <=? e then n * 2 ^ e else Z.quot n (2 ^ (- e)))
  | S754_infinity _ | S754_nan => None
  end.

(** static_cast<r_int64>(v) of a double ([conv.fpint]): the truncated value,
    and undefined when that is not representable. *)
Definition static_cast_int64 (v : float) : M r_int64 :=
  match truncate v with
  | Some z =>
      if (int64_min <=? z) && (z <=? int64_max) then ret z
      else undefined "static_cast<int64_t>: value out of range"
  | None => undefined "static_cast<int64_t>: value out of range"
  end.

Fixpoint for_each {A B} (f : A -> M B) (l : list A) : M (list B) :=
  match l with
  | [] => ret []
  | x :: rest => y <- f x ;; ys <- for_each f rest ;; ret (y :: ys)
  end.

Definition as_int64_vec (s : SEXP) (name : string) : M (list r_int64) :=
  try_catch_std
    (dbl <- convert (Rcpp_as_numeric R) name s ;;
     for_each static_cast_int64 dbl)
    (fun what => stop ("Expected numeric vector for " ++ name ++ ": " ++ what)).

Definition as_float64_vec (s : SEXP) (name : string) : M (list r_float64) :=
  try_catch_std
    (dbl <- convert (Rcpp_as_numeric R) name s ;;
     for_each (fun v => ret v) dbl)
    (fun what => stop ("Expected numeric vector for " ++ name ++ ": " ++ what)).

Definition as_bool (s : SEXP) (name : string) : M bool :=
  try_catch_std (convert (Rcpp_as_bool R) name s)
    (fun what => stop ("Expected logical for " ++ name ++ ": " ++ what)).

Definition as_scalar {T} (conv : SEXP -> rcpp_result T) (s : SEXP)
  (name : string) : M T :=
  try_catch_std (convert conv name s)
    (fun what => stop ("Failed to convert '" ++ name ++ "': " ++ what)).

(** *** class GlobalBenchmarkRegistry *)

(** [this->m_finalized], for a method called through [global_registry->]. *)
Definition this_m_finalized : M bool :=
  reg <- get_registry ;;
  match reg with
  | Some r => ret (m_finalized r)
  | None => undefined "member access through a null global_registry"
  end.

Definition set_m_finalized (b : bool) : M unit :=
  reg <- get_registry ;;
  match reg with
  | Some _ => set_registry (Some {| m_finalized := b |})
  | None => undefined "member access through a null global_registry"
  end.

(** GlobalBenchmarkRegistry::add_bench.  The local [exec] holder preserves
    the R function when constructed and releases it when the scope is left;
    the copies the library takes of it belong to [Mgr_add]. *)
Definition add_bench (fn : SEXP) (name : string) : M bench_ptr :=
  fin <- this_m_finalized ;;
  if fin then stop "Cannot register benchmarks after execution"
  else if negb (Rf_isFunction fn) then stop "Benchmark must be a function"
  else
    emit (EvPreserve fn) ;;;
    at_scope_exit
      (bench <- native (Mgr_add fn) ;;
       native (Bench_set_name bench
                 (if String.eqb name "" then "benchmark" else name)))
      (emit (EvRelease fn)).

(** GlobalBenchmarkRegistry::run.  The NVBENCH_MAIN_* macros are steps of
    the library. *)
Definition run (argv : list string) : M unit :=
  empty <- benchmarks_empty ;;
  if empty then stop "No benchmarks registered"
  else
    fin <- this_m_finalized ;;
    if fin then stop "Benchmarks already executed"
    else
      set_m_finalized true ;;;
      try_catch_all
        (native Mgr_initialize ;;;
         native (Parser_parse argv) ;;;
         native Main_print_preamble ;;;
         native Main_run_benchmarks ;;;
         native Main_print_epilogue ;;;
         native Main_print_results)
        (fun what => stop ("nvbench run failed: " ++ what))
        (stop "Unknown exception while running nvbench benchmarks").

(** *** Handles *)

Definition bench_from_xptr (bench : SEXP) : M bench_ptr :=
  unwrap_ptr bench "nvbench_benchmark".
Definition state_from_xptr (state : SEXP) : M state_ptr :=
  unwrap_ptr state "nvbench_state".
Definition launch_from_xptr (launch : SEXP) : M launch_ptr :=
  unwrap_ptr launch "nvbench_launch".
Definition stream_from_xptr (stream : SEXP) : M stream_ptr :=
  unwrap_ptr stream "nvbench_stream".

Definition wrap_state_obj (state : state_ptr) : M SEXP :=
  xp <- wrap_ptr state "nvbench_state" ;;
  call_wrapper ".nvbench_wrap_state" xp.

Definition wrap_launch_obj (launch : launch_ptr) : M SEXP :=
  xp <- wrap_ptr launch "nvbench_launch" ;;
  call_wrapper ".nvbench_wrap_launch" xp.

Definition wrap_stream_xptr (stream : stream_ptr) : M SEXP :=
  wrap_ptr stream "nvbench_stream".

(** r_function_holder::operator(): what the engine runs for a registered
    benchmark, on the state it created. *)
Definition r_function_holder_call (fn : SEXP) (state : state_ptr) : M unit :=
  state_ptr_sexp <- wrap_ptr state "nvbench_state" ;;
  state_obj <- call_wrapper ".nvbench_wrap_state" state_ptr_sexp ;;
  call_function fn state_obj ;;;
  ret tt.

(** The [cpp_launcher] lambda of nvbenchr_state_exec: what the engine runs
    for each launch. *)
Definition cpp_launcher (launcher : SEXP) (launch : launch_ptr) : M unit :=
  launch_obj <- wrap_launch_obj launch ;;
  call_function launcher launch_obj ;;;
  ret tt.

(** *** The exported entry points *)

(** INTEGER(value) and REAL(value): the vector's data. *)
Definition INTEGER (s : SEXP) : list Z :=
  match s with Int v => v | _ => [] end.
Definition REAL (s : SEXP) : list float :=
  match s with Real v => v | _ => [] end.

(** static_cast<std::size_t> of an int64: the value modulo 2^64. *)
Definition static_cast_size_t (z : r_int64) : Z := z mod 2 ^ 64.

(** [out[name] = x] on an Rcpp::List: the element of that name is replaced,
    or the pair is appended. *)
Fixpoint assign_named (vals : list SEXP) (names : list string) (name : string)
  (x : SEXP) : list SEXP * list string :=
  match vals, names with
  | v :: vs, n :: ns =>
      if String.eqb n name then (x :: vs, n :: ns)
      else let '(vs', ns') := assign_named vs ns name x in (v :: vs', n :: ns')
  | _, _ => ([x], [name])
  end.

Definition wrap_axis_value (v : axis_value) : SEXP :=
  match v with
  | AxisInt64 z => Rcpp_wrap_int64 R z
  | AxisFloat64 d => wrap_double d
  | AxisString s => wrap_string s
  end.

Definition nvbenchr_register (fn name : SEXP) : M SEXP :=
  reg <- get_registry ;;
  match reg with
  | None => stop "nvbenchr registry is not initialized"
  | Some _ =>
      bench_name <- as_string name "name" ;;
      p <- add_bench fn bench_name ;;
      wrap_ptr p "nvbench_benchmark"
  end.

Definition nvbenchr_run_all_benchmarks (argv : SEXP) : M SEXP :=
  reg <- get_registry ;;
  match reg with
  | None => stop "nvbenchr registry is not initialized"
  | Some _ =>
      args <- as_string_vec argv "argv" ;;
      run args ;;;
      ret R_NilValue
  end.

Definition nvbenchr_benchmark_get_name (bench : SEXP) : M SEXP :=
  b <- bench_from_xptr bench ;;
  n <- native (Bench_get_name b) ;;
  ret (wrap_string n).

Definition nvbenchr_benchmark_add_int64_axis (bench name values : SEXP) : M SEXP :=
  b <- bench_from_xptr bench ;;
  a <- args2 (as_string name "name") (as_int64_vec values "values") ;;
  native (Bench_add_int64_axis b (fst a) (snd a) false) ;;;
  ret bench.

Definition nvbenchr_benchmark_add_int64_power_of_two_axis (bench name values : SEXP) : M SEXP :=
  b <- bench_from_xptr bench ;;
  a <- args2 (as_string name "name") (as_int64_vec values "values") ;;
  native (Bench_add_int64_axis b (fst a) (snd a) true) ;;;
  ret bench.

Definition nvbenchr_benchmark_add_float64_axis (bench name values : SEXP) : M SEXP :=
  b <- bench_from_xptr bench ;;
  a <- args2 (as_string name "name") (as_float64_vec values "values") ;;
  native (Bench_add_float64_axis b (fst a) (snd a)) ;;;
  ret bench.

Definition nvbenchr_benchmark_add_string_axis (bench name values : SEXP) : M SEXP :=
  b <- bench_from_xptr bench ;;
  a <- args2 (as_string name "name") (as_string_vec values "values") ;;
  native (Bench_add_string_axis b (fst a) (snd a)) ;;;
  ret bench.

Definition nvbenchr_benchmark_set_name (bench name : SEXP) : M SEXP :=
  b <- bench_from_xptr bench ;;
  v <- as_string name "name" ;;
  native (Bench_set_name b v) ;;;
  ret bench.

Definition nvbenchr_benchmark_set_is_cpu_only (bench is_cpu_only : SEXP) : M SEXP :=
  b <- bench_from_xptr bench ;;
  v <- as_bool is_cpu_only "is_cpu_only" ;;
  native (Bench_set_is_cpu_only b v) ;;;
  ret bench.

Definition nvbenchr_benchmark_set_run_once (bench run_once : SEXP) : M SEXP :=
  b <- bench_from_xptr bench ;;
  v <- as_bool run_once "run_once" ;;
  native (Bench_set_run_once b v) ;;;
  ret bench.

Definition nvbenchr_benchmark_set_skip_time (bench duration_seconds : SEXP) : M SEXP :=
  b <- bench_from_xptr bench ;;
  v <- as_scalar (Rcpp_as_float64 R) duration_seconds "duration_seconds" ;;
  native (Bench_set_skip_time b v) ;;;
  ret bench.

Definition nvbenchr_benchmark_set_timeout (bench duration_seconds : SEXP) : M SEXP :=
  b <- bench_from_xptr bench ;;
  v <- as_scalar (Rcpp_as_float64 R) duration_seconds "duration_seconds" ;;
  native (Bench_set_timeout b v) ;;;
  ret bench.

Definition nvbenchr_benchmark_set_throttle_threshold (bench threshold : SEXP) : M SEXP :=
  b <- bench_from_xptr bench ;;
  v <- as_scalar (Rcpp_as_float32 R) threshold "threshold" ;;
  native (Bench_set_throttle_threshold b v) ;;;
  ret bench.

Definition nvbenchr_benchmark_set_throttle_recovery_delay (bench delay_seconds : SEXP) : M SEXP :=
  b <- bench_from_xptr bench ;;
  v <- as_scalar (Rcpp_as_float32 R) delay_seconds "delay_seconds" ;;
  native (Bench_set_throttle_recovery_delay b v) ;;;
  ret bench.

Definition nvbenchr_benchmark_set_stopping_criterion (bench criterion : SEXP) : M SEXP :=
  b <- bench_from_xptr bench ;;
  v <- as_string criterion "criterion" ;;
  native (Bench_set_stopping_criterion b v) ;;;
  ret bench.

Definition nvbenchr_benchmark_set_criterion_param_int64 (bench name value : SEXP) : M SEXP :=
  b <- bench_from_xptr bench ;;
  a <- args2 (as_string name "name") (as_scalar (Rcpp_as_int64 R) value "value") ;;
  native (Bench_set_criterion_param_int64 b (fst a) (snd a)) ;;;
  ret bench.

Definition nvbenchr_benchmark_set_criterion_param_float64 (bench name value : SEXP) : M SEXP :=
  b <- bench_from_xptr bench ;;
  a <- args2 (as_string name "name") (as_scalar (Rcpp_as_float64 R) value "value") ;;
  native (Bench_set_criterion_param_float64 b (fst a) (snd a)) ;;;
  ret bench.

Definition nvbenchr_benchmark_set_criterion_param_string (bench name value : SEXP) : M SEXP :=
  b <- bench_from_xptr bench ;;
  a <- args2 (as_string name "name") (as_string value "value") ;;
  native (Bench_set_criterion_param_string b (fst a) (snd a)) ;;;
  ret bench.

Definition nvbenchr_benchmark_set_min_samples (bench count : SEXP) : M SEXP :=
  b <- bench_from_xptr bench ;;
  v <- as_scalar (Rcpp_as_int64 R) count "count" ;;
  native (Bench_set_min_samples b v) ;;;
  ret bench.

Definition nvbenchr_state_has_device (state : SEXP) : M SEXP :=
  s <- state_from_xptr state ;;
  dev <- native (State_get_device s) ;;
  ret (wrap_bool (match dev with Some _ => true | None => false end)).

Definition nvbenchr_state_has_printers (state : SEXP) : M SEXP :=
  s <- state_from_xptr state ;;
  b <- native (State_get_benchmark s) ;;
  v <- native (Bench_printer_has_value b) ;;
  ret (wrap_bool v).

Definition nvbenchr_state_get_device (state : SEXP) : M SEXP :=
  s <- state_from_xptr state ;;
  dev <- native (State_get_device s) ;;
  match dev with
  | Some id => ret (wrap_int id)
  | None => ret R_NilValue
  end.

Definition nvbenchr_state_get_stream (state : SEXP) : M SEXP :=
  s <- state_from_xptr state ;;
  stream <- native (State_get_cuda_stream s) ;;
  wrap_stream_xptr stream.

Definition nvbenchr_state_get_int64 (state name : SEXP) : M SEXP :=
  s <- state_from_xptr state ;;
  n <- as_string name "name" ;;
  v <- native (State_get_int64 s n) ;;
  ret (Rcpp_wrap_int64 R v).

Definition nvbenchr_state_get_int64_or_default (state name def_value : SEXP) : M SEXP :=
  s <- state_from_xptr state ;;
  a <- args2 (as_string name "name") (as_scalar (Rcpp_as_int64 R) def_value "default_value") ;;
  v <- native (State_get_int64_or_default s (fst a) (snd a)) ;;
  ret (Rcpp_wrap_int64 R v).

Definition nvbenchr_state_get_float64 (state name : SEXP) : M SEXP :=
  s <- state_from_xptr state ;;
  n <- as_string name "name" ;;
  v <- native (State_get_float64 s n) ;;
  ret (wrap_double v).

Definition nvbenchr_state_get_float64_or_default (state name def_value : SEXP) : M SEXP :=
  s <- state_from_xptr state ;;
  a <- args2 (as_string name "name") (as_scalar (Rcpp_as_float64 R) def_value "default_value") ;;
  v <- native (State_get_float64_or_default s (fst a) (snd a)) ;;
  ret (wrap_double v).

Definition nvbenchr_state_get_string (state name : SEXP) : M SEXP :=
  s <- state_from_xptr state ;;
  n <- as_string name "name" ;;
  v <- native (State_get_string s n) ;;
  ret (wrap_string v).

Definition nvbenchr_state_get_string_or_default (state name def_value : SEXP) : M SEXP :=
  s <- state_from_xptr state ;;
  a <- args2 (as_string name "name") (as_string def_value "default_value") ;;
  v <- native (State_get_string_or_default s (fst a) (snd a)) ;;
  ret (wrap_string v).

Definition nvbenchr_state_add_element_count (state count column_name : SEXP) : M SEXP :=
  s <- state_from_xptr state ;;
  a <- args2 (as_scalar (Rcpp_as_int64 R) count "count")
             (as_string column_name "column_name") ;;
  native (State_add_element_count s (fst a) (snd a)) ;;;
  ret R_NilValue.

Definition nvbenchr_state_set_element_count (state count : SEXP) : M SEXP :=
  s <- state_from_xptr state ;;
  v <- as_scalar (Rcpp_as_int64 R) count "count" ;;
  native (State_set_element_count s v) ;;;
  ret R_NilValue.

Definition nvbenchr_state_get_element_count (state : SEXP) : M SEXP :=
  s <- state_from_xptr state ;;
  v <- native (State_get_element_count s) ;;
  ret (Rcpp_wrap_int64 R v).

Definition nvbenchr_state_skip (state reason : SEXP) : M SEXP :=
  s <- state_from_xptr state ;;
  v <- as_string reason "reason" ;;
  native (State_skip s v) ;;;
  ret R_NilValue.

Definition nvbenchr_state_is_skipped (state : SEXP) : M SEXP :=
  s <- state_from_xptr state ;;
  v <- native (State_is_skipped s) ;;
  ret (wrap_bool v).

Definition nvbenchr_state_get_skip_reason (state : SEXP) : M SEXP :=
  s <- state_from_xptr state ;;
  v <- native (State_get_skip_reason s) ;;
  ret (wrap_string v).

Definition nvbenchr_state_add_global_memory_reads (state nbytes column_name : SEXP) : M SEXP :=
  s <- state_from_xptr state ;;
  a <- args2 (n <- as_scalar (Rcpp_as_int64 R) nbytes "nbytes" ;;
              ret (static_cast_size_t n))
             (as_string column_name "column_name") ;;
  native (State_add_global_memory_reads s (fst a) (snd a)) ;;;
  ret R_NilValue.

Definition nvbenchr_state_add_global_memory_writes (state nbytes column_name : SEXP) : M SEXP :=
  s <- state_from_xptr state ;;
  a <- args2 (n <- as_scalar (Rcpp_as_int64 R) nbytes "nbytes" ;;
              ret (static_cast_size_t n))
             (as_string column_name "column_name") ;;
  native (State_add_global_memory_writes s (fst a) (snd a)) ;;;
  ret R_NilValue.

Definition nvbenchr_state_get_benchmark (state : SEXP) : M SEXP :=
  s <- state_from_xptr state ;;
  b <- native (State_get_benchmark s) ;;
  wrap_ptr b "nvbench_benchmark".

Definition nvbenchr_state_get_throttle_threshold (state : SEXP) : M SEXP :=
  s <- state_from_xptr state ;;
  v <- native (State_get_throttle_threshold s) ;;
  ret (wrap_double v).

Definition nvbenchr_state_set_throttle_threshold (state fraction : SEXP) : M SEXP :=
  s <- state_from_xptr state ;;
  v <- as_scalar (Rcpp_as_float32 R) fraction "throttle_fraction" ;;
  native (State_set_throttle_threshold s v) ;;;
  ret R_NilValue.

Definition nvbenchr_state_get_min_samples (state : SEXP) : M SEXP :=
  s <- state_from_xptr state ;;
  v <- native (State_get_min_samples s) ;;
  ret (Rcpp_wrap_int64 R v).

Definition nvbenchr_state_set_min_samples (state min_samples_count : SEXP) : M SEXP :=
  s <- state_from_xptr state ;;
  v <- as_scalar (Rcpp_as_int64 R) min_samples_count "min_samples_count" ;;
  native (State_set_min_samples s v) ;;;
  ret R_NilValue.

Definition nvbenchr_state_get_disable_blocking_kernel (state : SEXP) : M SEXP :=
  s <- state_from_xptr state ;;
  v <- native (State_get_disable_blocking_kernel s) ;;
  ret (wrap_bool v).

Definition nvbenchr_state_set_disable_blocking_kernel (state flag : SEXP) : M SEXP :=
  s <- state_from_xptr state ;;
  v <- as_bool flag "disable_blocking_kernel" ;;
  native (State_set_disable_blocking_kernel s v) ;;;
  ret R_NilValue.

Definition nvbenchr_state_get_run_once (state : SEXP) : M SEXP :=
  s <- state_from_xptr state ;;
  v <- native (State_get_run_once s) ;;
  ret (wrap_bool v).

Definition nvbenchr_state_set_run_once (state flag : SEXP) : M SEXP :=
  s <- state_from_xptr state ;;
  v <- as_bool flag "run_once" ;;
  native (State_set_run_once s v) ;;;
  ret R_NilValue.

Definition nvbenchr_state_get_timeout (state : SEXP) : M SEXP :=
  s <- state_from_xptr state ;;
  v <- native (State_get_timeout s) ;;
  ret (wrap_double v).

Definition nvbenchr_state_set_timeout (state duration : SEXP) : M SEXP :=
  s <- state_from_xptr state ;;
  v <- as_scalar (Rcpp_as_float64 R) duration "duration" ;;
  native (State_set_timeout s v) ;;;
  ret R_NilValue.

Definition nvbenchr_state_get_blocking_kernel_timeout (state : SEXP) : M SEXP :=
  s <- state_from_xptr state ;;
  v <- native (State_get_blocking_kernel_timeout s) ;;
  ret (wrap_double v).

Definition nvbenchr_state_set_blocking_kernel_timeout (state duration : SEXP) : M SEXP :=
  s <- state_from_xptr state ;;
  v <- as_scalar (Rcpp_as_float64 R) duration "duration" ;;
  native (State_set_blocking_kernel_timeout s v) ;;;
  ret R_NilValue.

Definition nvbenchr_state_collect_cupti_metrics (state : SEXP) : M SEXP :=
  s <- state_from_xptr state ;;
  native (State_collect_cupti_metrics s) ;;;
  ret R_NilValue.

Definition nvbenchr_state_is_cupti_required (state : SEXP) : M SEXP :=
  s <- state_from_xptr state ;;
  v <- native (State_is_cupti_required s) ;;
  ret (wrap_bool v).

Definition nvbenchr_state_exec (state launcher_fn batched sync : SEXP) : M SEXP :=
  if negb (Rf_isFunction launcher_fn) then stop "exec expects a function"
  else
    s <- state_from_xptr state ;;
    batched_v <- as_bool batched "batched" ;;
    sync_v <- as_bool sync "sync" ;;
    (if sync_v then
       if batched_v then native (State_exec s exec_tag_sync launcher_fn)
       else native (State_exec s (exec_tag_or exec_tag_sync exec_tag_no_batch)
                      launcher_fn)
     else
       if batched_v then native (State_exec s exec_tag_none launcher_fn)
       else native (State_exec s exec_tag_no_batch launcher_fn)) ;;;
    ret R_NilValue.

Definition nvbenchr_state_get_short_description (state : SEXP) : M SEXP :=
  s <- state_from_xptr state ;;
  v <- native (State_get_short_description s) ;;
  ret (wrap_string v).

Definition nvbenchr_state_add_summary (state name value : SEXP) : M SEXP :=
  s <- state_from_xptr state ;;
  col_name <- as_string name "name" ;;
  summ <- native (State_add_summary s ("nv/r/" ++ col_name)) ;;
  native (Summary_set_string summ "description" ("User tag: " ++ col_name)) ;;;
  native (Summary_set_string summ "name" col_name) ;;;
  match TYPEOF value with
  | INTSXP =>
      match INTEGER value with
      | i :: _ => native (Summary_set_int64 summ "value" i)
      | [] => undefined "INTEGER(value)[0] on an empty vector"
      end
  | REALSXP =>
      match REAL value with
      | d :: _ => native (Summary_set_float64 summ "value" d)
      | [] => undefined "REAL(value)[0] on an empty vector"
      end
  | STRSXP =>
      v <- as_string value "value" ;;
      native (Summary_set_string summ "value" v)
  | _ => stop "Unsupported value type for add_summary"
  end ;;;
  ret R_NilValue.

(** The loop of nvbenchr_state_get_axis_values over the names. *)
Fixpoint axis_values_loop (named_vals : named_values) (names : list string)
  (out : list SEXP * list string) : M (list SEXP * list string) :=
  match names with
  | [] => ret out
  | name :: rest =>
      if has_value named_vals name then
        match get_value named_vals name with
        | Some v =>
            axis_values_loop named_vals rest
              (assign_named (fst out) (snd out) name (wrap_axis_value v))
        | None => throw (StdException "No value with this name")
        end
      else axis_values_loop named_vals rest out
  end.

Definition nvbenchr_state_get_axis_values (state : SEXP) : M SEXP :=
  s <- state_from_xptr state ;;
  named_vals <- native (State_get_axis_values s) ;;
  out <- axis_values_loop named_vals (get_names named_vals) ([], []) ;;
  ret (Vec (fst out) (snd out)).

Definition nvbenchr_state_get_axis_values_as_string (state : SEXP) : M SEXP :=
  s <- state_from_xptr state ;;
  v <- native (State_get_axis_values_as_string s) ;;
  ret (wrap_string v).

Definition nvbenchr_state_get_stopping_criterion (state : SEXP) : M SEXP :=
  s <- state_from_xptr state ;;
  v <- native (State_get_stopping_criterion s) ;;
  ret (wrap_string v).

Definition nvbenchr_launch_get_stream (launch : SEXP) : M SEXP :=
  l <- launch_from_xptr launch ;;
  stream <- native (Launch_get_stream l) ;;
  wrap_stream_xptr stream.

Definition nvbenchr_stream_addressof (stream : SEXP) : M SEXP :=
  s <- stream_from_xptr stream ;;
  a <- native (Stream_get_stream s) ;;
  ret (Rcpp_wrap_size_t R a).

(** R_init_nvbenchr, run by the loader (the registration of the routines
    with R has no counterpart here). *)
Definition R_init_nvbenchr : M unit :=
  native Driver_cuInit ;;;
  native Mgr_initialize ;;;
  set_registry (Some {| m_finalized := false |}).

(** *** CallEntries: the table of exported routines *)

Inductive Call :=
| C_register (fn name : SEXP)
| C_run_all_benchmarks (argv : SEXP)
| C_benchmark_get_name (bench : SEXP)
| C_benchmark_add_int64_axis (bench name values : SEXP)
| C_benchmark_add_int64_power_of_two_axis (bench name values : SEXP)
| C_benchmark_add_float64_axis (bench name values : SEXP)
| C_benchmark_add_string_axis (bench name values : SEXP)
| C_benchmark_set_name (bench name : SEXP)
| C_benchmark_set_is_cpu_only (bench is_cpu_only : SEXP)
| C_benchmark_set_run_once (bench run_once : SEXP)
| C_benchmark_set_skip_time (bench duration_seconds : SEXP)
| C_benchmark_set_timeout (bench duration_seconds : SEXP)
| C_benchmark_set_throttle_threshold (bench threshold : SEXP)
| C_benchmark_set_throttle_recovery_delay (bench delay_seconds : SEXP)
| C_benchmark_set_stopping_criterion (bench criterion : SEXP)
| C_benchmark_set_criterion_param_int64 (bench name value : SEXP)
| C_benchmark_set_criterion_param_float64 (bench name value : SEXP)
| C_benchmark_set_criterion_param_string (bench name value : SEXP)
| C_benchmark_set_min_samples (bench count : SEXP)
| C_state_has_device (state : SEXP)
| C_state_has_printers (state : SEXP)
| C_state_get_device (state : SEXP)
| C_state_get_stream (state : SEXP)
| C_state_get_int64 (state name : SEXP)
| C_state_get_int64_or_default (state name def_value : SEXP)
| C_state_get_float64 (state name : SEXP)
| C_state_get_float64_or_default (state name def_value : SEXP)
| C_state_get_string (state name : SEXP)
| C_state_get_string_or_default (state name def_value : SEXP)
| C_state_add_element_count (state count column_name : SEXP)
| C_state_set_element_count (state count : SEXP)
| C_state_get_element_count (state : SEXP)
| C_state_skip (state reason : SEXP)
| C_state_is_skipped (state : SEXP)
| C_state_get_skip_reason (state : SEXP)
| C_state_add_global_memory_reads (state nbytes column_name : SEXP)
| C_state_add_global_memory_writes (state nbytes column_name : SEXP)
| C_state_get_benchmark (state : SEXP)
| C_state_get_throttle_threshold (state : SEXP)
| C_state_set_throttle_threshold (state fraction : SEXP)
| C_state_get_min_samples (state : SEXP)
| C_state_set_min_samples (state min_samples_count : SEXP)
| C_state_get_disable_blocking_kernel (state : SEXP)
| C_state_set_disable_blocking_kernel (state flag : SEXP)
| C_state_get_run_once (state : SEXP)
| C_state_set_run_once (state flag : SEXP)
| C_state_get_timeout (state : SEXP)
| C_state_set_timeout (state duration : SEXP)
| C_state_get_blocking_kernel_timeout (state : SEXP)
| C_state_set_blocking_kernel_timeout (state duration : SEXP)
| C_state_collect_cupti_metrics (state : SEXP)
| C_state_is_cupti_required (state : SEXP)
| C_state_exec (state launcher_fn batched sync : SEXP)
| C_state_get_short_description (state : SEXP)
| C_state_add_summary (state name value : SEXP)
| C_state_get_axis_values (state : SEXP)
| C_state_get_axis_values_as_string (state : SEXP)
| C_state_get_stopping_criterion (state : SEXP)
| C_launch_get_stream (launch : SEXP)
| C_stream_addressof (stream : SEXP).

Definition dispatch (c : Call) : M SEXP :=
  match c with
  | C_register fn name => nvbenchr_register fn name
  | C_run_all_benchmarks argv => nvbenchr_run_all_benchmarks argv
  | C_benchmark_get_name bench => nvbenchr_benchmark_get_name bench
  | C_benchmark_add_int64_axis bench name values => nvbenchr_benchmark_add_int64_axis bench name values
  | C_benchmark_add_int64_power_of_two_axis bench name values => nvbenchr_benchmark_add_int64_power_of_two_axis bench name values
  | C_benchmark_add_float64_axis bench name values => nvbenchr_benchmark_add_float64_axis bench name values
  | C_benchmark_add_string_axis bench name values => nvbenchr_benchmark_add_string_axis bench name values
  | C_benchmark_set_name bench name => nvbenchr_benchmark_set_name bench name
  | C_benchmark_set_is_cpu_only bench is_cpu_only => nvbenchr_benchmark_set_is_cpu_only bench is_cpu_only
  | C_benchmark_set_run_once bench run_once => nvbenchr_benchmark_set_run_once bench run_once
  | C_benchmark_set_skip_time bench duration_seconds => nvbenchr_benchmark_set_skip_time bench duration_seconds
  | C_benchmark_set_timeout bench duration_seconds => nvbenchr_benchmark_set_timeout bench duration_seconds
  | C_benchmark_set_throttle_threshold bench threshold => nvbenchr_benchmark_set_throttle_threshold bench threshold
  | C_benchmark_set_throttle_recovery_delay bench delay_seconds => nvbenchr_benchmark_set_throttle_recovery_delay bench delay_seconds
  | C_benchmark_set_stopping_criterion bench criterion => nvbenchr_benchmark_set_stopping_criterion bench criterion
  | C_benchmark_set_criterion_param_int64 bench name value => nvbenchr_benchmark_set_criterion_param_int64 bench name value
  | C_benchmark_set_criterion_param_float64 bench name value => nvbenchr_benchmark_set_criterion_param_float64 bench name value
  | C_benchmark_set_criterion_param_string bench name value => nvbenchr_benchmark_set_criterion_param_string bench name value
  | C_benchmark_set_min_samples bench count => nvbenchr_benchmark_set_min_samples bench count
  | C_state_has_device state => nvbenchr_state_has_device state
  | C_state_has_printers state => nvbenchr_state_has_printers state
  | C_state_get_device state => nvbenchr_state_get_device state
  | C_state_get_stream state => nvbenchr_state_get_stream state
  | C_state_get_int64 state name => nvbenchr_state_get_int64 state name
  | C_state_get_int64_or_default state name def_value => nvbenchr_state_get_int64_or_default state name def_value
  | C_state_get_float64 state name => nvbenchr_state_get_float64 state name
  | C_state_get_float64_or_default state name def_value => nvbenchr_state_get_float64_or_default state name def_value
  | C_state_get_string state name => nvbenchr_state_get_string state name
  | C_state_get_string_or_default state name def_value => nvbenchr_state_get_string_or_default state name def_value
  | C_state_add_element_count state count column_name => nvbenchr_state_add_element_count state count column_name
  | C_state_set_element_count state count => nvbenchr_state_set_element_count state count
  | C_state_get_element_count state => nvbenchr_state_get_element_count state
  | C_state_skip state reason => nvbenchr_state_skip state reason
  | C_state_is_skipped state => nvbenchr_state_is_skipped state
  | C_state_get_skip_reason state => nvbenchr_state_get_skip_reason state
  | C_state_add_global_memory_reads state nbytes column_name => nvbenchr_state_add_global_memory_reads state nbytes column_name
  | C_state_add_global_memory_writes state nbytes column_name => nvbenchr_state_add_global_memory_writes state nbytes column_name
  | C_state_get_benchmark state => nvbenchr_state_get_benchmark state
  | C_state_get_throttle_threshold state => nvbenchr_state_get_throttle_threshold state
  | C_state_set_throttle_threshold state fraction => nvbenchr_state_set_throttle_threshold state fraction
  | C_state_get_min_samples state => nvbenchr_state_get_min_samples state
  | C_state_set_min_samples state min_samples_count => nvbenchr_state_set_min_samples state min_samples_count
  | C_state_get_disable_blocking_kernel state => nvbenchr_state_get_disable_blocking_kernel state
  | C_state_set_disable_blocking_kernel state flag => nvbenchr_state_set_disable_blocking_kernel state flag
  | C_state_get_run_once state => nvbenchr_state_get_run_once state
  | C_state_set_run_once state flag => nvbenchr_state_set_run_once state flag
  | C_state_get_timeout state => nvbenchr_state_get_timeout state
  | C_state_set_timeout state duration => nvbenchr_state_set_timeout state duration
  | C_state_get_blocking_kernel_timeout state => nvbenchr_state_get_blocking_kernel_timeout state
  | C_state_set_blocking_kernel_timeout state duration => nvbenchr_state_set_blocking_kernel_timeout state duration
  | C_state_collect_cupti_metrics state => nvbenchr_state_collect_cupti_metrics state
  | C_state_is_cupti_required state => nvbenchr_state_is_cupti_required state
  | C_state_exec state launcher_fn batched sync => nvbenchr_state_exec state launcher_fn batched sync
  | C_state_get_short_description state => nvbenchr_state_get_short_description state
  | C_state_add_summary state name value => nvbenchr_state_add_summary state name value
  | C_state_get_axis_values state => nvbenchr_state_get_axis_values state
  | C_state_get_axis_values_as_string state => nvbenchr_state_get_axis_values_as_string state
  | C_state_get_stopping_criterion state => nvbenchr_state_get_stopping_criterion state
  | C_launch_get_stream launch => nvbenchr_launch_get_stream launch
  | C_stream_addressof stream => nvbenchr_stream_addressof stream
  end.

(** The exported name and arity of a routine, as CallEntries lists them. *)
Definition entry_name (c : Call) : string :=
  match c with
  | C_register _ _ => "nvbenchr_register"
  | C_run_all_benchmarks _ => "nvbenchr_run_all_benchmarks"
  | C_benchmark_get_name _ => "nvbenchr_benchmark_get_name"
  | C_benchmark_add_int64_axis _ _ _ => "nvbenchr_benchmark_add_int64_axis"
  | C_benchmark_add_int64_power_of_two_axis _ _ _ => "nvbenchr_benchmark_add_int64_power_of_two_axis"
  | C_benchmark_add_float64_axis _ _ _ => "nvbenchr_benchmark_add_float64_axis"
  | C_benchmark_add_string_axis _ _ _ => "nvbenchr_benchmark_add_string_axis"
  | C_benchmark_set_name _ _ => "nvbenchr_benchmark_set_name"
  | C_benchmark_set_is_cpu_only _ _ => "nvbenchr_benchmark_set_is_cpu_only"
  | C_benchmark_set_run_once _ _ => "nvbenchr_benchmark_set_run_once"
  | C_benchmark_set_skip_time _ _ => "nvbenchr_benchmark_set_skip_time"
  | C_benchmark_set_timeout _ _ => "nvbenchr_benchmark_set_timeout"
  | C_benchmark_set_throttle_threshold _ _ => "nvbenchr_benchmark_set_throttle_threshold"
  | C_benchmark_set_throttle_recovery_delay _ _ => "nvbenchr_benchmark_set_throttle_recovery_delay"
  | C_benchmark_set_stopping_criterion _ _ => "nvbenchr_benchmark_set_stopping_criterion"
  | C_benchmark_set_criterion_param_int64 _ _ _ => "nvbenchr_benchmark_set_criterion_param_int64"
  | C_benchmark_set_criterion_param_float64 _ _ _ => "nvbenchr_benchmark_set_criterion_param_float64"
  | C_benchmark_set_criterion_param_string _ _ _ => "nvbenchr_benchmark_set_criterion_param_string"
  | C_benchmark_set_min_samples _ _ => "nvbenchr_benchmark_set_min_samples"
  | C_state_has_device _ => "nvbenchr_state_has_device"
  | C_state_has_printers _ => "nvbenchr_state_has_printers"
  | C_state_get_device _ => "nvbenchr_state_get_device"
  | C_state_get_stream _ => "nvbenchr_state_get_stream"
  | C_state_get_int64 _ _ => "nvbenchr_state_get_int64"
  | C_state_get_int64_or_default _ _ _ => "nvbenchr_state_get_int64_or_default"
  | C_state_get_float64 _ _ => "nvbenchr_state_get_float64"
  | C_state_get_float64_or_default _ _ _ => "nvbenchr_state_get_float64_or_default"
  | C_state_get_string _ _ => "nvbenchr_state_get_string"
  | C_state_get_string_or_default _ _ _ => "nvbenchr_state_get_string_or_default"
  | C_state_add_element_count _ _ _ => "nvbenchr_state_add_element_count"
  | C_state_set_element_count _ _ => "nvbenchr_state_set_element_count"
  | C_state_get_element_count _ => "nvbenchr_state_get_element_count"
  | C_state_skip _ _ => "nvbenchr_state_skip"
  | C_state_is_skipped _ => "nvbenchr_state_is_skipped"
  | C_state_get_skip_reason _ => "nvbenchr_state_get_skip_reason"
  | C_state_add_global_memory_reads _ _ _ => "nvbenchr_state_add_global_memory_reads"
  | C_state_add_global_memory_writes _ _ _ => "nvbenchr_state_add_global_memory_writes"
  | C_state_get_benchmark _ => "nvbenchr_state_get_benchmark"
  | C_state_get_throttle_threshold _ => "nvbenchr_state_get_throttle_threshold"
  | C_state_set_throttle_threshold _ _ => "nvbenchr_state_set_throttle_threshold"
  | C_state_get_min_samples _ => "nvbenchr_state_get_min_samples"
  | C_state_set_min_samples _ _ => "nvbenchr_state_set_min_samples"
  | C_state_get_disable_blocking_kernel _ => "nvbenchr_state_get_disable_blocking_kernel"
  | C_state_set_disable_blocking_kernel _ _ => "nvbenchr_state_set_disable_blocking_kernel"
  | C_state_get_run_once _ => "nvbenchr_state_get_run_once"
  | C_state_set_run_once _ _ => "nvbenchr_state_set_run_once"
  | C_state_get_timeout _ => "nvbenchr_state_get_timeout"
  | C_state_set_timeout _ _ => "nvbenchr_state_set_timeout"
  | C_state_get_blocking_kernel_timeout _ => "nvbenchr_state_get_blocking_kernel_timeout"
  | C_state_set_blocking_kernel_timeout _ _ => "nvbenchr_state_set_blocking_kernel_timeout"
  | C_state_collect_cupti_metrics _ => "nvbenchr_state_collect_cupti_metrics"
  | C_state_is_cupti_required _ => "nvbenchr_state_is_cupti_required"
  | C_state_exec _ _ _ _ => "nvbenchr_state_exec"
  | C_state_get_short_description _ => "nvbenchr_state_get_short_description"
  | C_state_add_summary _ _ _ => "nvbenchr_state_add_summary"
  | C_state_get_axis_values _ => "nvbenchr_state_get_axis_values"
  | C_state_get_axis_values_as_string _ => "nvbenchr_state_get_axis_values_as_string"
  | C_state_get_stopping_criterion _ => "nvbenchr_state_get_stopping_criterion"
  | C_launch_get_stream _ => "nvbenchr_launch_get_stream"
  | C_stream_addressof _ => "nvbenchr_stream_addressof"
  end.

Definition entry_arity (c : Call) : nat :=
  match c with
  | C_register _ _ => 2
  | C_run_all_benchmarks _ => 1
  | C_benchmark_get_name _ => 1
  | C_benchmark_add_int64_axis _ _ _ => 3
  | C_benchmark_add_int64_power_of_two_axis _ _ _ => 3
  | C_benchmark_add_float64_axis _ _ _ => 3
  | C_benchmark_add_string_axis _ _ _ => 3
  | C_benchmark_set_name _ _ => 2
  | C_benchmark_set_is_cpu_only _ _ => 2
  | C_benchmark_set_run_once _ _ => 2
  | C_benchmark_set_skip_time _ _ => 2
  | C_benchmark_set_timeout _ _ => 2
  | C_benchmark_set_throttle_threshold _ _ => 2
  | C_benchmark_set_throttle_recovery_delay _ _ => 2
  | C_benchmark_set_stopping_criterion _ _ => 2
  | C_benchmark_set_criterion_param_int64 _ _ _ => 3
  | C_benchmark_set_criterion_param_float64 _ _ _ => 3
  | C_benchmark_set_criterion_param_string _ _ _ => 3
  | C_benchmark_set_min_samples _ _ => 2
  | C_state_has_device _ => 1
  | C_state_has_printers _ => 1
  | C_state_get_device _ => 1
  | C_state_get_stream _ => 1
  | C_state_get_int64 _ _ => 2
  | C_state_get_int64_or_default _ _ _ => 3
  | C_state_get_float64 _ _ => 2
  | C_state_get_float64_or_default _ _ _ => 3
  | C_state_get_string _ _ => 2
  | C_state_get_string_or_default _ _ _ => 3
  | C_state_add_element_count _ _ _ => 3
  | C_state_set_element_count _ _ => 2
  | C_state_get_element_count _ => 1
  | C_state_skip _ _ => 2
  | C_state_is_skipped _ => 1
  | C_state_get_skip_reason _ => 1
  | C_state_add_global_memory_reads _ _ _ => 3
  | C_state_add_global_memory_writes _ _ _ => 3
  | C_state_get_benchmark _ => 1
  | C_state_get_throttle_threshold _ => 1
  | C_state_set_throttle_threshold _ _ => 2
  | C_state_get_min_samples _ => 1
  | C_state_set_min_samples _ _ => 2
  | C_state_get_disable_blocking_kernel _ => 1
  | C_state_set_disable_blocking_kernel _ _ => 2
  | C_state_get_run_once _ => 1
  | C_state_set_run_once _ _ => 2
  | C_state_get_timeout _ => 1
  | C_state_set_timeout _ _ => 2
  | C_state_get_blocking_kernel_timeout _ => 1
  | C_state_set_blocking_kernel_timeout _ _ => 2
  | C_state_collect_cupti_metrics _ => 1
  | C_state_is_cupti_required _ => 1
  | C_state_exec _ _ _ _ => 4
  | C_state_get_short_description _ => 1
  | C_state_add_summary _ _ _ => 3
  | C_state_get_axis_values _ => 1
  | C_state_get_axis_values_as_string _ => 1
  | C_state_get_stopping_criterion _ => 1
  | C_launch_get_stream _ => 1
  | C_stream_addressof _ => 1
  end.

End Binding.

Arguments World nv : clear implicits.
Arguments Run nv A : clear implicits.
Arguments M nv A : clear implicits.

(** ** A sample instance of the two interfaces

    Used to run the binding on concrete inputs.  The Rcpp side converts a
    vector of the R type of that name (and integer and logical vectors to
    numeric vectors) and rejects the rest with a not_compatible message; it
    is stricter than Rcpp where Rcpp coerces a scalar of another type.  The
    nvbench side keeps the names of the registered benchmarks, the axis
    values of the running state and its summaries, and throws where the
    library documents that it throws (looking up an axis value that does not
    exist). *)
Module Sample.

(** An integer as the nearest double (static_cast<double>). *)
Definition double_of_Z (z : Z) : float :=
  SF2Prim (binary_normalize prec emax z 0 false).

Definition as_single {A B} (conv : A -> B) (l : list A) (msg : string)
  : rcpp_result B :=
  match l with
  | [x] => AsOk (conv x)
  | _ => AsFail msg
  end.

Definition rcpp : Rcpp := {|
  Rcpp_as_string s :=
    match s with
    | Str l => as_single (fun x => x) l "Expecting a single string value"
    | _ => AsFail "Expecting a single string value"
    end;
  Rcpp_as_strings s :=
    match s with
    | Str l => AsOk l
    | _ => AsFail "Expecting a string vector"
    end;
  Rcpp_as_numeric s :=
    match s with
    | Real l => AsOk l
    | Int l => AsOk (map double_of_Z l)
    | Lgl l => AsOk (map (fun b : bool => if b then 1%float else 0%float) l)
    | _ => AsFail "Not compatible with requested type"
    end;
  Rcpp_as_bool s :=
    match s with
    | Lgl l => as_single (fun x => x) l "Expecting a single value"
    | _ => AsFail "Not compatible with requested type"
    end;
  Rcpp_as_int64 s :=
    match s with
    | Int l => as_single (fun x => x) l "Expecting a single value"
    | _ => AsFail "Not compatible with requested type"
    end;
  Rcpp_as_float64 s :=
    match s with
    | Real l => as_single (fun x => x) l "Expecting a single value"
    | _ => AsFail "Not compatible with requested type"
    end;
  Rcpp_as_float32 s :=
    match s with
    | Real l => as_single (fun x => x) l "Expecting a single value"
    | _ => AsFail "Not compatible with requested type"
    end;
  Rcpp_wrap_int64 z := Real [double_of_Z z];
  Rcpp_wrap_size_t n := Real [double_of_Z (Z.of_N n)];
  Rcpp_env_find name := AsOk (Clo 0);
  Rcpp_call fn arg := AsOk arg
|}.

(** One summary of a state: its tag and the fields set on it. *)
Record summary := {
  summary_tag : string;
  summary_fields : list (string * axis_value)
}.

Record lib := {
  bench_names : list string;        (* benchmark at address i + 1 has name i *)
  axis_values : named_values;       (* of the running state *)
  summaries : list summary;         (* summary at address i + 1 *)
  runs : nat                        (* how often the benchmarks were run *)
}.

Definition index_of (p : ptr) : nat := N.to_nat p - 1.

Fixpoint update_nth {A} (n : nat) (f : A -> A) (l : list A) : list A :=
  match l, n with
  | [], _ => []
  | x :: r, O => f x :: r
  | x :: r, S k => x :: update_nth k f r
  end.

Definition set_field (summ : ptr) (key : string) (v : axis_value) (st : lib)
  : lib :=
  {| bench_names := bench_names st;
     axis_values := axis_values st;
     summaries :=
       update_nth (index_of summ)
         (fun s => {| summary_tag := summary_tag s;
                      summary_fields := summary_fields s ++ [(key, v)] |})
         (summaries st);
     runs := runs st |}.

(** The value the sample library returns where nothing is modelled. *)
Definition default_result {T} (c : NvCall T) : T :=
  match c in NvCall T return T with
  | Mgr_add _ | Bench_set_name _ _ | State_get_cuda_stream _
  | State_get_benchmark _ | State_add_summary _ _ | Launch_get_stream _
  | Stream_get_stream _ => 1%N
  | Bench_get_name _ | State_get_string _ _ | State_get_skip_reason _
  | State_get_short_description _ | State_get_axis_values_as_string _
  | State_get_stopping_criterion _ => ""
  | State_get_string_or_default _ _ d => d
  | State_get_int64_or_default _ _ d => d
  | State_get_float64_or_default _ _ d => d
  | State_get_int64 _ _ | State_get_element_count _
  | State_get_min_samples _ => 0
  | State_get_float64 _ _ | State_get_throttle_threshold _
  | State_get_timeout _ | State_get_blocking_kernel_timeout _ => 0%float
  | Bench_printer_has_value _ | State_is_skipped _
  | State_get_disable_blocking_kernel _ | State_get_run_once _
  | State_is_cupti_required _ => false
  | State_get_device _ => Some 0
  | State_get_axis_values _ => []
  | _ => tt
  end.

Definition exec {T} (c : NvCall T) : lib -> ext_result T * lib :=
  match c in NvCall T return lib -> ext_result T * lib with
  | Mgr_add fn => fun st =>
      (ERet (N.of_nat (S (List.length (bench_names st)))),
       {| bench_names := bench_names st ++ [""];
          axis_values := axis_values st;
          summaries := summaries st;
          runs := runs st |})
  | Bench_set_name b name => fun st =>
      (ERet b,
       {| bench_names := update_nth (index_of b) (fun _ => name) (bench_names st);
          axis_values := axis_values st;
          summaries := summaries st;
          runs := runs st |})
  | Bench_get_name b => fun st =>
      (ERet (nth (index_of b) (bench_names st) ""), st)
  | Main_run_benchmarks => fun st =>
      (ERet tt,
       {| bench_names := bench_names st;
          axis_values := axis_values st;
          summaries := summaries st;
          runs := S (runs st) |})
  | State_get_int64 s name => fun st =>
      match get_value (axis_values st) name with
      | Some (AxisInt64 z) => (ERet z, st)
      | _ => (EThrow (StdException ("No value with name '" ++ name ++ "'.")), st)
      end
  | State_get_axis_values s => fun st => (ERet (axis_values st), st)
  | State_add_summary s tag => fun st =>
      (ERet (N.of_nat (S (List.length (summaries st)))),
       {| bench_names := bench_names st;
          axis_values := axis_values st;
          summaries :=
            summaries st ++ [{| summary_tag := tag; summary_fields := [] |}];
          runs := runs st |})
  | Summary_set_string summ key v => fun st =>
      (ERet tt, set_field summ key (AxisString v) st)
  | Summary_set_int64 summ key v => fun st =>
      (ERet tt, set_field summ key (AxisInt64 v) st)
  | Summary_set_float64 summ key v => fun st =>
      (ERet tt, set_field summ key (AxisFloat64 v) st)
  | c' => fun st => (ERet (default_result c'), st)
  end.

Definition nvbench : Nvbench lib := {|
  nv_exec := @exec;
  nv_benchmarks_empty st :=
    match bench_names st with [] => true | _ => false end
|}.

(** A freshly loaded library and binding: no benchmark, one axis [N] = 8,
    the registry created and not finalized. *)
Definition lib0 : lib :=
  {| bench_names := []; axis_values := [("N", AxisInt64 8)];
     summaries := []; runs := 0 |}.

Definition world0 : World lib :=
  {| global_registry := Some {| m_finalized := false |}; nv_state := lib0 |}.

(** Handles as wrap_ptr makes them. *)
Definition handle (p : ptr) (cls : string) : SEXP := ExtPtr p false (Str [cls]).

End Sample.

(** * Properties *)

(** The handle argument of a routine and the class it is declared for, read
    off the signatures: [bench], [state], [launch] and [stream] parameters. *)
Definition handle_of (c : Call) : option (SEXP * string) :=
  match c with
  | C_register _ _ => None
  | C_run_all_benchmarks _ => None
  | C_benchmark_get_name bench => Some (bench, "nvbench_benchmark")
  | C_benchmark_add_int64_axis bench _ _ => Some (bench, "nvbench_benchmark")
  | C_benchmark_add_int64_power_of_two_axis bench _ _ => Some (bench, "nvbench_benchmark")
  | C_benchmark_add_float64_axis bench _ _ => Some (bench, "nvbench_benchmark")
  | C_benchmark_add_string_axis bench _ _ => Some (bench, "nvbench_benchmark")
  | C_benchmark_set_name bench _ => Some (bench, "nvbench_benchmark")
  | C_benchmark_set_is_cpu_only bench _ => Some (bench, "nvbench_benchmark")
  | C_benchmark_set_run_once bench _ => Some (bench, "nvbench_benchmark")
  | C_benchmark_set_skip_time bench _ => Some (bench, "nvbench_benchmark")
  | C_benchmark_set_timeout bench _ => Some (bench, "nvbench_benchmark")
  | C_benchmark_set_throttle_threshold bench _ => Some (bench, "nvbench_benchmark")
  | C_benchmark_set_throttle_recovery_delay bench _ => Some (bench, "nvbench_benchmark")
  | C_benchmark_set_stopping_criterion bench _ => Some (bench, "nvbench_benchmark")
  | C_benchmark_set_criterion_param_int64 bench _ _ => Some (bench, "nvbench_benchmark")
  | C_benchmark_set_criterion_param_float64 bench _ _ => Some (bench, "nvbench_benchmark")
  | C_benchmark_set_criterion_param_string bench _ _ => Some (bench, "nvbench_benchmark")
  | C_benchmark_set_min_samples bench _ => Some (bench, "nvbench_benchmark")
  | C_state_has_device state => Some (state, "nvbench_state")
  | C_state_has_printers state => Some (state, "nvbench_state")
  | C_state_get_device state => Some (state, "nvbench_state")
  | C_state_get_stream state => Some (state, "nvbench_state")
  | C_state_get_int64 state _ => Some (state, "nvbench_state")
  | C_state_get_int64_or_default state _ _ => Some (state, "nvbench_state")
  | C_state_get_float64 state _ => Some (state, "nvbench_state")
  | C_state_get_float64_or_default state _ _ => Some (state, "nvbench_state")
  | C_state_get_string state _ => Some (state, "nvbench_state")
  | C_state_get_string_or_default state _ _ => Some (state, "nvbench_state")
  | C_state_add_element_count state _ _ => Some (state, "nvbench_state")
  | C_state_set_element_count state _ => Some (state, "nvbench_state")
  | C_state_get_element_count state => Some (state, "nvbench_state")
  | C_state_skip state _ => Some (state, "nvbench_state")
  | C_state_is_skipped state => Some (state, "nvbench_state")
  | C_state_get_skip_reason state => Some (state, "nvbench_state")
  | C_state_add_global_memory_reads state _ _ => Some (state, "nvbench_state")
  | C_state_add_global_memory_writes state _ _ => Some (state, "nvbench_state")
  | C_state_get_benchmark state => Some (state, "nvbench_state")
  | C_state_get_throttle_threshold state => Some (state, "nvbench_state")
  | C_state_set_throttle_threshold state _ => Some (state, "nvbench_state")
  | C_state_get_min_samples state => Some (state, "nvbench_state")
  | C_state_set_min_samples state _ => Some (state, "nvbench_state")
  | C_state_get_disable_blocking_kernel state => Some (state, "nvbench_state")
  | C_state_set_disable_blocking_kernel state _ => Some (state, "nvbench_state")
  | C_state_get_run_once state => Some (state, "nvbench_state")
  | C_state_set_run_once state _ => Some (state, "nvbench_state")
  | C_state_get_timeout state => Some (state, "nvbench_state")
  | C_state_set_timeout state _ => Some (state, "nvbench_state")
  | C_state_get_blocking_kernel_timeout state => Some (state, "nvbench_state")
  | C_state_set_blocking_kernel_timeout state _ => Some (state, "nvbench_state")
  | C_state_collect_cupti_metrics state => Some (state, "nvbench_state")
  | C_state_is_cupti_required state => Some (state, "nvbench_state")
  | C_state_exec state _ _ _ => Some (state, "nvbench_state")
  | C_state_get_short_description state => Some (state, "nvbench_state")
  | C_state_add_summary state _ _ => Some (state, "nvbench_state")
  | C_state_get_axis_values state => Some (state, "nvbench_state")
  | C_state_get_axis_values_as_string state => Some (state, "nvbench_state")
  | C_state_get_stopping_criterion state => Some (state, "nvbench_state")
  | C_launch_get_stream launch => Some (launch, "nvbench_launch")
  | C_stream_addressof stream => Some (stream, "nvbench_stream")
  end.

(** Whether a routine takes value arguments next to its handle. *)
Definition has_value_args (c : Call) : bool :=
  match handle_of c with
  | Some _ => Nat.ltb 1 (entry_arity c)
  | None => false
  end.

(** nvbenchr_state_exec checks its launcher before anything else. *)
Definition launcher_ok (c : Call) : bool :=
  match c with
  | C_state_exec _ launcher_fn _ _ => Rf_isFunction launcher_fn
  | _ => true
  end.

Definition handle_classes : list string :=
  ["nvbench_benchmark"; "nvbench_state"; "nvbench_launch"; "nvbench_stream"].

(** A value that is no handle of class [expected]: not an external pointer,
    or one without a class attribute, or one whose tag is another.  (An
    external pointer whose class attribute is an empty character vector is
    left out: R does not keep such an attribute, and unwrap_ptr reads its
    first element.) *)
Definition wrong_handle (expected : string) (h : SEXP) : bool :=
  match h with
  | ExtPtr _ _ (Str (t :: _)) => negb (String.eqb t expected)
  | ExtPtr _ _ (Str []) => false
  | _ => true
  end.

(** What R does when it collects an external pointer made by Rcpp::XPtr: the
    delete-finalizer, when one was registered, deletes the native object. *)
Definition finalize (h : SEXP) : list Event :=
  match h with
  | ExtPtr a true _ => [EvDelete a]
  | _ => []
  end.

(** Truncation toward zero, as a relation on the exact value of a double:
    [z] has the sign of [v] and [|z| <= |v| < |z| + 1], where a finite double
    is (-1)^sign * m * 2^e.  Infinities and NaN truncate to nothing. *)
Definition truncation_of (v : float) (z : Z) : Prop :=
  match Prim2SF v with
  | S754_zero _ => z = 0
  | S754_finite sign m e =>
      (if sign then z <= 0 else 0 <= z) /\
      Z.abs z * 2 ^ Z.max 0 (- e) <= Z.pos m * 2 ^ Z.max 0 e
      /\ Z.pos m * 2 ^ Z.max 0 e < (Z.abs z + 1) * 2 ^ Z.max 0 (- e)
  | S754_infinity _ | S754_nan => False
  end.

Definition in_int64_range (z : Z) : Prop := int64_min <= z <= int64_max.

(** An interaction that neither makes an owning pointer nor deletes. *)
Definition harmless (e : Event) : bool :=
  negb (is_owning_xptr e) && negb (is_delete e).

(** The routines that hand a new handle to R. *)
Definition creates_handle (c : Call) : bool :=
  match c with
  | C_register _ _ | C_state_get_stream _ | C_state_get_benchmark _
  | C_launch_get_stream _ => true
  | _ => false
  end.

(** What nvbenchr_state_add_summary does before it looks at the value: the
    handle, the tag name, and the summary with its description and name. *)
Definition summary_prefix (state name : SEXP) (s : state_ptr) (N : string)
  (summ : ptr) : list Event :=
  [EvUnwrap "nvbench_state" state; EvCast "nvbench_state" s;
   EvConvert "name" name;
   EvNative (State_add_summary s ("nv/r/" ++ N));
   EvNative (Summary_set_string summ "description" ("User tag: " ++ N));
   EvNative (Summary_set_string summ "name" N)].

(** The order that C2 states, on the interactions of one run: no value
    argument is converted after a handle was unwrapped. *)
Definition validation_first (evs : list Event) : Prop :=
  forall pre arg v post,
    evs = (pre ++ EvConvert arg v :: post)%list ->
    existsb is_unwrap pre = false.

(** The step of a routine an interaction belongs to: the unwrap of the
    handle, the conversion of a value argument, the work of the library, the
    wrapping of a result. *)
Definition step_of (e : Event) : nat :=
  match e with
  | EvUnwrap _ _ | EvCast _ _ => 0
  | EvConvert _ _ => 1
  | EvXPtr _ _ => 3
  | _ => 2
  end.

(** The interactions of a run come in the order of their steps. *)
Fixpoint in_order (evs : list Event) : bool :=
  match evs with
  | [] => true
  | e :: rest =>
      forallb (fun e' => Nat.leb (step_of e) (step_of e')) rest && in_order rest
  end.

Definition between (lo hi : nat) (e : Event) : bool :=
  Nat.leb lo (step_of e) && Nat.leb (step_of e) hi.

(** nvbenchr_state_add_summary converts a string value after it has created
    the summary. *)
Definition converts_value_late (c : Call) : bool :=
  match c with
  | C_state_add_summary _ _ _ => true
  | _ => false
  end.

Section Vocabulary.

Context {nv : Type}.
Variable R : Rcpp.
Variable NV : Nvbench nv.
Variable order : arg_order.

(** Runs of a sequence of calls from the table. *)
Definition step (w : World nv) (c : Call) : World nv := world (dispatch R NV order c w).

Definition run_calls (cs : list Call) (w : World nv) : World nv := fold_left step cs w.

Definition finalized (w : World nv) : Prop :=
  global_registry w = Some {| m_finalized := true |}.


(** A property [I] of worlds kept by a piece of the binding, together with a
    property [p] of every interaction it performs. *)
Definition respects (I : World nv -> Prop) (p : Event -> bool) {A}
  (m : M nv A) : Prop :=
  forall w, I w -> I (world (m w)) /\ forallb p (events (m w)) = true.

(** The steps of a run end in a return or in an exception of the library. *)
Definition returns_or_throws {A} (m : M nv A) : Prop :=
  forall w, (exists a, outcome (m w) = Ret a) \/
            (exists e, outcome (m w) = Throw e).

(** A piece of the binding whose interactions are in order and belong to
    the steps [lo] to [hi]. *)
Definition within (lo hi : nat) {A} (m : M nv A) : Prop :=
  forall w, in_order (events (m w)) = true /\
            forallb (between lo hi) (events (m w)) = true.

End Vocabulary.

(** ** Inputs of the examples *)

Module Inputs.

Import Sample.

Definition bench_handle : SEXP := handle 1%N "nvbench_benchmark".
Definition state_handle : SEXP := handle 1%N "nvbench_state".

(** The world after one benchmark was registered under the name "b". *)
Definition world1 : World lib :=
  world (nvbenchr_register rcpp nvbench (Clo 1) (Str ["b"]) world0).

(** The world after the benchmarks were then run. *)
Definition world2 : World lib :=
  world (nvbenchr_run_all_benchmarks rcpp nvbench (Str []) world1).

(** A benchmark handle given to a routine that expects a state. *)
Definition confused_call : Call := C_state_get_int64 bench_handle (Str ["N"]).

(** No handle and no string. *)
Definition wrong_both_call : Call := C_benchmark_set_name R_NilValue (Int [42]).

(** An int64 axis for the registered benchmark. *)
Definition axis_call : Call :=
  C_benchmark_add_int64_axis bench_handle (Str ["n"]) (Int [1; 2; 4]).

(** Calls made after the run. *)
Definition later_calls : list Call :=
  [C_register (Clo 2) (Str ["c"]); C_benchmark_get_name bench_handle].

(** 2.9 and -2.9, as the nearest doubles. *)
Definition two_point_nine : float := 0x1.7333333333333p+1%float.
Definition minus_two_point_nine : float := (-0x1.7333333333333p+1)%float.

(** The library state after a summary "tag" with an integer value was
    added. *)
Definition lib_with_summary (fields : list (string * axis_value)) : lib :=
  {| bench_names := []; axis_values := [("N", AxisInt64 8)];
     summaries := [{| summary_tag := "nv/r/tag"; summary_fields := fields |}];
     runs := 0 |}.

End Inputs.

(** ** More vocabulary *)

Definition is_run_all (c : Call) : bool :=
  match c with
  | C_run_all_benchmarks _ => true
  | _ => false
  end.

(** The message GlobalBenchmarkRegistry::run reports for an exception of
    the library. *)
Definition run_failure_message (e : cpp_exception) : string :=
  match e with
  | StdException what => "nvbench run failed: " ++ what
  | UnknownException => "Unknown exception while running nvbench benchmarks"
  end.

(** The error nvbenchr_register raises for a benchmark that is not a
    function, by what it checks first. *)
Definition register_refusal (reg : option GlobalBenchmarkRegistry)
  (name : rcpp_result string) : string :=
  match reg with
  | None => "nvbenchr registry is not initialized"
  | Some r =>
      match name with
      | AsFail what => "Expected string for name: " ++ what
      | AsOk _ =>
          if m_finalized r then "Cannot register benchmarks after execution"
          else "Benchmark must be a function"
      end
  end.

(** The benchmark routines that configure a benchmark, and the state
    routines that change a state. *)
Definition configures_benchmark (c : Call) : bool :=
  match c with
  | C_benchmark_get_name _ => false
  | _ =>
      match handle_of c with
      | Some (_, cls) => String.eqb cls "nvbench_benchmark"
      | None => false
      end
  end.

Definition changes_state (c : Call) : bool :=
  match c with
  | C_state_add_element_count _ _ _ | C_state_set_element_count _ _
  | C_state_skip _ _ | C_state_add_global_memory_reads _ _ _
  | C_state_add_global_memory_writes _ _ _
  | C_state_set_throttle_threshold _ _ | C_state_set_min_samples _ _
  | C_state_set_disable_blocking_kernel _ _ | C_state_set_run_once _ _
  | C_state_set_timeout _ _ | C_state_set_blocking_kernel_timeout _ _
  | C_state_collect_cupti_metrics _ | C_state_exec _ _ _ _
  | C_state_add_summary _ _ _ => true
  | _ => false
  end.

(** A library none of whose calls throws. *)
Definition never_throwing {nv} (NV : Nvbench nv) : Prop :=
  forall T (c : NvCall T) st, exists a st', nv_exec NV c st = (ERet a, st').

Section MoreVocabulary.

Context {nv : Type}.

(** A piece of the binding out of which no exception propagates, and one
    out of which only exceptions derived from std::exception do. *)
Definition never_throws {A} (m : M nv A) : Prop :=
  forall w e, outcome (m w) <> Throw e.

Definition throws_std_only {A} (m : M nv A) : Prop :=
  forall w, outcome (m w) <> Throw UnknownException.

(** A piece of the binding that leaves the world alone and calls nothing in
    the library, as the conversions of arguments do. *)
Definition converts_only {A} (m : M nv A) : Prop :=
  forall w, world (m w) = w /\ filter is_native (events (m w)) = [].

End MoreVocabulary.

(** A library that answers every call with a default and never throws. *)
Module Quiet.

Definition nvbench : Nvbench unit := {|
  nv_exec := fun T (c : NvCall T) st => (ERet (Sample.default_result c), st);
  nv_benchmarks_empty := fun _ => true
|}.

Definition world0 : World unit :=
  {| global_registry := Some {| m_finalized := false |}; nv_state := tt |}.

End Quiet.

Module MoreInputs.

Import Sample.

(** A well-tagged handle whose stored address is null. *)
Definition null_state_handle : SEXP := handle nullptr "nvbench_state".

(** The sample library with the driver failing to initialise. *)
Definition failing_driver : Nvbench lib := {|
  nv_exec := fun T (c : NvCall T) =>
    match c in NvCall T return lib -> ext_result T * lib with
    | Driver_cuInit => fun st => (EThrow (StdException "cuInit failed"), st)
    | c' => exec c'
    end;
  nv_benchmarks_empty := nv_benchmarks_empty nvbench
|}.

(** The sample library with an option parser that rejects its arguments. *)
Definition failing_parser : Nvbench lib := {|
  nv_exec := fun T (c : NvCall T) =>
    match c in NvCall T return lib -> ext_result T * lib with
    | Parser_parse _ => fun st => (EThrow (StdException "unknown option"), st)
    | c' => exec c'
    end;
  nv_benchmarks_empty := nv_benchmarks_empty nvbench
|}.

(** The world before the package is loaded. *)
Definition unloaded : World lib := {| global_registry := None; nv_state := lib0 |}.

(** The world with one benchmark registered. *)
Definition one_benchmark : World lib :=
  {| global_registry := Some {| m_finalized := false |};
     nv_state := {| bench_names := ["b"]; axis_values := [("N", AxisInt64 8)];
                    summaries := []; runs := 0 |} |}.

(** Axis values of three kinds. *)
Definition three_axes : named_values :=
  [("N", AxisInt64 8); ("T", AxisString "f32"); ("S", AxisInt64 2)].

Definition three_axes_world : World lib :=
  {| global_registry := Some {| m_finalized := false |};
     nv_state := {| bench_names := []; axis_values := three_axes;
                    summaries := []; runs := 0 |} |}.

End MoreInputs.

Create HintDb binding.

#[local] Hint Unfold
  nvbenchr_register nvbenchr_run_all_benchmarks
  nvbenchr_benchmark_get_name nvbenchr_benchmark_add_int64_axis
  nvbenchr_benchmark_add_int64_power_of_two_axis nvbenchr_benchmark_add_float64_axis
  nvbenchr_benchmark_add_string_axis nvbenchr_benchmark_set_name
  nvbenchr_benchmark_set_is_cpu_only nvbenchr_benchmark_set_run_once
  nvbenchr_benchmark_set_skip_time nvbenchr_benchmark_set_timeout
  nvbenchr_benchmark_set_throttle_threshold nvbenchr_benchmark_set_throttle_recovery_delay
  nvbenchr_benchmark_set_stopping_criterion nvbenchr_benchmark_set_criterion_param_int64
  nvbenchr_benchmark_set_criterion_param_float64 nvbenchr_benchmark_set_criterion_param_string
  nvbenchr_benchmark_set_min_samples nvbenchr_state_has_device
  nvbenchr_state_has_printers nvbenchr_state_get_device
  nvbenchr_state_get_stream nvbenchr_state_get_int64
  nvbenchr_state_get_int64_or_default nvbenchr_state_get_float64
  nvbenchr_state_get_float64_or_default nvbenchr_state_get_string
  nvbenchr_state_get_string_or_default nvbenchr_state_add_element_count
  nvbenchr_state_set_element_count nvbenchr_state_get_element_count
  nvbenchr_state_skip nvbenchr_state_is_skipped
  nvbenchr_state_get_skip_reason nvbenchr_state_add_global_memory_reads
  nvbenchr_state_add_global_memory_writes nvbenchr_state_get_benchmark
  nvbenchr_state_get_throttle_threshold nvbenchr_state_set_throttle_threshold
  nvbenchr_state_get_min_samples nvbenchr_state_set_min_samples
  nvbenchr_state_get_disable_blocking_kernel nvbenchr_state_set_disable_blocking_kernel
  nvbenchr_state_get_run_once nvbenchr_state_set_run_once
  nvbenchr_state_get_timeout nvbenchr_state_set_timeout
  nvbenchr_state_get_blocking_kernel_timeout nvbenchr_state_set_blocking_kernel_timeout
  nvbenchr_state_collect_cupti_metrics nvbenchr_state_is_cupti_required
  nvbenchr_state_exec nvbenchr_state_get_short_description
  nvbenchr_state_add_summary nvbenchr_state_get_axis_values
  nvbenchr_state_get_axis_values_as_string nvbenchr_state_get_stopping_criterion
  nvbenchr_launch_get_stream nvbenchr_stream_addressof
  bench_from_xptr state_from_xptr launch_from_xptr stream_from_xptr
  wrap_stream_xptr wrap_state_obj wrap_launch_obj : binding.

Section Properties.

Context {nv : Type}.
Variable R : Rcpp.
Variable NV : Nvbench nv.
Variable order : arg_order.

(** ** Reasoning about one run *)

Lemma outcome_bind {A B} (m : M nv A) (f : A -> M nv B) w :
  outcome (bind m f w) =
  match outcome (m w) with
  | Ret a => outcome (f a (world (m w)))
  | RStop msg => RStop msg
  | Throw e => Throw e
  | Undefined why => Undefined why
  end.
Proof.
  unfold bind. destruct (m w) as [[a | msg | e | why] w1 ev1]; cbn; auto.
  destruct (f a w1); reflexivity.
Qed.

Lemma world_bind {A B} (m : M nv A) (f : A -> M nv B) w :
  world (bind m f w) =
  match outcome (m w) with
  | Ret a => world (f a (world (m w)))
  | _ => world (m w)
  end.
Proof.
  unfold bind. destruct (m w) as [[a | msg | e | why] w1 ev1]; cbn; auto.
  destruct (f a w1); reflexivity.
Qed.

Lemma events_bind {A B} (m : M nv A) (f : A -> M nv B) w :
  events (bind m f w) =
  match outcome (m w) with
  | Ret a => (events (m w) ++ events (f a (world (m w))))%list
  | _ => events (m w)
  end.
Proof.
  unfold bind. destruct (m w) as [[a | msg | e | why] w1 ev1]; cbn; auto.
  destruct (f a w1); reflexivity.
Qed.

(** Lemmas for a fixed [I] and [p]. *)
Section Respects.

Variable I : World nv -> Prop.
Variable p : Event -> bool.

Hypothesis I_native : forall w st,
  I w -> I {| global_registry := global_registry w; nv_state := st |}.
Hypothesis I_finalize : forall w,
  I w -> I {| global_registry := Some {| m_finalized := true |};
              nv_state := nv_state w |}.
Hypothesis p_binding : forall e,
  is_owning_xptr e = false -> is_delete e = false -> p e = true.

(** Runs [m] from [w], names the parts of the result and what [m] is known
    to respect. *)
Ltac run_of Hm w H o w1 ev1 Hw He :=
  let Hr := fresh in
  pose proof (Hm w H) as Hr;
  destruct Hr as [Hw He]; cbn beta in Hw, He;
  match type of Hw with
  | I (world ?r) => destruct r as [o w1 ev1]
  end;
  cbn [world events] in Hw, He.

Lemma respects_ret {A} (a : A) : respects I p (ret a).
Proof. intros w H. split; [exact H | reflexivity]. Qed.

Lemma respects_stop {A} msg : respects I p (@stop nv A msg).
Proof. intros w H. split; [exact H | reflexivity]. Qed.

Lemma respects_throw {A} e : respects I p (@throw nv A e).
Proof. intros w H. split; [exact H | reflexivity]. Qed.

Lemma respects_undefined {A} why : respects I p (@undefined nv A why).
Proof. intros w H. split; [exact H | reflexivity]. Qed.

Lemma respects_emit e :
  is_owning_xptr e = false -> is_delete e = false -> respects I p (emit e).
Proof.
  intros H1 H2 w H. split; [exact H | ].
  cbn. rewrite (p_binding e H1 H2). reflexivity.
Qed.

Lemma respects_native {T} (c : NvCall T) : respects I p (native NV c).
Proof.
  intros w H. unfold native.
  destruct (nv_exec NV c (nv_state w)) as [r st]. cbn. split.
  - apply I_native. exact H.
  - rewrite p_binding; reflexivity.
Qed.

Lemma respects_get_registry : respects I p get_registry.
Proof. intros w H. split; [exact H | reflexivity]. Qed.

Lemma respects_benchmarks_empty : respects I p (benchmarks_empty NV).
Proof. intros w H. split; [exact H | reflexivity]. Qed.

Lemma respects_continue {A B} (k : M nv B) (o : Outcome A) w1 ev1 :
  respects I p k -> I w1 -> forallb p ev1 = true ->
  I (world (let (o', w2, ev2) := k w1 in
            {| outcome := o'; world := w2; events := ev1 ++ ev2 |})) /\
  forallb p (events (let (o', w2, ev2) := k w1 in
                     {| outcome := o'; world := w2; events := ev1 ++ ev2 |}))
  = true.
Proof.
  intros Hk Hw He. run_of Hk w1 Hw o2 w2 ev2 Hw2 He2. cbn [world events].
  split; [exact Hw2 | ]. rewrite forallb_app, He, He2. reflexivity.
Qed.

Lemma respects_bind {A B} (m : M nv A) (f : A -> M nv B) :
  respects I p m -> (forall a, respects I p (f a)) -> respects I p (bind m f).
Proof.
  intros Hm Hf w H. unfold bind. run_of Hm w H o w1 ev1 Hw He.
  destruct o as [a | msg | e | why]; cbn [world events]; auto.
  apply (respects_continue (Ret a)); auto.
Qed.

Lemma respects_try_catch_std {A} (body : M nv A) handler :
  respects I p body -> (forall what, respects I p (handler what)) ->
  respects I p (try_catch_std body handler).
Proof.
  intros Hb Hh w H. unfold try_catch_std. run_of Hb w H o w1 ev1 Hw He.
  destruct o as [a | msg | [what | ] | why]; cbn [world events]; auto;
    apply (respects_continue (Ret tt)); auto.
Qed.

Lemma respects_try_catch_all {A} (body : M nv A) handler handler_any :
  respects I p body -> (forall what, respects I p (handler what)) ->
  respects I p handler_any -> respects I p (try_catch_all body handler handler_any).
Proof.
  intros Hb Hh Ha w H. unfold try_catch_all. run_of Hb w H o w1 ev1 Hw He.
  destruct o as [a | msg | [what | ] | why]; cbn [world events]; auto;
    apply (respects_continue (Ret tt)); auto.
Qed.

Lemma respects_at_scope_exit {A} (body : M nv A) dtor :
  respects I p body -> respects I p dtor -> respects I p (at_scope_exit body dtor).
Proof.
  intros Hb Hd w H. unfold at_scope_exit. run_of Hb w H o w1 ev1 Hw He.
  run_of Hd w1 Hw o2 w2 ev2 Hw2 He2.
  destruct o; cbn [world events]; auto;
    (split; [exact Hw2 | rewrite forallb_app, He, He2; reflexivity]).
Qed.

Lemma respects_set_m_finalized : respects I p (set_m_finalized true).
Proof.
  intros w H. unfold set_m_finalized, bind, get_registry, set_registry.
  destruct (global_registry w); cbn; split; auto.
Qed.

Lemma respects_convert {A} (conv : SEXP -> rcpp_result A) arg s :
  respects I p (convert conv arg s).
Proof.
  unfold convert. apply respects_bind.
  - apply respects_emit; reflexivity.
  - intros _. destruct (conv s);
      [apply respects_ret | apply respects_throw].
Qed.

Lemma respects_for_each {A B} (f : A -> M nv B) l :
  (forall a, respects I p (f a)) -> respects I p (for_each f l).
Proof.
  intros Hf. induction l as [ | x rest IH]; cbn [for_each].
  - apply respects_ret.
  - apply respects_bind; [apply Hf | intros y].
    apply respects_bind; [exact IH | intros ys]. apply respects_ret.
Qed.

Lemma respects_args2 {A B} (a : M nv A) (b : M nv B) :
  respects I p a -> respects I p b -> respects I p (args2 order a b).
Proof.
  intros Ha Hb. unfold args2.
  destruct order; repeat (apply respects_bind; [assumption | intro]);
    apply respects_ret.
Qed.

Lemma respects_unwrap_ptr obj cls : respects I p (unwrap_ptr obj cls).
Proof.
  unfold unwrap_ptr. apply respects_bind; [apply respects_emit; reflexivity | ].
  intros _. destruct (negb (SEXPTYPE_eqb (TYPEOF obj) EXTPTRSXP));
    [apply respects_stop | ].
  destruct (Rf_getAttrib_class obj) as [ | | | | elts | | | | | | ];
    try apply respects_stop.
  destruct elts as [ | t rest]; [apply respects_undefined | ].
  destruct (negb (String.eqb t cls)); [apply respects_stop | ].
  apply respects_bind; [apply respects_emit; reflexivity | intros _].
  destruct (N.eqb (R_ExternalPtrAddr obj) nullptr);
    [apply respects_stop | apply respects_ret].
Qed.

Lemma respects_wrap_ptr ptr cls : respects I p (wrap_ptr ptr cls).
Proof.
  unfold wrap_ptr, XPtr_new.
  repeat (apply respects_bind; [ | intro ]); try apply respects_ret.
  apply respects_emit; reflexivity.
Qed.

Lemma respects_as_string s name : respects I p (as_string R s name).
Proof.
  apply respects_try_catch_std;
    [apply respects_convert | intro; apply respects_stop].
Qed.

Lemma respects_as_string_vec s name : respects I p (as_string_vec R s name).
Proof.
  apply respects_try_catch_std;
    [apply respects_convert | intro; apply respects_stop].
Qed.

Lemma respects_as_bool s name : respects I p (as_bool R s name).
Proof.
  apply respects_try_catch_std;
    [apply respects_convert | intro; apply respects_stop].
Qed.

Lemma respects_as_scalar {T} (conv : SEXP -> rcpp_result T) s name :
  respects I p (as_scalar conv s name).
Proof.
  apply respects_try_catch_std;
    [apply respects_convert | intro; apply respects_stop].
Qed.

Lemma respects_static_cast_int64 v : respects I p (static_cast_int64 v).
Proof.
  unfold static_cast_int64. destruct (truncate v) as [z | ];
    [ | apply respects_undefined].
  destruct ((int64_min <=? z) && (z <=? int64_max));
    [apply respects_ret | apply respects_undefined].
Qed.

Lemma respects_as_int64_vec s name : respects I p (as_int64_vec R s name).
Proof.
  apply respects_try_catch_std; [ | intro; apply respects_stop].
  apply respects_bind; [apply respects_convert | intro].
  apply respects_for_each. exact respects_static_cast_int64.
Qed.

Lemma respects_as_float64_vec s name : respects I p (as_float64_vec R s name).
Proof.
  apply respects_try_catch_std; [ | intro; apply respects_stop].
  apply respects_bind; [apply respects_convert | intro].
  apply respects_for_each. intro. apply respects_ret.
Qed.

Lemma respects_call_function fn arg : respects I p (call_function R fn arg).
Proof.
  unfold call_function.
  apply respects_bind; [apply respects_emit; reflexivity | intros _].
  destruct (Rcpp_call R fn arg); [apply respects_ret | apply respects_throw].
Qed.

Lemma respects_call_wrapper name arg : respects I p (call_wrapper R name arg).
Proof.
  unfold call_wrapper. destruct (Rcpp_env_find R name);
    [apply respects_call_function | apply respects_throw].
Qed.

Lemma respects_this_m_finalized : respects I p this_m_finalized.
Proof.
  unfold this_m_finalized.
  apply respects_bind; [apply respects_get_registry | intros [r | ]];
    [apply respects_ret | apply respects_undefined].
Qed.

Lemma respects_add_bench fn name : respects I p (add_bench NV fn name).
Proof.
  unfold add_bench.
  apply respects_bind; [apply respects_this_m_finalized | intros fin].
  destruct fin; [apply respects_stop | ].
  destruct (negb (Rf_isFunction fn)); [apply respects_stop | ].
  apply respects_bind; [apply respects_emit; reflexivity | intros _].
  apply respects_at_scope_exit; [ | apply respects_emit; reflexivity].
  apply respects_bind; [apply respects_native | intro; apply respects_native].
Qed.

Lemma respects_run argv : respects I p (run NV argv).
Proof.
  unfold run.
  apply respects_bind; [apply respects_benchmarks_empty | intros empty].
  destruct empty; [apply respects_stop | ].
  apply respects_bind; [apply respects_this_m_finalized | intros fin].
  destruct fin; [apply respects_stop | ].
  apply respects_bind; [apply respects_set_m_finalized | intros _].
  apply respects_try_catch_all;
    [ | intro; apply respects_stop | apply respects_stop].
  repeat (apply respects_bind; [apply respects_native | intros _]).
  apply respects_native.
Qed.

Lemma respects_axis_values_loop named_vals names out :
  respects I p (axis_values_loop R named_vals names out).
Proof.
  revert out. induction names as [ | name rest IH]; intros out;
    cbn [axis_values_loop]; [apply respects_ret | ].
  destruct (has_value named_vals name); [ | apply IH].
  destruct (get_value named_vals name); [apply IH | apply respects_throw].
Qed.

(** One step of the syntax-directed proof that a routine respects I p [I] and
    [p]. *)
Ltac respects_step :=
  match goal with
  | |- respects I p (bind _ _) => apply respects_bind; [ | intro ]
  | |- respects I p (ret _) => apply respects_ret
  | |- respects I p (stop _) => apply respects_stop
  | |- respects I p (undefined _) => apply respects_undefined
  | |- respects I p (native _ _) => apply respects_native
  | |- respects I p get_registry => apply respects_get_registry
  | |- respects I p (unwrap_ptr _ _) => apply respects_unwrap_ptr
  | |- respects I p (wrap_ptr _ _) => apply respects_wrap_ptr
  | |- respects I p (as_string _ _ _) => apply respects_as_string
  | |- respects I p (as_string_vec _ _ _) => apply respects_as_string_vec
  | |- respects I p (as_bool _ _ _) => apply respects_as_bool
  | |- respects I p (as_scalar _ _ _) => apply respects_as_scalar
  | |- respects I p (as_int64_vec _ _ _) => apply respects_as_int64_vec
  | |- respects I p (as_float64_vec _ _ _) => apply respects_as_float64_vec
  | |- respects I p (args2 _ _ _) => apply respects_args2
  | |- respects I p (call_wrapper _ _ _) => apply respects_call_wrapper
  | |- respects I p (call_function _ _ _) => apply respects_call_function
  | |- respects I p (add_bench _ _ _) => apply respects_add_bench
  | |- respects I p (run _ _) => apply respects_run
  | |- respects I p (axis_values_loop _ _ _ _) => apply respects_axis_values_loop
  | |- respects I p (match ?x with _ => _ end) => destruct x
  end.

Lemma respects_dispatch c : respects I p (dispatch R NV order c).
Proof.
  destruct c; cbn [dispatch]; autounfold with binding;
    repeat respects_step.
Qed.

Lemma respects_r_function_holder_call fn state :
  respects I p (r_function_holder_call R fn state).
Proof. unfold r_function_holder_call. repeat respects_step. Qed.

Lemma respects_cpp_launcher launcher launch :
  respects I p (cpp_launcher R launcher launch).
Proof. unfold cpp_launcher, wrap_launch_obj. repeat respects_step. Qed.

Lemma respects_wrap_state_obj state : respects I p (wrap_state_obj R state).
Proof. unfold wrap_state_obj. repeat respects_step. Qed.

End Respects.

(** ** What the helper functions do *)

Lemma as_string_ok s name v (w : World nv) :
  Rcpp_as_string R s = AsOk v ->
  as_string R s name w =
  {| outcome := Ret v; world := w; events := [EvConvert name s] |}.
Proof.
  intros H. unfold as_string, try_catch_std, convert, bind, emit.
  rewrite H. reflexivity.
Qed.

Lemma as_string_fail s name what (w : World nv) :
  Rcpp_as_string R s = AsFail what ->
  as_string R s name w =
  {| outcome := RStop ("Expected string for " ++ name ++ ": " ++ what);
     world := w; events := [EvConvert name s] |}.
Proof.
  intros H. unfold as_string, try_catch_std, convert, bind, emit.
  rewrite H. reflexivity.
Qed.

Lemma as_string_vec_ok s name v (w : World nv) :
  Rcpp_as_strings R s = AsOk v ->
  as_string_vec R s name w =
  {| outcome := Ret v; world := w; events := [EvConvert name s] |}.
Proof.
  intros H. unfold as_string_vec, try_catch_std, convert, bind, emit.
  rewrite H. reflexivity.
Qed.

Lemma as_string_vec_fail s name what (w : World nv) :
  Rcpp_as_strings R s = AsFail what ->
  as_string_vec R s name w =
  {| outcome := RStop ("Expected character vector for " ++ name ++ ": " ++ what);
     world := w; events := [EvConvert name s] |}.
Proof.
  intros H. unfold as_string_vec, try_catch_std, convert, bind, emit.
  rewrite H. reflexivity.
Qed.

Lemma native_ret {T} (c : NvCall T) (w : World nv) a st :
  nv_exec NV c (nv_state w) = (ERet a, st) ->
  native NV c w =
  {| outcome := Ret a;
     world := {| global_registry := global_registry w; nv_state := st |};
     events := [EvNative c] |}.
Proof. intros H. unfold native. rewrite H. reflexivity. Qed.

Lemma native_throw {T} (c : NvCall T) (w : World nv) e st :
  nv_exec NV c (nv_state w) = (EThrow e, st) ->
  native NV c w =
  {| outcome := Throw e;
     world := {| global_registry := global_registry w; nv_state := st |};
     events := [EvNative c] |}.
Proof. intros H. unfold native. rewrite H. reflexivity. Qed.

(** A well-tagged handle with a non-null address unwraps to the address. *)
Lemma unwrap_ptr_ok a f cls rest (w : World nv) :
  a <> nullptr ->
  unwrap_ptr (ExtPtr a f (Str (cls :: rest))) cls w =
  {| outcome := Ret a; world := w;
     events := [EvUnwrap cls (ExtPtr a f (Str (cls :: rest))); EvCast cls a] |}.
Proof.
  intros Ha. unfold unwrap_ptr, bind, emit. cbn.
  rewrite String.eqb_refl. cbn.
  destruct (N.eqb_spec a nullptr) as [E | _]; [contradiction | reflexivity].
Qed.

(** Anything else is refused before the stored address is looked at. *)
Lemma unwrap_ptr_wrong h cls (w : World nv) :
  wrong_handle cls h = true ->
  exists msg,
    unwrap_ptr h cls w =
    {| outcome := RStop msg; world := w; events := [EvUnwrap cls h] |}.
Proof.
  intros H. unfold unwrap_ptr, bind, emit.
  destruct h as [ | | | | | | | | | | a f c]; cbn; eauto.
  destruct c as [ | | | | elts | | | | | | ]; cbn; eauto.
  destruct elts as [ | t rest]; cbn in H |- *; [discriminate | ].
  rewrite H. cbn. eauto.
Qed.

(** Every routine with a handle starts by unwrapping it (for
    nvbenchr_state_exec, once its launcher is known to be a function). *)
Lemma dispatch_unwraps_first c h cls :
  handle_of c = Some (h, cls) -> launcher_ok c = true ->
  exists f : ptr -> M nv SEXP,
    forall w, dispatch R NV order c w = bind (unwrap_ptr h cls) f w.
Proof.
  intros Hh Hl.
  destruct c; cbn in Hh; inversion Hh; subst; clear Hh;
    cbn [dispatch]; autounfold with binding;
    try (eexists; intros w; reflexivity).
  cbn in Hl. rewrite Hl. cbn [negb]. eexists; intros w; reflexivity.
Qed.

Lemma handle_of_class c h cls :
  handle_of c = Some (h, cls) -> In cls handle_classes.
Proof.
  destruct c; cbn; intros H; inversion H; subst; cbn; auto.
Qed.

Lemma unwrap_ptr_events h cls (w : World nv) :
  exists rest, events (unwrap_ptr h cls w) = EvUnwrap cls h :: rest.
Proof.
  unfold unwrap_ptr, bind, emit. cbn.
  destruct (negb (SEXPTYPE_eqb (TYPEOF h) EXTPTRSXP)); cbn; eauto.
  destruct (Rf_getAttrib_class h) as [ | | | | elts | | | | | | ]; cbn; eauto.
  destruct elts as [ | t rest]; cbn; eauto.
  destruct (negb (String.eqb t cls)); cbn; eauto.
  destruct (N.eqb (R_ExternalPtrAddr h) nullptr); cbn; eauto.
Qed.

Lemma unwrap_ptr_no_convert h cls (w : World nv) :
  existsb is_convert (events (unwrap_ptr h cls w)) = false.
Proof.
  unfold unwrap_ptr, bind, emit. cbn.
  destruct (negb (SEXPTYPE_eqb (TYPEOF h) EXTPTRSXP)); cbn; auto.
  destruct (Rf_getAttrib_class h) as [ | | | | elts | | | | | | ]; cbn; auto.
  destruct elts as [ | t rest]; cbn; auto.
  destruct (negb (String.eqb t cls)); cbn; auto.
  destruct (N.eqb (R_ExternalPtrAddr h) nullptr); cbn; auto.
Qed.

Lemma bind_events_head {A B} (m : M nv A) (f : A -> M nv B) w e rest :
  events (m w) = e :: rest ->
  exists rest', events (bind m f w) = e :: rest'.
Proof.
  intros H. rewrite events_bind.
  destruct (outcome (m w)); rewrite H; cbn; eauto.
Qed.

(** ** The order of the steps *)

Lemma in_order_app l1 l2 mid :
  in_order l1 = true -> in_order l2 = true ->
  forallb (fun e => Nat.leb (step_of e) mid) l1 = true ->
  forallb (fun e => Nat.leb mid (step_of e)) l2 = true ->
  in_order (l1 ++ l2) = true.
Proof.
  intros H1 H2 Hle Hge. induction l1 as [ | e l1 IH]; cbn in *; [exact H2 | ].
  apply andb_true_iff in H1. destruct H1 as [He H1].
  apply andb_true_iff in Hle. destruct Hle as [Hemid Hle].
  apply andb_true_iff. split; [ | exact (IH H1 Hle)].
  rewrite forallb_app. apply andb_true_iff. split; [exact He | ].
  rewrite forallb_forall in Hge |- *. intros e' Hin.
  specialize (Hge e' Hin). apply Nat.leb_le in Hge, Hemid. apply Nat.leb_le. lia.
Qed.

Lemma between_weaken lo hi lo' hi' l :
  Nat.leb lo' lo = true -> Nat.leb hi hi' = true ->
  forallb (between lo hi) l = true -> forallb (between lo' hi') l = true.
Proof.
  intros Hlo Hhi H. rewrite forallb_forall in H |- *. intros e Hin.
  specialize (H e Hin). unfold between in *.
  apply andb_true_iff in H. destruct H as [Ha Hb].
  apply Nat.leb_le in Hlo, Hhi, Ha, Hb.
  apply andb_true_iff. split; apply Nat.leb_le; lia.
Qed.

Lemma within_weaken lo hi lo' hi' {A} (m : M nv A) :
  within lo hi m -> Nat.leb lo' lo = true -> Nat.leb hi hi' = true ->
  within lo' hi' m.
Proof.
  intros H Hlo Hhi w. destruct (H w) as [Ho Hb].
  split; [exact Ho | exact (@between_weaken lo hi lo' hi' _ Hlo Hhi Hb)].
Qed.

Lemma within_sequence lo mid hi l1 l2 :
  in_order l1 = true /\ forallb (between lo mid) l1 = true ->
  in_order l2 = true /\ forallb (between mid hi) l2 = true ->
  Nat.leb lo mid = true -> Nat.leb mid hi = true ->
  in_order (l1 ++ l2) = true /\ forallb (between lo hi) (l1 ++ l2) = true.
Proof.
  intros [Ho1 Hb1] [Ho2 Hb2] Hlo Hhi. split.
  - apply (@in_order_app l1 l2 mid Ho1 Ho2).
    + rewrite forallb_forall in Hb1 |- *. intros e Hin.
      specialize (Hb1 e Hin). unfold between in Hb1.
      apply andb_true_iff in Hb1. exact (proj2 Hb1).
    + rewrite forallb_forall in Hb2 |- *. intros e Hin.
      specialize (Hb2 e Hin). unfold between in Hb2.
      apply andb_true_iff in Hb2. exact (proj1 Hb2).
  - rewrite forallb_app. apply andb_true_iff. split.
    + apply (@between_weaken lo mid lo hi); auto using Nat.leb_refl.
    + apply (@between_weaken mid hi lo hi); auto using Nat.leb_refl.
Qed.

Lemma within_silent lo hi {A} (m : M nv A) :
  (forall w, events (m w) = []) -> within lo hi m.
Proof. intros H w. rewrite H. split; reflexivity. Qed.

Lemma within_ret lo hi {A} (a : A) : within lo hi (@ret nv A a).
Proof. apply within_silent. reflexivity. Qed.

Lemma within_stop lo hi {A} msg : within lo hi (@stop nv A msg).
Proof. apply within_silent. reflexivity. Qed.

Lemma within_undefined lo hi {A} why : within lo hi (@undefined nv A why).
Proof. apply within_silent. reflexivity. Qed.

Lemma within_throw lo hi {A} e : within lo hi (@throw nv A e).
Proof. apply within_silent. reflexivity. Qed.

Lemma within_emit e : within (step_of e) (step_of e) (@emit nv e).
Proof.
  intros w. cbn. unfold between. rewrite Nat.leb_refl. split; reflexivity.
Qed.

Lemma within_native {T} (c : NvCall T) : within 2 2 (native NV c).
Proof.
  intros w. unfold native. destruct (nv_exec NV c (nv_state w)) as [r st].
  split; reflexivity.
Qed.

Lemma within_bind lo mid hi {A B} (m : M nv A) (f : A -> M nv B) :
  Nat.leb lo mid = true -> Nat.leb mid hi = true ->
  within lo mid m -> (forall a, within mid hi (f a)) ->
  within lo hi (bind m f).
Proof.
  intros Hlo Hhi Hm Hf w. rewrite events_bind. pose proof (Hm w) as H1.
  destruct (outcome (m w)) as [a | msg | e | why].
  - exact (@within_sequence lo mid hi _ _ H1 (Hf a (world (m w))) Hlo Hhi).
  - destruct H1 as [Ho Hb]. split; [exact Ho | ].
    apply (@between_weaken lo mid lo hi); auto using Nat.leb_refl.
  - destruct H1 as [Ho Hb]. split; [exact Ho | ].
    apply (@between_weaken lo mid lo hi); auto using Nat.leb_refl.
  - destruct H1 as [Ho Hb]. split; [exact Ho | ].
    apply (@between_weaken lo mid lo hi); auto using Nat.leb_refl.
Qed.

Lemma within_try_catch_stop k {A} (body : M nv A) (report : string -> string) :
  within k k body ->
  within k k (try_catch_std body (fun what => stop (report what))).
Proof.
  intros Hb w. unfold try_catch_std. pose proof (Hb w) as H.
  destruct (body w) as [o w1 ev1]. cbn [events] in H.
  destruct o as [a | msg | [what | ] | why]; cbn; rewrite ?app_nil_r; exact H.
Qed.

Lemma within_convert {A} (conv : SEXP -> rcpp_result A) arg s :
  within 1 1 (@convert nv A conv arg s).
Proof.
  unfold convert. apply (within_bind (mid := 1)); try reflexivity.
  - exact (within_emit (EvConvert arg s)).
  - intros _. destruct (conv s); [apply within_ret | apply within_throw].
Qed.

Lemma within_as_string s name : within 1 1 (@as_string nv R s name).
Proof. apply within_try_catch_stop. apply within_convert. Qed.

Lemma within_as_string_vec s name : within 1 1 (@as_string_vec nv R s name).
Proof. apply within_try_catch_stop. apply within_convert. Qed.

Lemma within_as_bool s name : within 1 1 (@as_bool nv R s name).
Proof. apply within_try_catch_stop. apply within_convert. Qed.

Lemma within_as_scalar {T} (conv : SEXP -> rcpp_result T) s name :
  within 1 1 (@as_scalar nv T conv s name).
Proof. apply within_try_catch_stop. apply within_convert. Qed.

Lemma within_for_each_silent k {A B} (f : A -> M nv B) l :
  (forall a w, events (f a w) = []) -> within k k (for_each f l).
Proof.
  intros Hf. induction l as [ | x rest IH]; cbn [for_each].
  - apply within_ret.
  - apply (within_bind (mid := k)); try apply Nat.leb_refl.
    + apply within_silent. apply Hf.
    + intros y. apply (within_bind (mid := k)); try apply Nat.leb_refl.
      * exact IH.
      * intros ys. apply within_ret.
Qed.

Lemma static_cast_int64_silent v (w : World nv) :
  events (static_cast_int64 v w) = [].
Proof.
  unfold static_cast_int64. destruct (truncate v) as [z | ]; [ | reflexivity].
  destruct ((int64_min <=? z) && (z <=? int64_max)); reflexivity.
Qed.

Lemma within_as_int64_vec s name : within 1 1 (@as_int64_vec nv R s name).
Proof.
  apply within_try_catch_stop.
  apply (within_bind (mid := 1)); try reflexivity.
  - apply within_convert.
  - intros dbl. apply within_for_each_silent. exact static_cast_int64_silent.
Qed.

Lemma within_as_float64_vec s name : within 1 1 (@as_float64_vec nv R s name).
Proof.
  apply within_try_catch_stop.
  apply (within_bind (mid := 1)); try reflexivity.
  - apply within_convert.
  - intros dbl. apply within_for_each_silent. reflexivity.
Qed.

Lemma within_args2 {A B} (a : M nv A) (b : M nv B) :
  within 1 1 a -> within 1 1 b -> within 1 1 (args2 order a b).
Proof.
  intros Ha Hb. unfold args2.
  destruct order;
    (apply (within_bind (mid := 1)); [reflexivity | reflexivity | assumption | intro];
     apply (within_bind (mid := 1)); [reflexivity | reflexivity | assumption | intro];
     apply within_ret).
Qed.

Lemma within_unwrap_ptr obj cls : within 0 0 (@unwrap_ptr nv obj cls).
Proof.
  unfold unwrap_ptr. apply (within_bind (mid := 0)); try reflexivity.
  - exact (within_emit (EvUnwrap cls obj)).
  - intros _. destruct (negb (SEXPTYPE_eqb (TYPEOF obj) EXTPTRSXP));
      [apply within_stop | ].
    destruct (Rf_getAttrib_class obj) as [ | | | | elts | | | | | | ];
      try apply within_stop.
    destruct elts as [ | t rest]; [apply within_undefined | ].
    destruct (negb (String.eqb t cls)); [apply within_stop | ].
    apply (within_bind (mid := 0)); try reflexivity.
    + exact (within_emit (EvCast cls (R_ExternalPtrAddr obj))).
    + intros _. destruct (N.eqb (R_ExternalPtrAddr obj) nullptr);
        [apply within_stop | apply within_ret].
Qed.

Lemma within_wrap_ptr ptr cls : within 3 3 (@wrap_ptr nv ptr cls).
Proof.
  unfold wrap_ptr, XPtr_new.
  apply (within_bind (mid := 3)); try reflexivity.
  - apply (within_bind (mid := 3)); try reflexivity.
    + exact (within_emit (EvXPtr ptr false)).
    + intros _. apply within_ret.
  - intros xp. apply within_ret.
Qed.

Lemma within_axis_values_loop k named_vals names out :
  within k k (@axis_values_loop nv R named_vals names out).
Proof.
  apply within_silent. intros w. revert out.
  induction names as [ | name rest IH]; intros out; cbn [axis_values_loop];
    [reflexivity | ].
  destruct (has_value named_vals name); [ | apply IH].
  destruct (get_value named_vals name); [apply IH | reflexivity].
Qed.

(** One step of the proof that a routine keeps the order: a sequence is
    split at the step of its first part. *)
Ltac within_leaf :=
  first
    [ apply within_ret | apply within_stop | apply within_undefined
    | eapply within_weaken; [apply within_unwrap_ptr | reflexivity | reflexivity]
    | eapply within_weaken; [apply within_as_string | reflexivity | reflexivity]
    | eapply within_weaken; [apply within_as_string_vec | reflexivity | reflexivity]
    | eapply within_weaken; [apply within_as_bool | reflexivity | reflexivity]
    | eapply within_weaken; [apply within_as_scalar | reflexivity | reflexivity]
    | eapply within_weaken; [apply within_as_int64_vec | reflexivity | reflexivity]
    | eapply within_weaken; [apply within_as_float64_vec | reflexivity | reflexivity]
    | eapply within_weaken; [apply within_native | reflexivity | reflexivity]
    | eapply within_weaken; [apply within_wrap_ptr | reflexivity | reflexivity]
    | eapply within_weaken;
      [apply (within_axis_values_loop 2) | reflexivity | reflexivity] ].

Ltac within_step :=
  match goal with
  | |- within _ _ (bind (unwrap_ptr _ _) _) =>
      apply (within_bind (mid := 0)); [reflexivity | reflexivity | | intro]
  | |- within _ _ (bind (native _ _) _) =>
      apply (within_bind (mid := 2)); [reflexivity | reflexivity | | intro]
  | |- within _ _ (bind (axis_values_loop _ _ _ _) _) =>
      apply (within_bind (mid := 2)); [reflexivity | reflexivity | | intro]
  | |- within _ _ (bind (args2 _ _ _) _) =>
      apply (within_bind (mid := 1));
      [reflexivity | reflexivity
       | eapply within_weaken; [apply within_args2 | reflexivity | reflexivity]
       | intro]
  | |- within _ _ (bind (if _ then _ else _) _) =>
      apply (within_bind (mid := 2)); [reflexivity | reflexivity | | intro]
  | |- within _ _ (bind _ _) =>
      apply (within_bind (mid := 1)); [reflexivity | reflexivity | | intro]
  | |- within _ _ (match ?x with _ => _ end) => destruct x
  | |- within _ _ _ => within_leaf
  end.

(** Every routine with a handle keeps the order unwrap, conversions, library,
    wrapping; nvbenchr_state_add_summary is the exception. *)
Lemma dispatch_in_order c h cls (w : World nv) :
  handle_of c = Some (h, cls) ->
  converts_value_late c = false ->
  in_order (events (dispatch R NV order c w)) = true.
Proof.
  intros Hh Hlate.
  assert (H : within 0 3 (dispatch R NV order c)).
  { destruct c; try discriminate Hh; try discriminate Hlate;
      cbn [dispatch]; autounfold with binding; repeat within_step. }
  exact (proj1 (H w)).
Qed.

(** ** Handle checks *)

(** C4. Every routine that takes a handle checks the handle's class tag
    against the tag it is declared for, one of nvbench_benchmark,
    nvbench_state, nvbench_launch and nvbench_stream: a value that is not an
    external pointer, or has no class attribute, or carries another tag, is
    refused with an R error before the stored address is cast, and nothing
    is called in the library. *)
Theorem handle_class_checked_before_cast c h cls (w : World nv) :
  handle_of c = Some (h, cls) ->
  wrong_handle cls h = true ->
  In cls handle_classes /\
  (exists msg, outcome (dispatch R NV order c w) = RStop msg) /\
  existsb is_cast (events (dispatch R NV order c w)) = false /\
  existsb is_native (events (dispatch R NV order c w)) = false /\
  world (dispatch R NV order c w) = w.
Proof.
  intros Hh Hwrong. split; [exact (handle_of_class c Hh) | ].
  destruct (launcher_ok c) eqn:Hl.
  - destruct (dispatch_unwraps_first c Hh Hl) as [f Hf]. rewrite Hf.
    destruct (unwrap_ptr_wrong h cls w Hwrong) as [msg Hu].
    unfold bind. rewrite Hu. cbn. eauto.
  - destruct c; cbn in Hl; try discriminate.
    cbn [dispatch]. unfold nvbenchr_state_exec. rewrite Hl. cbn. eauto.
Qed.

(** A handle made by wrap_ptr for one class unwraps as that class and as no
    other. *)
Lemma wrapped_handle_unwraps_as_its_class ptr cls cls' (w : World nv) :
  ptr <> nullptr ->
  let h := ExtPtr ptr false (Str [cls]) in
  outcome (wrap_ptr ptr cls w) = Ret h /\
  (cls' = cls -> outcome (unwrap_ptr h cls' w) = Ret ptr) /\
  (cls' <> cls -> exists msg, outcome (unwrap_ptr h cls' w) = RStop msg).
Proof.
  intros Hp h. split; [reflexivity | split].
  - intros ->. unfold h. rewrite unwrap_ptr_ok by exact Hp. reflexivity.
  - intros Hne.
    destruct (unwrap_ptr_wrong h cls' w) as [msg Hu].
    + cbn. destruct (String.eqb_spec cls cls'); [congruence | reflexivity].
    + exists msg. rewrite Hu. reflexivity.
Qed.

(** C2, as the code has it. A routine that takes a handle and value
    arguments unwraps the handle first and converts the value arguments
    after that: the first thing it does is the unwrap; unless the unwrap
    returns, no value argument is converted; a wrong handle is reported
    without any value argument being looked at; and the steps come in the
    order unwrap, conversions, call into the library, wrapping of the result.
    (nvbenchr_state_exec first checks that its launcher is a function, and
    nvbenchr_state_add_summary converts a string value after it has created
    the summary.) *)
Theorem handle_unwrapped_before_validation c h cls (w : World nv) :
  handle_of c = Some (h, cls) ->
  has_value_args c = true ->
  launcher_ok c = true ->
  (exists rest, events (dispatch R NV order c w) = EvUnwrap cls h :: rest) /\
  ((forall a, outcome (unwrap_ptr h cls w) <> Ret a) ->
   existsb is_convert (events (dispatch R NV order c w)) = false) /\
  (wrong_handle cls h = true ->
   (exists msg, outcome (dispatch R NV order c w) = RStop msg) /\
   events (dispatch R NV order c w) = [EvUnwrap cls h]) /\
  (converts_value_late c = false ->
   in_order (events (dispatch R NV order c w)) = true).
Proof.
  intros Hh _ Hl.
  split; [ | split; [ | split]];
    try (intros Hlate; exact (dispatch_in_order c w Hh Hlate));
    destruct (dispatch_unwraps_first c Hh Hl) as [f Hf]; rewrite Hf.
  - destruct (unwrap_ptr_events h cls w) as [rest Hr].
    exact (bind_events_head _ f w Hr).
  - intros Hfail. rewrite events_bind.
    destruct (outcome (unwrap_ptr h cls w)) as [a | msg | e | why] eqn:Ho;
      try apply unwrap_ptr_no_convert.
    exfalso. exact (Hfail a eq_refl).
  - intros Hwrong. destruct (unwrap_ptr_wrong h cls w Hwrong) as [msg Hu].
    unfold bind. rewrite Hu. cbn. eauto.
Qed.

(** nvbenchr_state_exec refuses a launcher that is not a function before it
    touches the handle. *)
Lemma state_exec_checks_launcher_first state launcher_fn batched sync
  (w : World nv) :
  Rf_isFunction launcher_fn = false ->
  nvbenchr_state_exec R NV state launcher_fn batched sync w =
  {| outcome := RStop "exec expects a function"; world := w; events := [] |}.
Proof. intros H. unfold nvbenchr_state_exec. rewrite H. reflexivity. Qed.

(** ** Handles do not own *)

Lemma harmless_events evs :
  forallb harmless evs = true ->
  existsb is_owning_xptr evs = false /\ existsb is_delete evs = false.
Proof.
  induction evs as [ | e evs IH]; cbn; [auto | ].
  unfold harmless at 1. intros H.
  apply andb_true_iff in H. destruct H as [He Hevs].
  apply andb_true_iff in He. destruct He as [H1 H2].
  apply negb_true_iff in H1. apply negb_true_iff in H2.
  destruct (IH Hevs) as [IH1 IH2]. rewrite H1, H2, IH1, IH2. auto.
Qed.

Lemma harmless_binding e :
  is_owning_xptr e = false -> is_delete e = false -> harmless e = true.
Proof. intros H1 H2. unfold harmless. rewrite H1, H2. reflexivity. Qed.

Lemma respects_harmless {A} (m : M nv A) (w : World nv) :
  respects (fun _ => True) harmless m ->
  existsb is_owning_xptr (events (m w)) = false /\
  existsb is_delete (events (m w)) = false.
Proof. intros H. apply harmless_events. apply (H w). exact Logic.I. Qed.

Lemma outcome_bind_ret {A B} (m : M nv A) (f : A -> M nv B) w b :
  outcome (bind m f w) = Ret b ->
  exists a, outcome (m w) = Ret a /\ outcome (f a (world (m w))) = Ret b.
Proof.
  rewrite outcome_bind. destruct (outcome (m w)); try discriminate. eauto.
Qed.

Lemma wrap_ptr_handle ptr cls (w : World nv) h :
  outcome (wrap_ptr ptr cls w) = Ret h -> h = ExtPtr ptr false (Str [cls]).
Proof. cbn. intros H. inversion H. reflexivity. Qed.

Lemma created_handle_shape c (w : World nv) h :
  creates_handle c = true ->
  outcome (dispatch R NV order c w) = Ret h ->
  exists a cls, h = ExtPtr a false (Str [cls]) /\ In cls handle_classes.
Proof.
  intros Hc Ho. destruct c; try discriminate Hc; cbn [dispatch] in Ho;
    autounfold with binding in Ho.
  - apply outcome_bind_ret in Ho. destruct Ho as [reg [_ Ho]].
    destruct reg; [ | discriminate Ho].
    apply outcome_bind_ret in Ho. destruct Ho as [n [_ Ho]].
    apply outcome_bind_ret in Ho. destruct Ho as [b [_ Ho]].
    apply wrap_ptr_handle in Ho. subst h. do 2 eexists. split; [reflexivity | ].
    cbn; auto.
  - apply outcome_bind_ret in Ho. destruct Ho as [s [_ Ho]].
    apply outcome_bind_ret in Ho. destruct Ho as [b [_ Ho]].
    apply wrap_ptr_handle in Ho. subst h. do 2 eexists. split; [reflexivity | ].
    cbn; auto.
  - apply outcome_bind_ret in Ho. destruct Ho as [s [_ Ho]].
    apply outcome_bind_ret in Ho. destruct Ho as [b [_ Ho]].
    apply wrap_ptr_handle in Ho. subst h. do 2 eexists. split; [reflexivity | ].
    cbn; auto.
  - apply outcome_bind_ret in Ho. destruct Ho as [s [_ Ho]].
    apply outcome_bind_ret in Ho. destruct Ho as [b [_ Ho]].
    apply wrap_ptr_handle in Ho. subst h. do 2 eexists. split; [reflexivity | ].
    cbn; auto.
Qed.

(** C7. Every handle the binding makes is a non-owning reference: in every
    routine of the table, and in the callbacks the engine runs (a registered
    benchmark, a launcher), every external pointer is constructed with the
    delete-finalizer off and nothing is deleted; a handle given to R has no
    finalizer, so collecting it deletes nothing. *)
Theorem handles_are_non_owning (w : World nv) :
  (forall c,
     existsb is_owning_xptr (events (dispatch R NV order c w)) = false /\
     existsb is_delete (events (dispatch R NV order c w)) = false) /\
  (forall fn state,
     existsb is_owning_xptr (events (r_function_holder_call R fn state w)) = false /\
     existsb is_delete (events (r_function_holder_call R fn state w)) = false) /\
  (forall launcher launch,
     existsb is_owning_xptr (events (cpp_launcher R launcher launch w)) = false /\
     existsb is_delete (events (cpp_launcher R launcher launch w)) = false) /\
  (forall ptr cls,
     outcome (wrap_ptr ptr cls w) = Ret (ExtPtr ptr false (Str [cls])) /\
     finalize (ExtPtr ptr false (Str [cls])) = []) /\
  (forall c h,
     creates_handle c = true -> outcome (dispatch R NV order c w) = Ret h ->
     finalize h = []).
Proof.
  repeat split.
  - apply respects_harmless. apply respects_dispatch; auto using harmless_binding.
  - apply respects_harmless. apply respects_dispatch; auto using harmless_binding.
  - apply respects_harmless.
    apply respects_r_function_holder_call; auto using harmless_binding.
  - apply respects_harmless.
    apply respects_r_function_holder_call; auto using harmless_binding.
  - apply respects_harmless.
    apply respects_cpp_launcher; auto using harmless_binding.
  - apply respects_harmless.
    apply respects_cpp_launcher; auto using harmless_binding.
  - intros c h Hc Ho.
    destruct (created_handle_shape c w Hc Ho) as [a [cls [-> _]]]. reflexivity.
Qed.

(** An owning external pointer would delete its object when collected. *)
Lemma owning_pointer_would_delete a cls :
  finalize (ExtPtr a true cls) = [EvDelete a].
Proof. reflexivity. Qed.

(** ** The registry is finalized for good *)

Lemma finalized_native (w : World nv) (st : nv) :
  finalized w ->
  finalized {| global_registry := global_registry w; nv_state := st |}.
Proof. intros H. exact H. Qed.

Lemma finalized_finalize (w : World nv) :
  finalized w ->
  finalized {| global_registry := Some {| m_finalized := true |};
               nv_state := nv_state w |}.
Proof. intros _. reflexivity. Qed.

Lemma finalized_dispatch c w :
  finalized w -> finalized (world (dispatch R NV order c w)).
Proof.
  intros H.
  exact (proj1 (@respects_dispatch (@finalized nv) (fun _ => true)
                  finalized_native finalized_finalize
                  (fun _ _ _ => eq_refl) c w H)).
Qed.

Lemma finalized_run_calls cs w :
  finalized w -> finalized (run_calls R NV order cs w).
Proof.
  revert w. induction cs as [ | c cs IH]; intros w H; cbn [run_calls fold_left].
  - exact H.
  - apply IH. apply finalized_dispatch. exact H.
Qed.

Lemma returns_or_throws_native {T} (c : NvCall T) :
  returns_or_throws (native NV c).
Proof.
  intros w. unfold native.
  destruct (nv_exec NV c (nv_state w)) as [[a | e] st]; cbn; eauto.
Qed.

Lemma returns_or_throws_bind {A B} (m : M nv A) (f : A -> M nv B) :
  returns_or_throws m -> (forall a, returns_or_throws (f a)) ->
  returns_or_throws (bind m f).
Proof.
  intros Hm Hf w. rewrite outcome_bind.
  destruct (Hm w) as [[a Ha] | [e He]].
  - rewrite Ha. apply Hf.
  - rewrite He. eauto.
Qed.

(** GlobalBenchmarkRegistry::run on a registry that has benchmarks leaves
    it finalized, however the library's run ends, and ends in a return or in
    an R error. *)
Lemma run_finalizes args (w : World nv) r :
  global_registry w = Some r ->
  nv_benchmarks_empty NV (nv_state w) = false ->
  finalized (world (run NV args w)) /\
  (outcome (run NV args w) = Ret tt \/
   exists msg, outcome (run NV args w) = RStop msg).
Proof.
  intros Hreg Hempty. unfold run.
  rewrite world_bind, outcome_bind. cbn [benchmarks_empty outcome world].
  rewrite Hempty. cbv beta iota.
  rewrite world_bind, outcome_bind.
  assert (Hfin : this_m_finalized w =
                 {| outcome := Ret (m_finalized r); world := w; events := [] |}).
  { unfold this_m_finalized, bind, get_registry. rewrite Hreg. reflexivity. }
  rewrite Hfin. cbn [outcome world].
  destruct r as [[ | ]]; cbn [m_finalized stop world outcome].
  - split; [exact Hreg | eauto].
  - rewrite world_bind, outcome_bind.
    assert (Hset : set_m_finalized true w =
                   {| outcome := Ret tt;
                      world := {| global_registry := Some {| m_finalized := true |};
                                  nv_state := nv_state w |};
                      events := [] |}).
    { unfold set_m_finalized, bind, get_registry, set_registry.
      rewrite Hreg. reflexivity. }
    rewrite Hset. cbn [outcome world].
    set (w' := {| global_registry := Some {| m_finalized := true |};
                  nv_state := nv_state w |}).
    set (body := bind (native NV Mgr_initialize) _).
    assert (Hbody : respects (@finalized nv) (fun _ => true) body).
    { unfold body.
      repeat (apply respects_bind;
              [apply respects_native;
               [exact finalized_native | reflexivity] | intros _]).
      apply respects_native; [exact finalized_native | reflexivity]. }
    assert (Hw' : finalized w') by reflexivity.
    destruct (Hbody w' Hw') as [Hwb _].
    assert (Hob : (exists a, outcome (body w') = Ret a) \/
                  exists e, outcome (body w') = Throw e).
    { unfold body.
      repeat (apply returns_or_throws_bind;
              [apply returns_or_throws_native | intros _]).
      apply returns_or_throws_native. }
    unfold try_catch_all.
    destruct (body w') as [o w1 ev1]. cbn [outcome world] in Hwb, Hob.
    destruct Hob as [[[] Ho] | [e Ho]]; subst o.
    + cbn. auto.
    + destruct e; cbn; split; eauto.
Qed.

(** On a finalized registry nvbenchr_run_all_benchmarks raises an error,
    calls nothing in the library and changes nothing. *)
Lemma run_all_rejected_when_finalized argv w :
  finalized w ->
  exists msg evs,
    nvbenchr_run_all_benchmarks R NV argv w =
    {| outcome := RStop msg; world := w; events := evs |} /\
    existsb is_native evs = false.
Proof.
  intros Hfin. unfold finalized in Hfin.
  unfold nvbenchr_run_all_benchmarks, bind at 1, get_registry.
  rewrite Hfin.
  destruct (Rcpp_as_strings R argv) as [args | what] eqn:Hargv.
  - unfold bind at 1. rewrite (as_string_vec_ok _ "argv" w Hargv).
    unfold run, this_m_finalized, bind, benchmarks_empty, get_registry.
    destruct (nv_benchmarks_empty NV (nv_state w)); cbn.
    + do 2 eexists. split; reflexivity.
    + rewrite Hfin. cbn. do 2 eexists. split; reflexivity.
  - unfold bind at 1. rewrite (as_string_vec_fail _ "argv" w Hargv).
    cbn. do 2 eexists. split; reflexivity.
Qed.

(** On a finalized registry nvbenchr_register raises an error, calls nothing
    in the library and changes nothing. *)
Lemma register_rejected_when_finalized fn name w :
  finalized w ->
  exists msg evs,
    nvbenchr_register R NV fn name w =
    {| outcome := RStop msg; world := w; events := evs |} /\
    existsb is_native evs = false.
Proof.
  intros Hfin. unfold finalized in Hfin.
  unfold nvbenchr_register, bind at 1, get_registry.
  rewrite Hfin.
  destruct (Rcpp_as_string R name) as [n | what] eqn:Hname.
  - unfold bind at 1. rewrite (as_string_ok _ "name" w Hname).
    unfold add_bench, this_m_finalized, bind, get_registry.
    rewrite Hfin. cbn. do 2 eexists. split; reflexivity.
  - unfold bind at 1. rewrite (as_string_fail _ "name" w Hname).
    cbn. do 2 eexists. split; reflexivity.
Qed.

Lemma run_all_reaches_run argv args (w : World nv) r :
  global_registry w = Some r ->
  Rcpp_as_strings R argv = AsOk args ->
  nvbenchr_run_all_benchmarks R NV argv w =
  let (o, w1, ev1) := run NV args w in
  {| outcome := match o with
                | Ret _ => Ret R_NilValue
                | RStop msg => RStop msg
                | Throw e => Throw e
                | Undefined why => Undefined why
                end;
     world := w1;
     events := EvConvert "argv" argv :: ev1 |}.
Proof.
  intros Hreg Hargv.
  unfold nvbenchr_run_all_benchmarks, bind at 1, get_registry.
  rewrite Hreg. unfold bind at 1.
  rewrite (as_string_vec_ok _ "argv" w Hargv).
  unfold bind. destruct (run NV args w) as [[[] | msg | e | why] w1 ev1];
    cbn; rewrite ?app_nil_r; reflexivity.
Qed.

Lemma mgr_add_is_native evs :
  existsb is_native evs = false -> existsb is_mgr_add evs = false.
Proof.
  induction evs as [ | e evs IH]; cbn; [auto | ].
  intros H. apply orb_false_iff in H. destruct H as [He Hevs].
  rewrite (IH Hevs). destruct e; try reflexivity. discriminate He.
Qed.

(** C3. The registry is used at most once: once a call of
    nvbenchr_run_all_benchmarks has found the registry initialised, its
    arguments well-formed and benchmarks registered, the registry is
    finalized whether the run of the library returned or threw, and after
    any further calls every call of nvbenchr_run_all_benchmarks ends in an R
    error, calls nothing in the library and changes nothing. *)
Theorem registry_runs_at_most_once argv args cs argv' (w : World nv) r :
  global_registry w = Some r ->
  Rcpp_as_strings R argv = AsOk args ->
  nv_benchmarks_empty NV (nv_state w) = false ->
  let w1 := world (nvbenchr_run_all_benchmarks R NV argv w) in
  let w2 := run_calls R NV order cs w1 in
  let again := nvbenchr_run_all_benchmarks R NV argv' w2 in
  finalized w1 /\
  (exists msg, outcome again = RStop msg) /\
  existsb is_native (events again) = false /\
  world again = w2.
Proof.
  intros Hreg Hargv Hempty w1 w2 again.
  assert (H1 : finalized w1).
  { unfold w1. rewrite (run_all_reaches_run argv w Hreg Hargv).
    pose proof (proj1 (run_finalizes args w Hreg Hempty)) as Hf.
    destruct (run NV args w). exact Hf. }
  assert (H2 : finalized w2) by (apply finalized_run_calls; exact H1).
  destruct (run_all_rejected_when_finalized argv' H2) as [msg [evs [Hr Hn]]].
  unfold again. rewrite Hr. cbn. eauto.
Qed.

(** C5. Once the registry is finalized it stays finalized under every
    routine of the table, and every later call of nvbenchr_register ends in
    an R error, adds no benchmark to the library's manager and changes
    nothing. *)
Theorem register_rejected_after_run cs fn name (w : World nv) :
  finalized w ->
  let w' := run_calls R NV order cs w in
  let r := nvbenchr_register R NV fn name w' in
  finalized w' /\
  (forall c, finalized (step R NV order w' c)) /\
  (exists msg, outcome r = RStop msg) /\
  existsb is_mgr_add (events r) = false /\
  world r = w'.
Proof.
  intros Hfin w' r.
  assert (H' : finalized w') by (apply finalized_run_calls; exact Hfin).
  destruct (register_rejected_when_finalized fn name H') as [msg [evs [Hr Hn]]].
  unfold r. rewrite Hr. cbn.
  repeat split; eauto using mgr_add_is_native.
  intros c. apply finalized_dispatch. exact H'.
Qed.

(** GlobalBenchmarkRegistry::run without benchmarks. *)
Lemma run_without_benchmarks args (w : World nv) :
  nv_benchmarks_empty NV (nv_state w) = true ->
  run NV args w =
  {| outcome := RStop "No benchmarks registered"; world := w; events := [] |}.
Proof.
  intros H. unfold run, bind at 1, benchmarks_empty. rewrite H. reflexivity.
Qed.

(** C6. nvbenchr_run_all_benchmarks with no benchmark registered raises the
    error "No benchmarks registered", calls nothing in the library and
    leaves the registry as it was: it is not finalized by the call. *)
Theorem run_all_without_benchmarks argv args (w : World nv) r :
  global_registry w = Some r ->
  Rcpp_as_strings R argv = AsOk args ->
  nv_benchmarks_empty NV (nv_state w) = true ->
  let res := nvbenchr_run_all_benchmarks R NV argv w in
  outcome res = RStop "No benchmarks registered" /\
  world res = w /\
  global_registry (world res) = Some r /\
  existsb is_native (events res) = false.
Proof.
  intros Hreg Hargv Hempty res. unfold res.
  rewrite (run_all_reaches_run argv w Hreg Hargv).
  rewrite (run_without_benchmarks args w Hempty). cbn. auto.
Qed.

(** ** Registration *)

Lemma add_bench_ok fn n set_to b st1 b' st2 (w : World nv) :
  global_registry w = Some {| m_finalized := false |} ->
  Rf_isFunction fn = true ->
  (n = "" -> set_to = "benchmark") ->
  (n <> "" -> set_to = n) ->
  nv_exec NV (Mgr_add fn) (nv_state w) = (ERet b, st1) ->
  nv_exec NV (Bench_set_name b set_to) st1 = (ERet b', st2) ->
  add_bench NV fn n w =
  {| outcome := Ret b';
     world := {| global_registry := global_registry w; nv_state := st2 |};
     events := [EvPreserve fn; EvNative (Mgr_add fn);
                EvNative (Bench_set_name b set_to); EvRelease fn] |}.
Proof.
  intros Hreg Hfn Hempty Hgiven Hadd Hset.
  assert (Hname : (if String.eqb n "" then "benchmark" else n) = set_to).
  { destruct (String.eqb_spec n ""); symmetry; auto. }
  unfold add_bench. rewrite Hname.
  unfold this_m_finalized, at_scope_exit, bind, get_registry, emit, native.
  rewrite Hreg. cbn. rewrite Hfn. cbn. rewrite Hadd. cbn. rewrite Hset.
  cbn. rewrite ?Hreg. reflexivity.
Qed.

(** C9. nvbenchr_register adds the benchmark to the manager and names it:
    "benchmark" when the given name is the empty string, the given name
    otherwise; the handle it returns refers to that benchmark and carries
    the class nvbench_benchmark. *)
Theorem register_names_benchmark fn name n set_to b st1 b' st2 (w : World nv) :
  global_registry w = Some {| m_finalized := false |} ->
  Rcpp_as_string R name = AsOk n ->
  Rf_isFunction fn = true ->
  (n = "" -> set_to = "benchmark") ->
  (n <> "" -> set_to = n) ->
  nv_exec NV (Mgr_add fn) (nv_state w) = (ERet b, st1) ->
  nv_exec NV (Bench_set_name b set_to) st1 = (ERet b', st2) ->
  nvbenchr_register R NV fn name w =
  {| outcome := Ret (ExtPtr b' false (Str ["nvbench_benchmark"]));
     world := {| global_registry := global_registry w; nv_state := st2 |};
     events := [EvConvert "name" name; EvPreserve fn; EvNative (Mgr_add fn);
                EvNative (Bench_set_name b set_to); EvRelease fn;
                EvXPtr b' false] |}.
Proof.
  intros Hreg Hname Hfn Hempty Hgiven Hadd Hset.
  unfold nvbenchr_register, bind at 1, get_registry.
  rewrite Hreg. unfold bind at 1. rewrite (as_string_ok _ "name" w Hname).
  unfold bind at 1.
  rewrite (add_bench_ok fn w Hreg Hfn Hempty Hgiven Hadd Hset).
  cbn. rewrite Hreg. reflexivity.
Qed.

(** ** Summaries *)

(** C10. nvbenchr_state_add_summary with tag name N registers the summary
    under "nv/r/" ++ N, sets its description to "User tag: " ++ N and its
    name to N, and then stores the value by its R type: an integer through
    set_int64, a real through set_float64, a string through set_string; any
    other type raises "Unsupported value type for add_summary". *)
Theorem add_summary_by_value_type a f rest name value N summ st1 st2 st3
  (w : World nv) :
  a <> nullptr ->
  Rcpp_as_string R name = AsOk N ->
  nv_exec NV (State_add_summary a ("nv/r/" ++ N)) (nv_state w) = (ERet summ, st1) ->
  nv_exec NV (Summary_set_string summ "description" ("User tag: " ++ N)) st1
  = (ERet tt, st2) ->
  nv_exec NV (Summary_set_string summ "name" N) st2 = (ERet tt, st3) ->
  let state := ExtPtr a f (Str ("nvbench_state" :: rest)) in
  let r := nvbenchr_state_add_summary R NV state name value w in
  let prefix := summary_prefix state name a N summ in
  let stored st4 evs :=
    r = {| outcome := Ret R_NilValue;
           world := {| global_registry := global_registry w; nv_state := st4 |};
           events := prefix ++ evs |} in
  match TYPEOF value with
  | INTSXP =>
      forall i l st4, value = Int (i :: l) ->
        nv_exec NV (Summary_set_int64 summ "value" i) st3 = (ERet tt, st4) ->
        stored st4 [EvNative (Summary_set_int64 summ "value" i)]
  | REALSXP =>
      forall d l st4, value = Real (d :: l) ->
        nv_exec NV (Summary_set_float64 summ "value" d) st3 = (ERet tt, st4) ->
        stored st4 [EvNative (Summary_set_float64 summ "value" d)]
  | STRSXP =>
      forall v st4, Rcpp_as_string R value = AsOk v ->
        nv_exec NV (Summary_set_string summ "value" v) st3 = (ERet tt, st4) ->
        stored st4 [EvConvert "value" value;
                    EvNative (Summary_set_string summ "value" v)]
  | _ =>
      r = {| outcome := RStop "Unsupported value type for add_summary";
             world := {| global_registry := global_registry w; nv_state := st3 |};
             events := prefix |}
  end%list.
Proof.
  intros Ha Hname Hadd Hdesc Hnm state r prefix stored.
  assert (Hnm' := native_ret _
            {| global_registry := global_registry w; nv_state := st2 |} Hnm).
  assert (Hdesc' := native_ret _
            {| global_registry := global_registry w; nv_state := st1 |} Hdesc).
  cbn [global_registry nv_state] in Hnm', Hdesc'.
  assert (Hst3 : forall T (c : NvCall T) x st4,
            nv_exec NV c st3 = (ERet x, st4) ->
            native NV c {| global_registry := global_registry w; nv_state := st3 |} =
            {| outcome := Ret x;
               world := {| global_registry := global_registry w; nv_state := st4 |};
               events := [EvNative c] |}).
  { intros T c x st4 H.
    exact (native_ret c {| global_registry := global_registry w; nv_state := st3 |} H). }
  destruct value as [ | v | v | v | v | v nm | id | id | id | id | a' f' c'];
    cbn [TYPEOF]; unfold stored; intros;
    unfold r, nvbenchr_state_add_summary, state_from_xptr, state;
    (unfold bind at 1; rewrite (unwrap_ptr_ok f "nvbench_state" rest w Ha));
    (unfold bind at 1; rewrite (as_string_ok _ "name" w Hname));
    (unfold bind at 1; rewrite (native_ret _ w Hadd));
    (unfold bind at 1; rewrite Hdesc');
    (unfold bind at 1; rewrite Hnm');
    cbn [TYPEOF]; try reflexivity.
  - match goal with H : Int _ = Int _ |- _ => inversion H; subst end.
    cbn [INTEGER]. unfold bind.
    erewrite Hst3 by eassumption. reflexivity.
  - match goal with H : Real _ = Real _ |- _ => inversion H; subst end.
    cbn [REAL]. unfold bind.
    erewrite Hst3 by eassumption. reflexivity.
  - unfold bind.
    erewrite as_string_ok by eassumption.
    erewrite Hst3 by eassumption. reflexivity.
Qed.

(** ** Conversion of numeric vectors *)

(** The cast computes the truncation toward zero. *)
Lemma truncate_truncation_of v z :
  truncation_of v z -> truncate v = Some z.
Proof.
  unfold truncation_of, truncate.
  destruct (Prim2SF v) as [s | s | | sign m e]; try contradiction.
  - intros ->. reflexivity.
  - intros [Hsign [Hlo Hhi]]. f_equal.
    destruct (Z.leb_spec 0 e) as [He | He].
    + rewrite (Z.max_l 0 (- e)) in Hlo, Hhi by lia.
      rewrite (Z.max_r 0 e) in Hlo, Hhi by lia.
      change (2 ^ 0) with 1 in Hlo, Hhi.
      destruct sign; lia.
    + rewrite (Z.max_r 0 (- e)) in Hlo, Hhi by lia.
      rewrite (Z.max_l 0 e) in Hlo, Hhi by lia.
      change (2 ^ 0) with 1 in Hlo, Hhi.
      assert (Hd : 0 < 2 ^ (- e)) by (apply Z.pow_pos_nonneg; lia).
      assert (Hq : Z.pos m / 2 ^ (- e) = Z.abs z).
      { symmetry. apply (Z.div_unique_pos _ _ _ (Z.pos m - Z.abs z * 2 ^ (- e))); lia. }
      destruct sign.
      * change (Z.neg m) with (- Z.pos m).
        rewrite Z.quot_opp_l by lia.
        rewrite Z.quot_div_nonneg by lia. lia.
      * rewrite Z.quot_div_nonneg by lia. lia.
Qed.

Lemma for_each_static_cast dbl (w : World nv) :
  exists o,
    for_each static_cast_int64 dbl w =
    {| outcome := o; world := w; events := [] |} /\
    ((exists zs, o = Ret zs) \/ (exists why, o = Undefined why)) /\
    (forall zs, Forall2 truncation_of dbl zs -> Forall in_int64_range zs ->
                o = Ret zs).
Proof.
  induction dbl as [ | v dbl IH]; cbn [for_each].
  - eexists. split; [reflexivity | split; [eauto | ]].
    intros zs H _. inversion H. reflexivity.
  - destruct IH as [o [Hrun [Hshape Hok]]].
    unfold bind at 1. unfold static_cast_int64 at 1.
    destruct (truncate v) as [z | ] eqn:Hz.
    + destruct ((int64_min <=? z) && (z <=? int64_max)) eqn:Hrange.
      * cbn. unfold bind at 1. rewrite Hrun.
        destruct Hshape as [[zs' ->] | [why ->]]; cbn.
        -- eexists. split; [reflexivity | split; [eauto | ]].
           intros zs H2 Hr. inversion H2 as [ | v0 z0 dbl0 zs0 Hv Hrest]; subst.
           inversion Hr; subst.
           apply truncate_truncation_of in Hv. rewrite Hz in Hv.
           inversion Hv; subst. f_equal. f_equal.
           assert (E : Ret zs' = Ret zs0) by (apply Hok; assumption).
           inversion E. reflexivity.
        -- eexists. split; [reflexivity | split; [eauto | ]].
           intros zs H2 Hr. inversion H2; subst. inversion Hr; subst.
           exfalso. assert (E : Undefined why = Ret l') by (apply Hok; assumption).
           discriminate E.
      * cbn. eexists. split; [reflexivity | split; [eauto | ]].
        intros zs H2 Hr. inversion H2 as [ | v0 z0 dbl0 zs0 Hv Hrest]; subst.
        inversion Hr as [ | z1 zs1 Hz0 Hzs]; subst.
        apply truncate_truncation_of in Hv. rewrite Hz in Hv.
        inversion Hv; subst. unfold in_int64_range in Hz0.
        apply andb_false_iff in Hrange. destruct Hrange as [H | H];
          [apply Z.leb_gt in H | apply Z.leb_gt in H]; lia.
    + cbn. eexists. split; [reflexivity | split; [eauto | ]].
      intros zs H2 Hr. inversion H2 as [ | v0 z0 dbl0 zs0 Hv Hrest]; subst.
      apply truncate_truncation_of in Hv. rewrite Hz in Hv. discriminate Hv.
Qed.

Lemma as_int64_vec_numeric s name dbl (w : World nv) :
  Rcpp_as_numeric R s = AsOk dbl ->
  (forall msg, outcome (as_int64_vec R s name w) <> RStop msg) /\
  (forall zs,
     Forall2 truncation_of dbl zs -> Forall in_int64_range zs ->
     as_int64_vec R s name w =
     {| outcome := Ret zs; world := w; events := [EvConvert name s] |}).
Proof.
  intros Hs. unfold as_int64_vec, try_catch_std, convert, emit. rewrite Hs.
  destruct (for_each_static_cast dbl w) as [o [Hrun [Hshape Hok]]].
  unfold bind at 1 2. cbn. unfold bind. rewrite Hrun. split.
  - intros msg. destruct Hshape as [[zs ->] | [why ->]]; cbn; discriminate.
  - intros zs H2 Hr. rewrite (Hok zs H2 Hr). reflexivity.
Qed.

Lemma as_int64_vec_not_numeric s name what (w : World nv) :
  Rcpp_as_numeric R s = AsFail what ->
  as_int64_vec R s name w =
  {| outcome := RStop ("Expected numeric vector for " ++ name ++ ": " ++ what);
     world := w; events := [EvConvert name s] |}.
Proof.
  intros Hs. unfold as_int64_vec, try_catch_std, convert, emit. rewrite Hs.
  reflexivity.
Qed.

(** C8. as_int64_vec converts each element of a numeric vector by
    static_cast, which truncates toward zero, and checks neither range nor
    integrality: whatever the doubles are, no R error is raised, and when
    the truncated values fit in an int64 they are the result.  An input that
    Rcpp does not convert to a numeric vector raises "Expected numeric
    vector for <name>: <reason>". *)
Theorem as_int64_vec_truncates s name (w : World nv) :
  match Rcpp_as_numeric R s with
  | AsOk dbl =>
      (forall msg, outcome (as_int64_vec R s name w) <> RStop msg) /\
      (forall zs,
         Forall2 truncation_of dbl zs -> Forall in_int64_range zs ->
         as_int64_vec R s name w =
         {| outcome := Ret zs; world := w; events := [EvConvert name s] |})
  | AsFail what =>
      as_int64_vec R s name w =
      {| outcome := RStop ("Expected numeric vector for " ++ name ++ ": " ++ what);
         world := w; events := [EvConvert name s] |}
  end.
Proof.
  destruct (Rcpp_as_numeric R s) as [dbl | what] eqn:Hs.
  - exact (as_int64_vec_numeric s name w Hs).
  - exact (as_int64_vec_not_numeric s name w Hs).
Qed.

(** The int64 axis routines hand the truncated values to the library. *)
Lemma add_int64_axis_passes_truncated_values a f rest name values n dbl zs st
  (w : World nv) :
  a <> nullptr ->
  Rcpp_as_string R name = AsOk n ->
  Rcpp_as_numeric R values = AsOk dbl ->
  Forall2 truncation_of dbl zs ->
  Forall in_int64_range zs ->
  nv_exec NV (Bench_add_int64_axis a n zs false) (nv_state w) = (ERet tt, st) ->
  let bench := ExtPtr a f (Str ("nvbench_benchmark" :: rest)) in
  let r := nvbenchr_benchmark_add_int64_axis R NV order bench name values w in
  outcome r = Ret bench /\
  In (EvNative (Bench_add_int64_axis a n zs false)) (events r).
Proof.
  intros Ha Hn Hd H2 Hr Hadd bench r.
  assert (Hrun : exists evs,
    r = {| outcome := Ret bench;
           world := {| global_registry := global_registry w; nv_state := st |};
           events := evs ++ [EvNative (Bench_add_int64_axis a n zs false)] |}).
  { unfold r, nvbenchr_benchmark_add_int64_axis, bench_from_xptr, bench.
    unfold bind at 1. rewrite (unwrap_ptr_ok f "nvbench_benchmark" rest w Ha).
    unfold args2. destruct order.
    - unfold bind at 1. unfold bind at 1. unfold bind at 1.
      rewrite (as_string_ok _ "name" w Hn).
      unfold bind at 1.
      rewrite (proj2 (as_int64_vec_numeric values "values" w Hd) zs H2 Hr).
      unfold bind. cbn. rewrite (native_ret _ w Hadd).
      eexists (_ :: _ :: _ :: _ :: nil). reflexivity.
    - unfold bind at 1. unfold bind at 1. unfold bind at 1.
      rewrite (proj2 (as_int64_vec_numeric values "values" w Hd) zs H2 Hr).
      unfold bind at 1.
      rewrite (as_string_ok _ "name" w Hn).
      unfold bind. cbn. rewrite (native_ret _ w Hadd).
      eexists (_ :: _ :: _ :: _ :: nil). reflexivity. }
  destruct Hrun as [evs Hrun]. rewrite Hrun. cbn. split; [reflexivity | ].
  apply in_or_app. right. left. reflexivity.
Qed.

(** ** Exceptions of the library *)

(** GlobalBenchmarkRegistry::run catches what the library throws: it ends
    in a return or in an R error. *)
Lemma run_catches_exceptions args (w : World nv) r :
  global_registry w = Some r ->
  outcome (run NV args w) = Ret tt \/
  exists msg, outcome (run NV args w) = RStop msg.
Proof.
  intros Hreg. destruct (nv_benchmarks_empty NV (nv_state w)) eqn:Hempty.
  - rewrite (run_without_benchmarks args w Hempty). cbn. eauto.
  - exact (proj2 (run_finalizes args w Hreg Hempty)).
Qed.

(** The other routines do not: an exception thrown by the call into the
    library leaves the routine as it is. *)
Lemma state_get_int64_lets_exception_escape a f rest name n e st
  (w : World nv) :
  a <> nullptr ->
  Rcpp_as_string R name = AsOk n ->
  nv_exec NV (State_get_int64 a n) (nv_state w) = (EThrow e, st) ->
  outcome (nvbenchr_state_get_int64 R NV
             (ExtPtr a f (Str ("nvbench_state" :: rest))) name w) = Throw e.
Proof.
  intros Ha Hname Hthrow. unfold nvbenchr_state_get_int64, state_from_xptr.
  unfold bind at 1. rewrite (unwrap_ptr_ok f "nvbench_state" rest w Ha).
  unfold bind at 1. rewrite (as_string_ok _ "name" w Hname).
  unfold bind at 1. rewrite (native_throw _ w Hthrow). reflexivity.
Qed.

(** * Further properties of the binding *)

Lemma as_bool_ok s name v (w : World nv) :
  Rcpp_as_bool R s = AsOk v ->
  as_bool R s name w =
  {| outcome := Ret v; world := w; events := [EvConvert name s] |}.
Proof.
  intros H. unfold as_bool, try_catch_std, convert, bind, emit.
  rewrite H. reflexivity.
Qed.

Lemma as_scalar_ok {T} (conv : SEXP -> rcpp_result T) s name v (w : World nv) :
  conv s = AsOk v ->
  as_scalar conv s name w =
  {| outcome := Ret v; world := w; events := [EvConvert name s] |}.
Proof.
  intros H. unfold as_scalar, try_catch_std, convert, bind, emit.
  rewrite H. reflexivity.
Qed.

(** ** Null handles *)

(** X5. A handle of the right class whose stored address is null is refused
    by every routine with "Null pointer for <class>", after the class check
    and before any value argument is converted or the library is called. *)
Theorem null_handle_refused c h cls f rest (w : World nv) :
  handle_of c = Some (h, cls) ->
  launcher_ok c = true ->
  h = ExtPtr nullptr f (Str (cls :: rest)) ->
  dispatch R NV order c w =
  {| outcome := RStop ("Null pointer for " ++ cls); world := w;
     events := [EvUnwrap cls h; EvCast cls nullptr] |}.
Proof.
  intros Hh Hl ->.
  destruct (dispatch_unwraps_first c Hh Hl) as [k Hk]. rewrite Hk.
  unfold bind at 1, unwrap_ptr, bind, emit. cbn.
  rewrite String.eqb_refl. reflexivity.
Qed.

(** ** Registration *)

(** X2. A benchmark that is not a function is never registered: whatever
    the registry and the name are, nvbenchr_register raises an error and
    calls nothing in the library.  The error is the first that applies of:
    registry not initialised, name not a string, registry finalized,
    benchmark not a function. *)
Theorem register_refuses_non_function fn name (w : World nv) :
  Rf_isFunction fn = false ->
  exists evs,
    nvbenchr_register R NV fn name w =
    {| outcome := RStop (register_refusal (global_registry w)
                           (Rcpp_as_string R name));
       world := w; events := evs |} /\
    existsb is_native evs = false.
Proof.
  intros Hfn. unfold nvbenchr_register, bind at 1, get_registry.
  destruct (global_registry w) as [r | ] eqn:Hreg; cbn [register_refusal].
  - destruct (Rcpp_as_string R name) as [n | what] eqn:Hname.
    + unfold bind at 1. rewrite (as_string_ok _ "name" w Hname).
      unfold add_bench, this_m_finalized, bind, get_registry.
      rewrite Hreg. cbn. destruct (m_finalized r); cbn.
      * eexists. split; reflexivity.
      * rewrite Hfn. cbn. eexists. split; reflexivity.
    + unfold bind at 1. rewrite (as_string_fail _ "name" w Hname).
      cbn. eexists. split; reflexivity.
  - cbn. eexists. split; reflexivity.
Qed.

(** ** Runs *)

Lemma run_unfinalized args (w : World nv) :
  global_registry w = Some {| m_finalized := false |} ->
  nv_benchmarks_empty NV (nv_state w) = false ->
  run NV args w =
  try_catch_all
    (bind (native NV Mgr_initialize) (fun _ =>
     bind (native NV (Parser_parse args)) (fun _ =>
     bind (native NV Main_print_preamble) (fun _ =>
     bind (native NV Main_run_benchmarks) (fun _ =>
     bind (native NV Main_print_epilogue) (fun _ =>
     native NV Main_print_results))))))
    (fun what => stop ("nvbench run failed: " ++ what))
    (stop "Unknown exception while running nvbench benchmarks")
    {| global_registry := Some {| m_finalized := true |};
       nv_state := nv_state w |}.
Proof.
  intros Hreg Hempty.
  unfold run, benchmarks_empty, this_m_finalized, set_m_finalized,
    get_registry, set_registry.
  unfold bind. cbv beta iota. rewrite Hempty. cbv beta iota.
  rewrite Hreg. cbv beta iota delta [ret m_finalized].
  rewrite ?Hreg. cbv beta iota.
  match goal with
  | |- context [try_catch_all ?b ?h ?h' ?w'] =>
      destruct (try_catch_all b h h' w') as [o w1 ev1]
  end.
  reflexivity.
Qed.


(** X4. A run whose arguments the option parser rejects runs no benchmark
    and still uses up the one run: the error is raised after the manager
    was initialised and the arguments were parsed, and the registry is left
    finalized. *)
Theorem failed_parse_uses_up_the_run argv args e st1 st2 (w : World nv) :
  global_registry w = Some {| m_finalized := false |} ->
  Rcpp_as_strings R argv = AsOk args ->
  nv_benchmarks_empty NV (nv_state w) = false ->
  nv_exec NV Mgr_initialize (nv_state w) = (ERet tt, st1) ->
  nv_exec NV (Parser_parse args) st1 = (EThrow e, st2) ->
  nvbenchr_run_all_benchmarks R NV argv w =
  {| outcome := RStop (run_failure_message e);
     world := {| global_registry := Some {| m_finalized := true |};
                 nv_state := st2 |};
     events := [EvConvert "argv" argv; EvNative Mgr_initialize;
                EvNative (Parser_parse args)] |}.
Proof.
  intros Hreg Hargv Hempty Hinit Hparse.
  rewrite (run_all_reaches_run argv w Hreg Hargv).
  rewrite (run_unfinalized args w Hreg Hempty).
  unfold try_catch_all, bind at 1, native at 1. cbn [nv_state global_registry].
  rewrite Hinit. unfold bind at 1, native at 1. cbn [nv_state global_registry].
  rewrite Hparse. destruct e; reflexivity.
Qed.

(** ** nvbenchr_state_exec *)

(** X7. nvbenchr_state_exec runs the launcher with the exec tag made of its
    two flags: sync when [sync] is true, no_batch when [batched] is false. *)
Theorem state_exec_tag a f rest launcher_fn batched sync b s st (w : World nv) :
  a <> nullptr ->
  Rf_isFunction launcher_fn = true ->
  Rcpp_as_bool R batched = AsOk b ->
  Rcpp_as_bool R sync = AsOk s ->
  let state := ExtPtr a f (Str ("nvbench_state" :: rest)) in
  let tag := {| tag_sync := s; tag_no_batch := negb b |} in
  nv_exec NV (State_exec a tag launcher_fn) (nv_state w) = (ERet tt, st) ->
  nvbenchr_state_exec R NV state launcher_fn batched sync w =
  {| outcome := Ret R_NilValue;
     world := {| global_registry := global_registry w; nv_state := st |};
     events := [EvUnwrap "nvbench_state" state; EvCast "nvbench_state" a;
                EvConvert "batched" batched; EvConvert "sync" sync;
                EvNative (State_exec a tag launcher_fn)] |}.
Proof.
  intros Ha Hfn Hb Hs state tag Hexec.
  unfold nvbenchr_state_exec, state_from_xptr, state. rewrite Hfn. cbn [negb].
  unfold bind at 1. rewrite (unwrap_ptr_ok f "nvbench_state" rest w Ha).
  unfold bind at 1. rewrite (as_bool_ok _ "batched" w Hb).
  unfold bind at 1. rewrite (as_bool_ok _ "sync" w Hs).
  unfold tag in Hexec.
  destruct s, b; cbn [negb] in Hexec; unfold bind;
    unfold exec_tag_or, exec_tag_sync, exec_tag_no_batch, exec_tag_none;
    cbn [tag_sync tag_no_batch orb];
    rewrite (native_ret _ w Hexec); reflexivity.
Qed.

(** ** Byte counts *)

(** X8. The byte count of nvbenchr_state_add_global_memory_reads and
    nvbenchr_state_add_global_memory_writes reaches the library as a
    size_t: a count from 0 to 2^63 - 1 unchanged, a negative count n as
    n + 2^64. *)
Theorem memory_byte_count_wraps a f rest nbytes column_name n col st
  (writes : bool) (w : World nv) :
  a <> nullptr ->
  Rcpp_as_int64 R nbytes = AsOk n ->
  Rcpp_as_string R column_name = AsOk col ->
  int64_min <= n <= int64_max ->
  let state := ExtPtr a f (Str ("nvbench_state" :: rest)) in
  let count := if n <? 0 then n + 2 ^ 64 else n in
  let call := if writes then State_add_global_memory_writes a count col
              else State_add_global_memory_reads a count col in
  nv_exec NV call (nv_state w) = (ERet tt, st) ->
  let r := if writes
           then nvbenchr_state_add_global_memory_writes R NV order state nbytes
                  column_name w
           else nvbenchr_state_add_global_memory_reads R NV order state nbytes
                  column_name w in
  outcome r = Ret R_NilValue /\
  filter is_native (events r) = [EvNative call] /\
  0 <= count < 2 ^ 64.
Proof.
  intros Ha Hn Hcol Hrange state count call Hexec r.
  assert (Hcount : static_cast_size_t n = count).
  { unfold static_cast_size_t, count. unfold int64_min, int64_max in Hrange.
    destruct (Z.ltb_spec n 0).
    - symmetry. apply (Z.mod_unique n (2 ^ 64) (-1)); lia.
    - apply Z.mod_small. lia. }
  assert (Hbound : 0 <= count < 2 ^ 64).
  { rewrite <- Hcount. apply Z.mod_pos_bound. lia. }
  unfold call in Hexec.
  split; [ | split; [ | exact Hbound]];
    unfold r, call; destruct writes;
    unfold nvbenchr_state_add_global_memory_writes,
      nvbenchr_state_add_global_memory_reads, state_from_xptr, state;
    (unfold bind at 1; rewrite (unwrap_ptr_ok f "nvbench_state" rest w Ha));
    unfold args2; destruct order;
    repeat (unfold bind at 1;
            rewrite ?(as_scalar_ok (Rcpp_as_int64 R) nbytes "nbytes" w Hn),
                    ?(as_string_ok _ "column_name" w Hcol);
            cbn [fst snd ret]);
    unfold native; rewrite Hcount; rewrite Hexec; reflexivity.
Qed.

(** ** Who changes the registry *)

Section KeepsRegistry.

Variable reg : option GlobalBenchmarkRegistry.

Let same_registry (w : World nv) : Prop := global_registry w = reg.

Lemma same_registry_native (w : World nv) (st : nv) :
  same_registry w ->
  same_registry {| global_registry := global_registry w; nv_state := st |}.
Proof. intros H. exact H. Qed.

Lemma anything_goes (e : Event) :
  is_owning_xptr e = false -> is_delete e = false -> (fun _ : Event => true) e = true.
Proof. reflexivity. Qed.

Ltac keeps_step :=
  match goal with
  | |- respects _ _ (bind _ _) => apply respects_bind; [ | intro ]
  | |- respects _ _ (args2 _ _ _) => apply respects_args2
  | |- respects _ _ (match ?x with _ => _ end) => destruct x
  | |- respects _ _ _ =>
      first
        [ apply respects_ret | apply respects_stop | apply respects_undefined
        | apply respects_get_registry
        | apply respects_native;
          [exact same_registry_native | exact anything_goes]
        | apply respects_add_bench;
          [exact same_registry_native | exact anything_goes]
        | apply respects_unwrap_ptr; exact anything_goes
        | apply respects_wrap_ptr; exact anything_goes
        | apply respects_as_string; exact anything_goes
        | apply respects_as_string_vec; exact anything_goes
        | apply respects_as_bool; exact anything_goes
        | apply respects_as_scalar; exact anything_goes
        | apply respects_as_int64_vec; exact anything_goes
        | apply respects_as_float64_vec; exact anything_goes
        | apply respects_axis_values_loop ]
  end.

Lemma same_registry_dispatch c :
  is_run_all c = false ->
  respects same_registry (fun _ => true) (dispatch R NV order c).
Proof.
  intros Hc. destruct c; try discriminate Hc; cbn [dispatch];
    autounfold with binding; repeat keeps_step.
Qed.

End KeepsRegistry.

Lemma registry_after_dispatch c (w : World nv) :
  is_run_all c = false ->
  global_registry (world (dispatch R NV order c w)) = global_registry w.
Proof.
  intros Hc.
  exact (proj1 (@same_registry_dispatch (global_registry w) c Hc w eq_refl)).
Qed.

Lemma registry_after_run_all argv (w : World nv) :
  let w' := world (nvbenchr_run_all_benchmarks R NV argv w) in
  global_registry w' = global_registry w \/
  (global_registry w = Some {| m_finalized := false |} /\
   global_registry w' = Some {| m_finalized := true |}).
Proof.
  cbv zeta. destruct (global_registry w) as [[[ | ]] | ] eqn:Hreg.
  - left. destruct (run_all_rejected_when_finalized argv Hreg)
      as [msg [evs [Hr _]]].
    rewrite Hr. exact Hreg.
  - destruct (Rcpp_as_strings R argv) as [args | what] eqn:Hargv.
    + rewrite (run_all_reaches_run argv w Hreg Hargv).
      destruct (nv_benchmarks_empty NV (nv_state w)) eqn:Hempty.
      * left. rewrite (run_without_benchmarks args w Hempty). exact Hreg.
      * right. split; [reflexivity | ].
        pose proof (proj1 (run_finalizes args w Hreg Hempty)) as Hf.
        destruct (run NV args w). exact Hf.
    + left. unfold nvbenchr_run_all_benchmarks, bind at 1, get_registry.
      rewrite Hreg. unfold bind at 1.
      rewrite (as_string_vec_fail _ "argv" w Hargv). exact Hreg.
  - left. unfold nvbenchr_run_all_benchmarks, bind at 1, get_registry.
    rewrite Hreg. exact Hreg.
Qed.

(** X14. Of all the routines of the table only nvbenchr_run_all_benchmarks
    writes the registry, and it only finalizes it: every other routine
    leaves the registry as it found it, whatever it returns or raises. *)
Theorem only_run_all_writes_the_registry c (w : World nv) :
  let w' := world (dispatch R NV order c w) in
  global_registry w' = global_registry w \/
  (is_run_all c = true /\
   global_registry w = Some {| m_finalized := false |} /\
   global_registry w' = Some {| m_finalized := true |}).
Proof.
  cbv zeta. destruct (is_run_all c) eqn:Hc.
  - destruct c; try discriminate Hc. cbn [dispatch].
    destruct (registry_after_run_all argv w) as [H | [H1 H2]]; auto.
  - left. exact (registry_after_dispatch c w Hc).
Qed.

Lemma uninitialised_after_calls cs (w : World nv) :
  global_registry w = None ->
  global_registry (run_calls R NV order cs w) = None.
Proof.
  revert w. induction cs as [ | c cs IH]; intros w H; cbn [run_calls fold_left].
  - exact H.
  - apply IH. unfold step. destruct (is_run_all c) eqn:Hc.
    + destruct c; try discriminate Hc. cbn [dispatch].
      destruct (registry_after_run_all argv w) as [H1 | [H1 _]]; congruence.
    + rewrite (registry_after_dispatch c w Hc). exact H.
Qed.

(** X1. When the CUDA driver fails to initialise while the package is
    loaded, R_init_nvbenchr lets the exception escape and creates no
    registry; after that, whatever routines are called, nvbenchr_register
    and nvbenchr_run_all_benchmarks are refused with "nvbenchr registry is
    not initialized" before they look at their arguments. *)
Theorem failed_load_leaves_no_registry e st cs fn name argv (w0 : World nv) :
  global_registry w0 = None ->
  nv_exec NV Driver_cuInit (nv_state w0) = (EThrow e, st) ->
  let loaded := R_init_nvbenchr NV w0 in
  let w := run_calls R NV order cs (world loaded) in
  let refused :=
    {| outcome := RStop "nvbenchr registry is not initialized";
       world := w; events := [] |} in
  outcome loaded = Throw e /\
  events loaded = [EvNative Driver_cuInit] /\
  nvbenchr_register R NV fn name w = refused /\
  nvbenchr_run_all_benchmarks R NV argv w = refused.
Proof.
  intros Hnone Hinit loaded w refused.
  assert (Hl : loaded =
               {| outcome := Throw e;
                  world := {| global_registry := global_registry w0;
                              nv_state := st |};
                  events := [EvNative Driver_cuInit] |}).
  { unfold loaded, R_init_nvbenchr, bind at 1.
    rewrite (native_throw _ w0 Hinit). reflexivity. }
  assert (Hw : global_registry w = None).
  { unfold w. apply uninitialised_after_calls. rewrite Hl. exact Hnone. }
  rewrite Hl. cbn [outcome events]. unfold refused.
  split; [reflexivity | split; [reflexivity | split]].
  - unfold nvbenchr_register, bind at 1, get_registry. rewrite Hw. reflexivity.
  - unfold nvbenchr_run_all_benchmarks, bind at 1, get_registry. rewrite Hw.
    reflexivity.
Qed.

(** ** Results of the setters *)

(** X13. A routine that configures a benchmark returns, when it returns,
    the very handle it was given, so calls can be chained; a routine that
    changes a state returns NULL. *)
Theorem setters_return_handle_or_null c h cls v (w : World nv) :
  handle_of c = Some (h, cls) ->
  outcome (dispatch R NV order c w) = Ret v ->
  (configures_benchmark c = true -> v = h) /\
  (changes_state c = true -> v = R_NilValue).
Proof.
  intros Hh Ho.
  split; intros Hc; destruct c; try discriminate Hc;
    cbn in Hh; inversion Hh; subst; clear Hh;
    cbn [dispatch] in Ho; autounfold with binding in Ho;
    try (destruct (negb (Rf_isFunction launcher_fn)); [discriminate Ho | ]);
    repeat (apply outcome_bind_ret in Ho; destruct Ho as [? [_ Ho]]);
    cbn in Ho; inversion Ho; reflexivity.
Qed.

(** ** Exceptions that do not come from the library *)

Lemma never_throws_std_only {A} (m : M nv A) :
  never_throws m -> throws_std_only m.
Proof. intros H w. apply H. Qed.

Lemma never_throws_ret {A} (a : A) : never_throws (@ret nv A a).
Proof. intros w e. discriminate. Qed.

Lemma never_throws_stop {A} msg : never_throws (@stop nv A msg).
Proof. intros w e. discriminate. Qed.

Lemma never_throws_undefined {A} why : never_throws (@undefined nv A why).
Proof. intros w e. discriminate. Qed.

Lemma never_throws_emit ev : never_throws (@emit nv ev).
Proof. intros w e. discriminate. Qed.

Lemma never_throws_get_registry : never_throws (@get_registry nv).
Proof. intros w e. discriminate. Qed.

Lemma never_throws_benchmarks_empty : never_throws (benchmarks_empty NV).
Proof. intros w e. discriminate. Qed.

Lemma never_throws_bind {A B} (m : M nv A) (f : A -> M nv B) :
  never_throws m -> (forall a, never_throws (f a)) -> never_throws (bind m f).
Proof.
  intros Hm Hf w e. rewrite outcome_bind. pose proof (Hm w) as H.
  destruct (outcome (m w)) as [a | msg | e' | why]; try discriminate.
  - apply Hf.
  - exfalso. exact (H e' eq_refl).
Qed.

Lemma throws_std_only_bind {A B} (m : M nv A) (f : A -> M nv B) :
  throws_std_only m -> (forall a, throws_std_only (f a)) ->
  throws_std_only (bind m f).
Proof.
  intros Hm Hf w. rewrite outcome_bind. pose proof (Hm w) as H.
  destruct (outcome (m w)) as [a | msg | e' | why]; try discriminate.
  - apply Hf.
  - intros E. apply H. inversion E. reflexivity.
Qed.

Lemma throws_std_only_convert {A} (conv : SEXP -> rcpp_result A) arg s :
  throws_std_only (@convert nv A conv arg s).
Proof.
  unfold convert. apply throws_std_only_bind.
  - apply never_throws_std_only. apply never_throws_emit.
  - intros _ w. destruct (conv s); discriminate.
Qed.

Lemma never_throws_try_catch_std {A} (body : M nv A) handler :
  throws_std_only body -> (forall what, never_throws (handler what)) ->
  never_throws (try_catch_std body handler).
Proof.
  intros Hb Hh w e. unfold try_catch_std. pose proof (Hb w) as H.
  destruct (body w) as [o w1 ev1]. cbn [outcome] in H.
  destruct o as [a | msg | [what | ] | why]; try discriminate.
  - pose proof (Hh msg w1 e) as H'. destruct (handler msg w1). exact H'.
  - pose proof (Hh what w1 e) as H'. destruct (handler what w1). exact H'.
  - exfalso. exact (H eq_refl).
Qed.

Lemma never_throws_try_catch_all {A} (body : M nv A) handler handler_any :
  (forall what, never_throws (handler what)) -> never_throws handler_any ->
  never_throws (try_catch_all body handler handler_any).
Proof.
  intros Hh Ha w e. unfold try_catch_all.
  destruct (body w) as [o w1 ev1].
  destruct o as [a | msg | [what | ] | why]; try discriminate.
  - pose proof (Hh msg w1 e) as H'. destruct (handler msg w1). exact H'.
  - pose proof (Hh what w1 e) as H'. destruct (handler what w1). exact H'.
  - pose proof (Ha w1 e) as H'. destruct (handler_any w1). exact H'.
Qed.

Lemma never_throws_at_scope_exit {A} (body : M nv A) dtor :
  never_throws body -> never_throws (at_scope_exit body dtor).
Proof.
  intros Hb w e. unfold at_scope_exit. pose proof (Hb w e) as H.
  destruct (body w) as [o w1 ev1]. cbn [outcome] in H.
  destruct o; try exact H; destruct (dtor w1); exact H.
Qed.

Lemma never_throws_for_each {A B} (f : A -> M nv B) l :
  (forall a, never_throws (f a)) -> never_throws (for_each f l).
Proof.
  intros Hf. induction l as [ | x rest IH]; cbn [for_each].
  - apply never_throws_ret.
  - apply never_throws_bind; [apply Hf | intros y].
    apply never_throws_bind; [exact IH | intros ys]. apply never_throws_ret.
Qed.

Lemma never_throws_args2 {A B} (a : M nv A) (b : M nv B) :
  never_throws a -> never_throws b -> never_throws (args2 order a b).
Proof.
  intros Ha Hb. unfold args2.
  destruct order; repeat (apply never_throws_bind; [assumption | intro]);
    apply never_throws_ret.
Qed.

Lemma never_throws_unwrap_ptr obj cls : never_throws (@unwrap_ptr nv obj cls).
Proof.
  unfold unwrap_ptr. apply never_throws_bind; [apply never_throws_emit | ].
  intros _. destruct (negb (SEXPTYPE_eqb (TYPEOF obj) EXTPTRSXP));
    [apply never_throws_stop | ].
  destruct (Rf_getAttrib_class obj) as [ | | | | elts | | | | | | ];
    try apply never_throws_stop.
  destruct elts as [ | t rest]; [apply never_throws_undefined | ].
  destruct (negb (String.eqb t cls)); [apply never_throws_stop | ].
  apply never_throws_bind; [apply never_throws_emit | intros _].
  destruct (N.eqb (R_ExternalPtrAddr obj) nullptr);
    [apply never_throws_stop | apply never_throws_ret].
Qed.

Lemma never_throws_wrap_ptr ptr cls : never_throws (@wrap_ptr nv ptr cls).
Proof.
  unfold wrap_ptr, XPtr_new.
  repeat (apply never_throws_bind; [ | intro ]);
    first [apply never_throws_emit | apply never_throws_ret].
Qed.

Lemma never_throws_conversion {A} (conv : SEXP -> rcpp_result A) arg s
  (report : string -> string) :
  never_throws
    (try_catch_std (@convert nv A conv arg s) (fun what => stop (report what))).
Proof.
  apply never_throws_try_catch_std;
    [apply throws_std_only_convert | intro; apply never_throws_stop].
Qed.

Lemma never_throws_static_cast_int64 v : never_throws (@static_cast_int64 nv v).
Proof.
  intros w e. unfold static_cast_int64. destruct (truncate v) as [z | ];
    [ | discriminate].
  destruct ((int64_min <=? z) && (z <=? int64_max)); discriminate.
Qed.

Lemma never_throws_as_int64_vec s name : never_throws (@as_int64_vec nv R s name).
Proof.
  apply never_throws_try_catch_std; [ | intro; apply never_throws_stop].
  apply throws_std_only_bind; [apply throws_std_only_convert | intro].
  apply never_throws_std_only. apply never_throws_for_each.
  exact never_throws_static_cast_int64.
Qed.

Lemma never_throws_as_float64_vec s name :
  never_throws (@as_float64_vec nv R s name).
Proof.
  apply never_throws_try_catch_std; [ | intro; apply never_throws_stop].
  apply throws_std_only_bind; [apply throws_std_only_convert | intro].
  apply never_throws_std_only. apply never_throws_for_each.
  intro. apply never_throws_ret.
Qed.

(** The lookup guarded by has_value cannot fail. *)
Lemma never_throws_axis_values_loop named_vals names out :
  never_throws (@axis_values_loop nv R named_vals names out).
Proof.
  revert out. induction names as [ | name rest IH]; intros out;
    cbn [axis_values_loop]; [apply never_throws_ret | ].
  unfold has_value. destruct (get_value named_vals name); apply IH.
Qed.

Section NeverThrowing.

Hypothesis library_returns : never_throwing NV.

Lemma never_throws_native {T} (c : NvCall T) : never_throws (native NV c).
Proof.
  intros w e. unfold native.
  destruct (library_returns c (nv_state w)) as [a [st H]]. rewrite H.
  discriminate.
Qed.

Ltac never_throws_step :=
  match goal with
  | |- never_throws (bind _ _) => apply never_throws_bind; [ | intro ]
  | |- never_throws (args2 _ _ _) => apply never_throws_args2
  | |- never_throws (at_scope_exit _ _) => apply never_throws_at_scope_exit
  | |- never_throws (try_catch_all _ _ _) =>
      apply never_throws_try_catch_all; [intro | ]
  | |- never_throws (match ?x with _ => _ end) => destruct x
  | |- never_throws _ =>
      first
        [ apply never_throws_ret | apply never_throws_stop
        | apply never_throws_undefined | apply never_throws_emit
        | apply never_throws_get_registry | apply never_throws_benchmarks_empty
        | apply never_throws_native | apply never_throws_unwrap_ptr
        | apply never_throws_wrap_ptr | apply never_throws_conversion
        | apply never_throws_as_int64_vec | apply never_throws_as_float64_vec
        | apply never_throws_axis_values_loop ]
  end.

Lemma never_throws_dispatch c : never_throws (dispatch R NV order c).
Proof.
  destruct c; cbn [dispatch]; autounfold with binding;
    unfold add_bench, run, this_m_finalized, set_m_finalized, set_registry,
      as_string, as_string_vec, as_bool, as_scalar;
    repeat never_throws_step.
Qed.

End NeverThrowing.


(** ** The order of evaluation of two arguments *)

Lemma converts_only_conversion {A} (conv : SEXP -> rcpp_result A) arg s
  (report : string -> string) :
  converts_only
    (try_catch_std (@convert nv A conv arg s) (fun what => stop (report what))).
Proof.
  intros w. unfold try_catch_std, convert, bind, emit.
  destruct (conv s); cbn; auto.
Qed.

Lemma converts_only_as_int64_vec s name :
  converts_only (@as_int64_vec nv R s name).
Proof.
  intros w. unfold as_int64_vec, try_catch_std, convert, emit.
  unfold bind at 1 2. cbn.
  destruct (Rcpp_as_numeric R s) as [dbl | what]; [ | cbn; auto].
  cbn. destruct (for_each_static_cast dbl w) as [o [Hrun [Hshape _]]].
  unfold bind. rewrite Hrun.
  destruct Hshape as [[zs ->] | [why ->]]; cbn; auto.
Qed.

Lemma for_each_ret {A} (l : list A) (w : World nv) :
  for_each (fun v => ret v) l w =
  {| outcome := Ret l; world := w; events := [] |}.
Proof.
  induction l as [ | x rest IH]; cbn [for_each]; [reflexivity | ].
  unfold bind at 1. cbn. unfold bind. rewrite IH. reflexivity.
Qed.

Lemma converts_only_as_float64_vec s name :
  converts_only (@as_float64_vec nv R s name).
Proof.
  intros w. unfold as_float64_vec, try_catch_std, convert, emit.
  unfold bind at 1 2. cbn.
  destruct (Rcpp_as_numeric R s) as [dbl | what]; [ | cbn; auto].
  cbn. unfold bind. rewrite for_each_ret. cbn. auto.
Qed.

Lemma converts_only_then {A B} (m : M nv A) (g : A -> B) :
  converts_only m -> converts_only (bind m (fun a => ret (g a))).
Proof.
  intros Hm w. destruct (Hm w) as [Hw He]. unfold bind.
  destruct (m w) as [o w1 ev1]. cbn in Hw, He. subst w1.
  destruct o; cbn; rewrite ?app_nil_r; auto.
Qed.

Lemma args2_order {A B} (a : M nv A) (b : M nv B) (w : World nv) :
  converts_only a -> converts_only b ->
  world (args2 LeftToRight a b w) = w /\
  world (args2 RightToLeft a b w) = w /\
  filter is_native (events (args2 LeftToRight a b w)) = [] /\
  filter is_native (events (args2 RightToLeft a b w)) = [] /\
  (forall p, outcome (args2 LeftToRight a b w) = Ret p <->
             outcome (args2 RightToLeft a b w) = Ret p).
Proof.
  intros Ha Hb. destruct (Ha w) as [Haw Hae]. destruct (Hb w) as [Hbw Hbe].
  destruct (a w) as [oa wa ea] eqn:Ea. cbn in Haw, Hae. subst wa.
  destruct (b w) as [ob wb eb] eqn:Eb. cbn in Hbw, Hbe. subst wb.
  unfold args2, bind.
  destruct oa as [x | ? | ? | ?]; destruct ob as [y | ? | ? | ?];
    repeat (rewrite ?Ea, ?Eb; cbn);
    rewrite ?filter_app, ?Hae, ?Hbe; cbn;
    repeat split; auto; try (intros H; try discriminate H; exact H).
Qed.

Lemma routine_order {H A B} (u : M nv H) (a : M nv A) (b : M nv B)
  (k : H -> A * B -> M nv SEXP) (w : World nv) :
  converts_only a -> converts_only b ->
  world (bind u (fun h => bind (args2 LeftToRight a b) (k h)) w) =
  world (bind u (fun h => bind (args2 RightToLeft a b) (k h)) w) /\
  (forall v,
     outcome (bind u (fun h => bind (args2 LeftToRight a b) (k h)) w) = Ret v <->
     outcome (bind u (fun h => bind (args2 RightToLeft a b) (k h)) w) = Ret v) /\
  filter is_native (events (bind u (fun h => bind (args2 LeftToRight a b) (k h)) w)) =
  filter is_native (events (bind u (fun h => bind (args2 RightToLeft a b) (k h)) w)).
Proof.
  intros Ha Hb. unfold bind at 1 3 5 7 9 11.
  destruct (u w) as [ou wu eu].
  destruct ou as [h | ? | ? | ?]; try (repeat split; auto; fail).
  destruct (args2_order wu Ha Hb) as [H1 [H2 [H3 [H4 H5]]]].
  unfold bind.
  destruct (args2 LeftToRight a b wu) as [o1 w1 e1].
  destruct (args2 RightToLeft a b wu) as [o2 w2 e2].
  cbn in H1, H2, H3, H4, H5. subst w1 w2.
  destruct o1 as [p | ? | ? | ?].
  - rewrite (proj1 (H5 p) eq_refl).
    destruct (k h p wu) as [o3 w3 e3]. cbn.
    rewrite !filter_app, H3, H4. repeat split; auto.
  - destruct o2 as [p | ? | ? | ?];
      [discriminate (proj2 (H5 p) eq_refl) | | | ]; cbn;
      rewrite !filter_app, H3, H4; repeat split; auto; discriminate.
  - destruct o2 as [p | ? | ? | ?];
      [discriminate (proj2 (H5 p) eq_refl) | | | ]; cbn;
      rewrite !filter_app, H3, H4; repeat split; auto; discriminate.
  - destruct o2 as [p | ? | ? | ?];
      [discriminate (proj2 (H5 p) eq_refl) | | | ]; cbn;
      rewrite !filter_app, H3, H4; repeat split; auto; discriminate.
Qed.

(** X12. The order in which the compiler evaluates two converted arguments
    of one call does not matter to the library: under either order a
    routine makes the same calls into nvbench, leaves the same world, and
    returns the same value when it returns.  (Only which of two conversion
    errors is reported can differ.) *)
Theorem evaluation_order_is_immaterial c (w : World nv) :
  world (dispatch R NV LeftToRight c w) = world (dispatch R NV RightToLeft c w) /\
  (forall v, outcome (dispatch R NV LeftToRight c w) = Ret v <->
             outcome (dispatch R NV RightToLeft c w) = Ret v) /\
  filter is_native (events (dispatch R NV LeftToRight c w)) =
  filter is_native (events (dispatch R NV RightToLeft c w)).
Proof.
  destruct c; cbn [dispatch]; autounfold with binding;
    try (split; [reflexivity | split; [intros v; split; auto | reflexivity]]);
    apply routine_order;
    first [ apply converts_only_as_int64_vec
          | apply converts_only_as_float64_vec
          | apply converts_only_conversion
          | apply converts_only_then; apply converts_only_conversion ].
Qed.

(** ** Conversion of numeric vectors, continued *)

(** X10. as_float64_vec hands the doubles of a numeric vector on unchanged
    and in order; an input that Rcpp does not convert raises "Expected
    numeric vector for <name>: <reason>". *)
Theorem as_float64_vec_copies s name (w : World nv) :
  as_float64_vec R s name w =
  {| outcome := match Rcpp_as_numeric R s with
                | AsOk dbl => Ret dbl
                | AsFail what =>
                    RStop ("Expected numeric vector for " ++ name ++ ": " ++ what)
                end;
     world := w; events := [EvConvert name s] |}.
Proof.
  unfold as_float64_vec, try_catch_std, convert, emit.
  unfold bind at 1 2. cbn.
  destruct (Rcpp_as_numeric R s) as [dbl | what]; [ | reflexivity].
  cbn. unfold bind. rewrite for_each_ret. reflexivity.
Qed.

(** What the cast returns is the truncation. *)
Lemma truncation_of_truncate v z :
  truncate v = Some z -> truncation_of v z.
Proof.
  unfold truncation_of, truncate.
  destruct (Prim2SF v) as [s | s | | sign m e]; try discriminate.
  - intros H. inversion H. reflexivity.
  - intros H. inversion H as [Hz]. clear H.
    destruct (Z.leb_spec 0 e) as [He | He].
    + rewrite (Z.max_l 0 (- e)) by lia. rewrite (Z.max_r 0 e) by lia.
      change (2 ^ 0) with 1.
      assert (Hp : 0 < 2 ^ e) by (apply Z.pow_pos_nonneg; lia).
      destruct sign; nia.
    + rewrite (Z.max_r 0 (- e)) by lia. rewrite (Z.max_l 0 e) by lia.
      change (2 ^ 0) with 1.
      assert (Hd : 0 < 2 ^ (- e)) by (apply Z.pow_pos_nonneg; lia).
      pose proof (Z.mul_div_le (Z.pos m) (2 ^ (- e)) Hd) as Hlo.
      pose proof (Z.mul_succ_div_gt (Z.pos m) (2 ^ (- e)) Hd) as Hhi.
      assert (Hq : 0 <= Z.pos m / 2 ^ (- e)) by (apply Z.div_pos; lia).
      destruct sign.
      * change (Z.neg m) with (- Z.pos m).
        rewrite Z.quot_opp_l by lia.
        rewrite Z.quot_div_nonneg by lia. split; [lia | ].
        rewrite Z.abs_opp, Z.abs_eq by lia. lia.
      * rewrite Z.quot_div_nonneg by lia. split; [lia | ].
        rewrite Z.abs_eq by lia. lia.
Qed.

Lemma for_each_static_cast_sound dbl zs (w : World nv) :
  outcome (for_each static_cast_int64 dbl w) = Ret zs ->
  Forall2 truncation_of dbl zs /\ Forall in_int64_range zs.
Proof.
  revert zs w. induction dbl as [ | v dbl IH]; intros zs w; cbn [for_each].
  - cbn. intros H. inversion H. split; constructor.
  - intros H. apply outcome_bind_ret in H. destruct H as [y [Hy H]].
    apply outcome_bind_ret in H. destruct H as [ys [Hys H]].
    cbn in H. inversion H; subst. clear H.
    destruct (IH ys _ Hys) as [H2 Hr].
    unfold static_cast_int64 in Hy.
    destruct (truncate v) as [z | ] eqn:Hz; [ | discriminate Hy].
    destruct ((int64_min <=? z) && (z <=? int64_max)) eqn:Hrange;
      [ | discriminate Hy].
    cbn in Hy. inversion Hy; subst.
    apply andb_true_iff in Hrange. destruct Hrange as [Hlo Hhi].
    apply Z.leb_le in Hlo, Hhi.
    split; constructor; auto using truncation_of_truncate.
    split; assumption.
Qed.


(** X16. Both int64 axis routines hand the truncated values of their
    numeric vector to add_int64_axis under the converted name, the
    power-of-two routine with the power_of_two flag and the plain one
    without, and return the benchmark handle. *)
Theorem int64_axes_receive_truncated_values a f rest name values n dbl zs st
  (power_of_two : bool) (w : World nv) :
  a <> nullptr ->
  Rcpp_as_string R name = AsOk n ->
  Rcpp_as_numeric R values = AsOk dbl ->
  Forall2 truncation_of dbl zs ->
  Forall in_int64_range zs ->
  nv_exec NV (Bench_add_int64_axis a n zs power_of_two) (nv_state w)
  = (ERet tt, st) ->
  let bench := ExtPtr a f (Str ("nvbench_benchmark" :: rest)) in
  let r := if power_of_two
           then nvbenchr_benchmark_add_int64_power_of_two_axis R NV order
                  bench name values w
           else nvbenchr_benchmark_add_int64_axis R NV order bench name values w in
  outcome r = Ret bench /\
  filter is_native (events r) =
  [EvNative (Bench_add_int64_axis a n zs power_of_two)].
Proof.
  intros Ha Hn Hd H2 Hr Hadd bench r.
  split; unfold r; destruct power_of_two;
    unfold nvbenchr_benchmark_add_int64_power_of_two_axis,
      nvbenchr_benchmark_add_int64_axis, bench_from_xptr, bench;
    (unfold bind at 1;
     rewrite (unwrap_ptr_ok f "nvbench_benchmark" rest w Ha));
    unfold args2; destruct order;
    repeat (unfold bind at 1;
            rewrite ?(as_string_ok _ "name" w Hn),
                    ?(proj2 (as_int64_vec_numeric values "values" w Hd) zs H2 Hr);
            cbn [fst snd ret]);
    unfold native; rewrite Hadd; reflexivity.
Qed.

(** ** Axis values *)

Lemma assign_named_new vals names name x :
  ~ In name names -> List.length vals = List.length names ->
  assign_named vals names name x = ((vals ++ [x])%list, (names ++ [name])%list).
Proof.
  revert names. induction vals as [ | v vs IH]; intros [ | n ns] Hin Hlen;
    cbn in *; try discriminate; [reflexivity | ].
  destruct (String.eqb_spec n name) as [-> | Hne]; [exfalso; auto | ].
  rewrite (IH ns); auto.
Qed.

Lemma get_value_unique nvs p :
  NoDup (get_names nvs) -> In p nvs -> get_value nvs (fst p) = Some (snd p).
Proof.
  unfold get_value, get_names.
  induction nvs as [ | q nvs IH]; cbn; intros Hnd Hin; [contradiction | ].
  inversion Hnd as [ | ? ? Hnotin Hnd']; subst.
  destruct Hin as [-> | Hin].
  - rewrite String.eqb_refl. reflexivity.
  - destruct (String.eqb_spec (fst q) (fst p)) as [E | Hne].
    + exfalso. apply Hnotin. rewrite E. apply in_map. exact Hin.
    + apply IH; assumption.
Qed.

Lemma axis_values_loop_collects nvs todo out_v out_n (w : World nv) :
  (forall p, In p todo -> get_value nvs (fst p) = Some (snd p)) ->
  NoDup (out_n ++ map fst todo) ->
  List.length out_v = List.length out_n ->
  axis_values_loop R nvs (map fst todo) (out_v, out_n) w =
  {| outcome := Ret ((out_v ++ map (fun p => wrap_axis_value R (snd p)) todo)%list,
                     (out_n ++ map fst todo)%list);
     world := w; events := [] |}.
Proof.
  revert out_v out_n.
  induction todo as [ | p todo IH]; intros out_v out_n Hget Hnd Hlen;
    cbn [map axis_values_loop].
  - rewrite !app_nil_r. reflexivity.
  - unfold has_value. rewrite (Hget p (or_introl eq_refl)). cbn [fst snd].
    rewrite assign_named_new; [ | | exact Hlen].
    + rewrite IH.
      * rewrite <- !app_assoc. reflexivity.
      * intros q Hq. apply Hget. right. exact Hq.
      * rewrite <- app_assoc. exact Hnd.
      * rewrite !length_app. cbn. lia.
    + intros Hin. apply NoDup_remove_2 in Hnd. apply Hnd.
      apply in_or_app. left. exact Hin.
Qed.

(** X9. nvbenchr_state_get_axis_values returns a named list with one
    element per axis value of the state, in the library's order: the names
    are the axis names, and each element is the wrapped value of that axis
    (the axis names being distinct). *)
Theorem get_axis_values_lists_every_axis a f rest nvs st (w : World nv) :
  a <> nullptr ->
  nv_exec NV (State_get_axis_values a) (nv_state w) = (ERet nvs, st) ->
  NoDup (get_names nvs) ->
  outcome (nvbenchr_state_get_axis_values R NV
             (ExtPtr a f (Str ("nvbench_state" :: rest))) w) =
  Ret (Vec (map (fun p => wrap_axis_value R (snd p)) nvs) (get_names nvs)).
Proof.
  intros Ha Hget Hnd.
  unfold nvbenchr_state_get_axis_values, state_from_xptr.
  unfold bind at 1. rewrite (unwrap_ptr_ok f "nvbench_state" rest w Ha).
  unfold bind at 1. rewrite (native_ret _ w Hget).
  unfold bind at 1. unfold get_names at 1.
  rewrite (axis_values_loop_collects nvs nvs [] []); auto.
  intros p Hp. apply get_value_unique; assumption.
Qed.

(** ** Streams, devices and the callbacks *)

(** X17. The handle that nvbenchr_state_get_stream or
    nvbenchr_launch_get_stream returns is a non-owning "nvbench_stream"
    handle on the stream the library answered, and
    nvbenchr_stream_addressof on that handle asks the library for the
    address of exactly that stream (and asks nothing when the stream is
    null). *)
Theorem stream_handle_round_trip a f rest s st (from_launch : bool)
  (w w' : World nv) :
  a <> nullptr ->
  (if from_launch
   then nv_exec NV (Launch_get_stream a) (nv_state w)
   else nv_exec NV (State_get_cuda_stream a) (nv_state w)) = (ERet s, st) ->
  let r := if from_launch
           then nvbenchr_launch_get_stream NV
                  (ExtPtr a f (Str ("nvbench_launch" :: rest))) w
           else nvbenchr_state_get_stream NV
                  (ExtPtr a f (Str ("nvbench_state" :: rest))) w in
  let h := ExtPtr s false (Str ["nvbench_stream"]) in
  outcome r = Ret h /\
  filter is_native (events (nvbenchr_stream_addressof R NV h w')) =
  (if N.eqb s nullptr then [] else [EvNative (Stream_get_stream s)]).
Proof.
  intros Ha Hs r h. split.
  - unfold r. destruct from_launch;
      unfold nvbenchr_launch_get_stream, nvbenchr_state_get_stream,
        launch_from_xptr, state_from_xptr, wrap_stream_xptr;
      (unfold bind at 1; rewrite (unwrap_ptr_ok f _ rest w Ha));
      (unfold bind at 1; rewrite (native_ret _ w Hs)); reflexivity.
  - unfold nvbenchr_stream_addressof, stream_from_xptr, h.
    destruct (N.eqb_spec s nullptr) as [-> | Hne].
    + reflexivity.
    + unfold bind at 1. rewrite (unwrap_ptr_ok false _ [] w' Hne).
      unfold bind, native.
      destruct (nv_exec NV (Stream_get_stream s) (nv_state w')) as [[x | e] st'];
        reflexivity.
Qed.

(** X6. nvbenchr_state_has_device and nvbenchr_state_get_device agree:
    on the same state the first answers TRUE exactly when the second
    answers something other than NULL, and that answer is the device id. *)
Theorem has_device_agrees_with_get_device a f rest dev st (w : World nv) :
  a <> nullptr ->
  nv_exec NV (State_get_device a) (nv_state w) = (ERet dev, st) ->
  let state := ExtPtr a f (Str ("nvbench_state" :: rest)) in
  exists b v,
    outcome (nvbenchr_state_has_device NV state w) = Ret (wrap_bool b) /\
    outcome (nvbenchr_state_get_device NV state w) = Ret v /\
    (b = true <-> v <> R_NilValue) /\
    (forall id, dev = Some id -> v = wrap_int id).
Proof.
  intros Ha Hd state.
  exists (match dev with Some _ => true | None => false end),
         (match dev with Some id => wrap_int id | None => R_NilValue end).
  split; [ | split; [ | split]].
  - unfold nvbenchr_state_has_device, state_from_xptr, state.
    unfold bind at 1. rewrite (unwrap_ptr_ok f _ rest w Ha).
    unfold bind at 1. rewrite (native_ret _ w Hd). reflexivity.
  - unfold nvbenchr_state_get_device, state_from_xptr, state.
    unfold bind at 1. rewrite (unwrap_ptr_ok f _ rest w Ha).
    unfold bind at 1. rewrite (native_ret _ w Hd).
    destruct dev; reflexivity.
  - destruct dev; cbn; split; intros H; try discriminate; try reflexivity.
    exfalso. apply H. reflexivity.
  - intros id ->. reflexivity.
Qed.


End Properties.

(** * The routines on concrete inputs *)

Module Examples.

Import Sample Inputs.

Example register_default_name :
  nvbenchr_register rcpp nvbench (Clo 1) (Str [""]) world0 =
  {| outcome := Ret bench_handle;
     world := {| global_registry := Some {| m_finalized := false |};
                 nv_state := {| bench_names := ["benchmark"];
                                axis_values := [("N", AxisInt64 8)];
                                summaries := []; runs := 0 |} |};
     events := [EvConvert "name" (Str [""]); EvPreserve (Clo 1);
                EvNative (Mgr_add (Clo 1));
                EvNative (Bench_set_name 1%N "benchmark");
                EvRelease (Clo 1); EvXPtr 1%N false] |}.
Proof. reflexivity. Qed.

Example run_once_then_rejected :
  runs (nv_state world2) = 1%nat /\
  outcome (nvbenchr_run_all_benchmarks rcpp nvbench (Str []) world2) =
  RStop "Benchmarks already executed" /\
  outcome (nvbenchr_register rcpp nvbench (Clo 2) (Str ["c"]) world2) =
  RStop "Cannot register benchmarks after execution".
Proof. repeat split. Qed.

Example get_int64_existing_axis :
  outcome (nvbenchr_state_get_int64 rcpp nvbench state_handle (Str ["N"]) world0)
  = Ret (Real [8%float]).
Proof. reflexivity. Qed.

(** C1. Not every failure of a call becomes an R error: asking a state for
    the int64 value of an axis it does not have makes the library throw,
    and nvbenchr_state_get_int64 lets that exception escape where
    GlobalBenchmarkRegistry::run would have turned it into an R error. *)
Theorem native_exception_escapes_state_get_int64 :
  outcome (nvbenchr_state_get_int64 rcpp nvbench state_handle (Str ["missing"])
             world0)
  = Throw (StdException "No value with name 'missing'.").
Proof. reflexivity. Qed.

(** C2 fails as stated: with a name of the wrong type,
    nvbenchr_benchmark_set_name raises the type error only after it has
    unwrapped the handle and cast its address. *)
Lemma validation_first_counterexample :
  let r := nvbenchr_benchmark_set_name rcpp nvbench bench_handle (Int [42])
             world0 in
  Rcpp_as_string rcpp (Int [42]) = AsFail "Expecting a single string value" /\
  outcome r = RStop "Expected string for name: Expecting a single string value" /\
  events r = [EvUnwrap "nvbench_benchmark" bench_handle;
              EvCast "nvbench_benchmark" 1%N; EvConvert "name" (Int [42])] /\
  ~ validation_first (events r).
Proof.
  cbv zeta. repeat split.
  intros H.
  specialize (H [EvUnwrap "nvbench_benchmark" bench_handle;
                 EvCast "nvbench_benchmark" 1%N] "name" (Int [42]) []
                eq_refl).
  discriminate H.
Qed.

(** With both arguments wrong, the error is the one about the handle. *)
Example wrong_handle_reported_first :
  nvbenchr_benchmark_set_name rcpp nvbench R_NilValue (Int [42]) world0 =
  {| outcome := RStop "Expected external pointer for nvbench_benchmark";
     world := world0;
     events := [EvUnwrap "nvbench_benchmark" R_NilValue] |}.
Proof. reflexivity. Qed.

(** ** The theorems at concrete inputs *)

Lemma handle_class_checked_before_cast_witness :
  handle_of confused_call = Some (bench_handle, "nvbench_state") /\
  wrong_handle "nvbench_state" bench_handle = true /\
  (exists msg,
     outcome (dispatch rcpp nvbench LeftToRight confused_call world0) = RStop msg) /\
  existsb is_cast (events (dispatch rcpp nvbench LeftToRight confused_call world0))
  = false.
Proof.
  split; [reflexivity | split; [reflexivity | ]].
  pose proof (@handle_class_checked_before_cast lib rcpp nvbench LeftToRight
                confused_call bench_handle "nvbench_state" world0
                eq_refl eq_refl) as H.
  destruct H as [_ [H1 [H2 _]]]. split; [exact H1 | exact H2].
Defined.

Lemma handle_unwrapped_before_validation_witness :
  handle_of wrong_both_call = Some (R_NilValue, "nvbench_benchmark") /\
  has_value_args wrong_both_call = true /\
  launcher_ok wrong_both_call = true /\
  wrong_handle "nvbench_benchmark" R_NilValue = true /\
  events (dispatch rcpp nvbench LeftToRight wrong_both_call world0) =
  [EvUnwrap "nvbench_benchmark" R_NilValue].
Proof.
  split; [reflexivity | ]. split; [reflexivity | ].
  split; [reflexivity | ]. split; [reflexivity | ].
  pose proof (@handle_unwrapped_before_validation lib rcpp nvbench LeftToRight
                wrong_both_call R_NilValue "nvbench_benchmark" world0
                eq_refl eq_refl eq_refl) as H.
  destruct H as [_ [_ [H _]]]. exact (proj2 (H eq_refl)).
Defined.

(** A call that goes through: unwrap, two conversions, the library. *)
Example axis_call_in_order :
  events (dispatch rcpp nvbench RightToLeft axis_call world1) =
  [EvUnwrap "nvbench_benchmark" bench_handle; EvCast "nvbench_benchmark" 1%N;
   EvConvert "values" (Int [1; 2; 4]); EvConvert "name" (Str ["n"]);
   EvNative (Bench_add_int64_axis 1%N "n" [1; 2; 4] false)] /\
  in_order (events (dispatch rcpp nvbench RightToLeft axis_call world1)) = true.
Proof. split; reflexivity. Qed.

Lemma registry_runs_at_most_once_witness :
  global_registry world1 = Some {| m_finalized := false |} /\
  Rcpp_as_strings rcpp (Str []) = AsOk [] /\
  nv_benchmarks_empty nvbench (nv_state world1) = false /\
  finalized world2 /\
  exists msg,
    outcome (nvbenchr_run_all_benchmarks rcpp nvbench (Str ["--list"])
               (run_calls rcpp nvbench LeftToRight later_calls world2))
    = RStop msg.
Proof.
  split; [reflexivity | ]. split; [reflexivity | ]. split; [reflexivity | ].
  pose proof (@registry_runs_at_most_once lib rcpp nvbench LeftToRight
                (Str []) [] later_calls (Str ["--list"]) world1
                {| m_finalized := false |} eq_refl eq_refl eq_refl) as H.
  cbv zeta in H. destruct H as [H1 [H2 _]]. split; [exact H1 | exact H2].
Defined.

Lemma register_rejected_after_run_witness :
  finalized world2 /\
  finalized (run_calls rcpp nvbench LeftToRight later_calls world2) /\
  exists msg,
    outcome (nvbenchr_register rcpp nvbench (Clo 3) (Str ["d"])
               (run_calls rcpp nvbench LeftToRight later_calls world2))
    = RStop msg.
Proof.
  split; [reflexivity | ].
  pose proof (@register_rejected_after_run lib rcpp nvbench LeftToRight
                later_calls (Clo 3) (Str ["d"]) world2 eq_refl) as H.
  cbv zeta in H. destruct H as [H1 [_ [H2 _]]]. split; [exact H1 | exact H2].
Defined.

Lemma run_all_without_benchmarks_witness :
  global_registry world0 = Some {| m_finalized := false |} /\
  Rcpp_as_strings rcpp (Str []) = AsOk [] /\
  nv_benchmarks_empty nvbench (nv_state world0) = true /\
  outcome (nvbenchr_run_all_benchmarks rcpp nvbench (Str []) world0) =
  RStop "No benchmarks registered" /\
  world (nvbenchr_run_all_benchmarks rcpp nvbench (Str []) world0) = world0.
Proof.
  split; [reflexivity | ]. split; [reflexivity | ]. split; [reflexivity | ].
  pose proof (@run_all_without_benchmarks lib rcpp nvbench (Str []) [] world0
                {| m_finalized := false |} eq_refl eq_refl eq_refl) as H.
  cbv zeta in H. destruct H as [H1 [H2 _]]. split; [exact H1 | exact H2].
Defined.

Lemma handles_are_non_owning_witness :
  creates_handle (C_register (Clo 1) (Str ["b"])) = true /\
  outcome (dispatch rcpp nvbench LeftToRight (C_register (Clo 1) (Str ["b"])) world0)
  = Ret bench_handle /\
  finalize bench_handle = [].
Proof.
  split; [reflexivity | split; [reflexivity | ]].
  pose proof (@handles_are_non_owning lib rcpp nvbench LeftToRight world0) as H.
  destruct H as [_ [_ [_ [_ H]]]].
  exact (H (C_register (Clo 1) (Str ["b"])) bench_handle eq_refl eq_refl).
Defined.

Lemma truncation_of_two_point_nine : truncation_of two_point_nine 2.
Proof. cbv. repeat split; discriminate. Qed.

Lemma truncation_of_minus_two_point_nine :
  truncation_of minus_two_point_nine (-2).
Proof. cbv. repeat split; discriminate. Qed.

Lemma as_int64_vec_truncates_witness :
  Rcpp_as_numeric rcpp (Real [two_point_nine; minus_two_point_nine]) =
  AsOk [two_point_nine; minus_two_point_nine] /\
  Forall2 truncation_of [two_point_nine; minus_two_point_nine] [2; -2] /\
  Forall in_int64_range [2; -2] /\
  as_int64_vec rcpp (Real [two_point_nine; minus_two_point_nine]) "values" world0 =
  {| outcome := Ret [2; -2]; world := world0;
     events := [EvConvert "values"
                  (Real [two_point_nine; minus_two_point_nine])] |} /\
  as_int64_vec rcpp (Str ["a"]) "values" world0 =
  {| outcome := RStop "Expected numeric vector for values: Not compatible with requested type";
     world := world0; events := [EvConvert "values" (Str ["a"])] |}.
Proof.
  assert (H2 : Forall2 truncation_of [two_point_nine; minus_two_point_nine] [2; -2]).
  { constructor; [exact truncation_of_two_point_nine | ].
    constructor; [exact truncation_of_minus_two_point_nine | constructor]. }
  assert (Hr : Forall in_int64_range [2; -2]).
  { constructor; [split; discriminate | ].
    constructor; [split; discriminate | constructor]. }
  split; [reflexivity | split; [exact H2 | split; [exact Hr | split]]].
  - pose proof (@as_int64_vec_truncates lib rcpp
                  (Real [two_point_nine; minus_two_point_nine]) "values" world0)
      as H.
    cbn [Rcpp_as_numeric rcpp] in H. destruct H as [_ H]. exact (H _ H2 Hr).
  - exact (@as_int64_vec_truncates lib rcpp (Str ["a"]) "values" world0).
Defined.

Lemma register_names_benchmark_witness :
  nvbenchr_register rcpp nvbench (Clo 1) (Str [""]) world0 =
  {| outcome := Ret (ExtPtr 1%N false (Str ["nvbench_benchmark"]));
     world := {| global_registry := Some {| m_finalized := false |};
                 nv_state := {| bench_names := ["benchmark"];
                                axis_values := [("N", AxisInt64 8)];
                                summaries := []; runs := 0 |} |};
     events := [EvConvert "name" (Str [""]); EvPreserve (Clo 1);
                EvNative (Mgr_add (Clo 1));
                EvNative (Bench_set_name 1%N "benchmark");
                EvRelease (Clo 1); EvXPtr 1%N false] |}.
Proof.
  apply (@register_names_benchmark lib rcpp nvbench (Clo 1) (Str [""])
           "" "benchmark" 1%N
           {| bench_names := [""]; axis_values := [("N", AxisInt64 8)];
              summaries := []; runs := 0 |}
           1%N
           {| bench_names := ["benchmark"]; axis_values := [("N", AxisInt64 8)];
              summaries := []; runs := 0 |}
           world0);
    try reflexivity.
  intros H. exfalso. apply H. reflexivity.
Defined.

Lemma add_summary_by_value_type_witness :
  nvbenchr_state_add_summary rcpp nvbench state_handle (Str ["tag"]) (Int [5])
    world0 =
  {| outcome := Ret R_NilValue;
     world := {| global_registry := Some {| m_finalized := false |};
                 nv_state :=
                   lib_with_summary
                     [("description", AxisString "User tag: tag");
                      ("name", AxisString "tag"); ("value", AxisInt64 5)] |};
     events := summary_prefix state_handle (Str ["tag"]) 1%N "tag" 1%N ++
               [EvNative (Summary_set_int64 1%N "value" 5)] |}.
Proof.
  pose proof (@add_summary_by_value_type lib rcpp nvbench 1%N false []
                (Str ["tag"]) (Int [5]) "tag" 1%N
                (lib_with_summary [])
                (lib_with_summary [("description", AxisString "User tag: tag")])
                (lib_with_summary [("description", AxisString "User tag: tag");
                                   ("name", AxisString "tag")])
                world0) as H.
  refine (H _ eq_refl eq_refl eq_refl eq_refl 5 [] _ eq_refl eq_refl).
  discriminate.
Defined.

End Examples.


(** * Further examples *)

Module MoreExamples.

Import Sample Inputs MoreInputs.

(** Both conversions of one call fail: the error reported depends on the
    order of evaluation, the calls into the library do not. *)
Example order_shows_in_the_error_only :
  outcome (dispatch rcpp nvbench LeftToRight
             (C_benchmark_add_int64_axis bench_handle (Int [1]) (Str ["a"])) world1)
  = RStop "Expected string for name: Expecting a single string value" /\
  outcome (dispatch rcpp nvbench RightToLeft
             (C_benchmark_add_int64_axis bench_handle (Int [1]) (Str ["a"])) world1)
  = RStop "Expected numeric vector for values: Not compatible with requested type".
Proof. split; reflexivity. Qed.

Lemma failed_load_leaves_no_registry_witness :
  global_registry unloaded = None /\
  nv_exec failing_driver Driver_cuInit (nv_state unloaded) =
  (EThrow (StdException "cuInit failed"), lib0) /\
  outcome (R_init_nvbenchr failing_driver unloaded) =
  Throw (StdException "cuInit failed") /\
  outcome (nvbenchr_register rcpp failing_driver (Clo 1) (Str ["b"])
             (run_calls rcpp failing_driver LeftToRight
                [C_benchmark_get_name bench_handle]
                (world (R_init_nvbenchr failing_driver unloaded))))
  = RStop "nvbenchr registry is not initialized".
Proof.
  pose proof (@failed_load_leaves_no_registry lib rcpp failing_driver
                LeftToRight (StdException "cuInit failed") lib0
                [C_benchmark_get_name bench_handle] (Clo 1) (Str ["b"])
                (Str []) unloaded eq_refl eq_refl) as H.
  cbv zeta in H. destruct H as [H1 [_ [H3 _]]].
  split; [reflexivity | ]. split; [reflexivity | ].
  split; [exact H1 | ]. rewrite H3. reflexivity.
Defined.

Lemma register_refuses_non_function_witness :
  Rf_isFunction (Int [1]) = false /\
  outcome (nvbenchr_register rcpp nvbench (Int [1]) (Str ["b"]) world0) =
  RStop "Benchmark must be a function" /\
  outcome (nvbenchr_register rcpp nvbench (Int [1]) (Str ["b"]) world2) =
  RStop "Cannot register benchmarks after execution".
Proof.
  split; [reflexivity | ]. split.
  - destruct (@register_refuses_non_function lib rcpp nvbench (Int [1])
                (Str ["b"]) world0 eq_refl) as [evs [H _]].
    rewrite H. reflexivity.
  - destruct (@register_refuses_non_function lib rcpp nvbench (Int [1])
                (Str ["b"]) world2 eq_refl) as [evs [H _]].
    rewrite H. reflexivity.
Defined.


Lemma failed_parse_uses_up_the_run_witness :
  nv_exec failing_parser Mgr_initialize (nv_state one_benchmark) =
  (ERet tt, nv_state one_benchmark) /\
  nv_exec failing_parser (Parser_parse ["--bad"]) (nv_state one_benchmark) =
  (EThrow (StdException "unknown option"), nv_state one_benchmark) /\
  outcome (nvbenchr_run_all_benchmarks rcpp failing_parser (Str ["--bad"])
             one_benchmark)
  = RStop "nvbench run failed: unknown option" /\
  runs (nv_state (world (nvbenchr_run_all_benchmarks rcpp failing_parser
                           (Str ["--bad"]) one_benchmark))) = 0%nat.
Proof.
  pose proof (@failed_parse_uses_up_the_run lib rcpp failing_parser
                (Str ["--bad"]) ["--bad"] (StdException "unknown option")
                (nv_state one_benchmark) (nv_state one_benchmark) one_benchmark
                eq_refl eq_refl eq_refl eq_refl eq_refl) as H.
  split; [reflexivity | ]. split; [reflexivity | ].
  rewrite H. split; reflexivity.
Defined.

Lemma null_handle_refused_witness :
  handle_of (C_state_get_int64 null_state_handle (Str ["N"])) =
  Some (null_state_handle, "nvbench_state") /\
  launcher_ok (C_state_get_int64 null_state_handle (Str ["N"])) = true /\
  outcome (dispatch rcpp nvbench LeftToRight
             (C_state_get_int64 null_state_handle (Str ["N"])) world0)
  = RStop "Null pointer for nvbench_state".
Proof.
  pose proof (@null_handle_refused lib rcpp nvbench LeftToRight
                (C_state_get_int64 null_state_handle (Str ["N"]))
                null_state_handle "nvbench_state" false [] world0
                eq_refl eq_refl eq_refl) as H.
  split; [reflexivity | ]. split; [reflexivity | ].
  rewrite H. reflexivity.
Defined.

Lemma state_exec_tag_witness :
  Rf_isFunction (Clo 5) = true /\
  Rcpp_as_bool rcpp (Lgl [true]) = AsOk true /\
  Rcpp_as_bool rcpp (Lgl [false]) = AsOk false /\
  filter is_native
    (events (nvbenchr_state_exec rcpp nvbench state_handle (Clo 5) (Lgl [true])
               (Lgl [false]) world0))
  = [EvNative (State_exec 1%N {| tag_sync := false; tag_no_batch := false |}
                (Clo 5))].
Proof.
  assert (Ha : 1%N <> nullptr) by discriminate.
  pose proof (@state_exec_tag lib rcpp nvbench 1%N false [] (Clo 5) (Lgl [true])
                (Lgl [false]) true false lib0 world0 Ha eq_refl eq_refl eq_refl
                eq_refl) as H.
  split; [reflexivity | ]. split; [reflexivity | ]. split; [reflexivity | ].
  unfold state_handle, handle. rewrite H. reflexivity.
Defined.

Lemma memory_byte_count_wraps_witness :
  Rcpp_as_int64 rcpp (Int [-1]) = AsOk (-1) /\
  int64_min <= -1 <= int64_max /\
  filter is_native
    (events (nvbenchr_state_add_global_memory_reads rcpp nvbench LeftToRight
               state_handle (Int [-1]) (Str ["col"]) world0))
  = [EvNative (State_add_global_memory_reads 1%N 18446744073709551615 "col")].
Proof.
  assert (Ha : 1%N <> nullptr) by discriminate.
  assert (Hn : int64_min <= -1 <= int64_max) by (split; discriminate).
  pose proof (@memory_byte_count_wraps lib rcpp nvbench LeftToRight 1%N false []
                (Int [-1]) (Str ["col"]) (-1) "col" lib0 false world0
                Ha eq_refl eq_refl Hn eq_refl) as H.
  cbv zeta in H. destruct H as [_ [H _]].
  split; [reflexivity | ]. split; [exact Hn | ]. exact H.
Defined.

Lemma setters_return_handle_or_null_witness :
  handle_of (C_benchmark_set_name bench_handle (Str ["x"])) =
  Some (bench_handle, "nvbench_benchmark") /\
  outcome (dispatch rcpp nvbench LeftToRight
             (C_benchmark_set_name bench_handle (Str ["x"])) world1)
  = Ret bench_handle /\
  (configures_benchmark (C_benchmark_set_name bench_handle (Str ["x"])) = true ->
   bench_handle = bench_handle) /\
  (changes_state (C_benchmark_set_name bench_handle (Str ["x"])) = true ->
   bench_handle = R_NilValue).
Proof.
  split; [reflexivity | ]. split; [reflexivity | ].
  exact (@setters_return_handle_or_null lib rcpp nvbench LeftToRight
           (C_benchmark_set_name bench_handle (Str ["x"])) bench_handle
           "nvbench_benchmark" bench_handle world1 eq_refl eq_refl).
Defined.

Lemma quiet_never_throws : never_throwing Quiet.nvbench.
Proof. intros T c st. exists (default_result c), st. reflexivity. Qed.



Lemma int64_axes_receive_truncated_values_witness :
  Rcpp_as_string rcpp (Str ["n"]) = AsOk "n" /\
  Rcpp_as_numeric rcpp (Real [two_point_nine; minus_two_point_nine]) =
  AsOk [two_point_nine; minus_two_point_nine] /\
  Forall2 truncation_of [two_point_nine; minus_two_point_nine] [2; -2] /\
  Forall in_int64_range [2; -2] /\
  filter is_native
    (events (nvbenchr_benchmark_add_int64_power_of_two_axis rcpp nvbench
               LeftToRight bench_handle (Str ["n"])
               (Real [two_point_nine; minus_two_point_nine]) world1))
  = [EvNative (Bench_add_int64_axis 1%N "n" [2; -2] true)].
Proof.
  assert (Ha : 1%N <> nullptr) by discriminate.
  assert (H2 : Forall2 truncation_of [two_point_nine; minus_two_point_nine] [2; -2]).
  { constructor; [exact Examples.truncation_of_two_point_nine | ].
    constructor; [exact Examples.truncation_of_minus_two_point_nine | constructor]. }
  assert (Hr : Forall in_int64_range [2; -2]).
  { constructor; [split; discriminate | ].
    constructor; [split; discriminate | constructor]. }
  pose proof (@int64_axes_receive_truncated_values lib rcpp nvbench LeftToRight
                1%N false [] (Str ["n"])
                (Real [two_point_nine; minus_two_point_nine]) "n"
                [two_point_nine; minus_two_point_nine] [2; -2] (nv_state world1)
                true world1 Ha eq_refl eq_refl H2 Hr eq_refl) as H.
  cbv zeta in H. destruct H as [_ H].
  split; [reflexivity | ]. split; [reflexivity | ].
  split; [exact H2 | ]. split; [exact Hr | ]. exact H.
Defined.

Lemma three_axes_distinct : NoDup (get_names three_axes).
Proof.
  cbn. constructor; [cbn; intuition discriminate | ].
  constructor; [cbn; intuition discriminate | ].
  constructor; [cbn; intuition discriminate | constructor].
Qed.

Lemma get_axis_values_lists_every_axis_witness :
  nv_exec nvbench (State_get_axis_values 1%N) (nv_state three_axes_world) =
  (ERet three_axes, nv_state three_axes_world) /\
  NoDup (get_names three_axes) /\
  outcome (nvbenchr_state_get_axis_values rcpp nvbench state_handle
             three_axes_world)
  = Ret (Vec [Real [double_of_Z 8]; Str ["f32"]; Real [double_of_Z 2]]
           ["N"; "T"; "S"]).
Proof.
  assert (Ha : 1%N <> nullptr) by discriminate.
  pose proof (@get_axis_values_lists_every_axis lib rcpp nvbench 1%N false []
                three_axes (nv_state three_axes_world) three_axes_world Ha
                eq_refl three_axes_distinct) as H.
  split; [reflexivity | ]. split; [exact three_axes_distinct | ]. exact H.
Defined.

Lemma stream_handle_round_trip_witness :
  nv_exec nvbench (State_get_cuda_stream 1%N) (nv_state world0) =
  (ERet 1%N, lib0) /\
  outcome (nvbenchr_state_get_stream nvbench state_handle world0) =
  Ret (handle 1%N "nvbench_stream") /\
  filter is_native
    (events (nvbenchr_stream_addressof rcpp nvbench
               (handle 1%N "nvbench_stream") world1))
  = [EvNative (Stream_get_stream 1%N)].
Proof.
  assert (Ha : 1%N <> nullptr) by discriminate.
  pose proof (@stream_handle_round_trip lib rcpp nvbench 1%N false [] 1%N lib0
                false world0 world1 Ha eq_refl) as H.
  cbv zeta in H. destruct H as [H1 H2].
  split; [reflexivity | ]. split; [exact H1 | exact H2].
Defined.

Lemma has_device_agrees_with_get_device_witness :
  nv_exec nvbench (State_get_device 1%N) (nv_state world0) =
  (ERet (Some 0), lib0) /\
  exists b v,
    outcome (nvbenchr_state_has_device nvbench state_handle world0) =
    Ret (wrap_bool b) /\
    outcome (nvbenchr_state_get_device nvbench state_handle world0) = Ret v /\
    (b = true <-> v <> R_NilValue) /\
    (forall id, Some 0 = Some id -> v = wrap_int id).
Proof.
  assert (Ha : 1%N <> nullptr) by discriminate.
  split; [reflexivity | ].
  exact (@has_device_agrees_with_get_device lib nvbench 1%N false [] (Some 0)
           lib0 world0 Ha eq_refl).
Defined.

End MoreExamples.
